(** * Wannasurf scraper: a shallow embedding of [wannasurf_scraper.py]

    The development follows the source file top to bottom:

    - [Py]: the Python string and dict operations the scraper calls;
    - [Bs4]: the part of BeautifulSoup's navigable tree the scraper uses
      (search by name, class, id and attribute, text extraction, document
      order, [extract]);
    - [clean_text], [parse_seasons_table], [Spot], [parse_spot_page],
      [Zone], [parse_country_or_zone_page], [parse_homepage],
      [build_excel_workbook] and [main], each translated from the function
      of the same name.

    Conventions.  A Python [str] is a Rocq [string], one character per code
    point (code points below 256).  A function that can raise returns a
    [result]; the recursive page parser takes fuel and returns [None] only
    when the fuel runs out.  The network, the HTML parser and [urljoin] are
    the fields of an environment [Env] that every function takes; the
    parser is taken on markup that it accepts (bs4 raises
    [ParserRejectedMarkup] on a few malformed declarations, and a page
    with one is outside the model).  Of xlsxwriter the check of sheet
    names is modelled, with its two exceptions; the writing of the file
    is not.  Output printed only under [DEBUG] is not modelled; every
    unconditional [print] is kept, as a line of the log. *)

From Stdlib Require Import Ascii.
From Stdlib Require String.
From stdpp Require Import base option list strings gmap pretty.

#[local] Set Warnings "-register-all".

(** ** Exceptions and results *)

(** The exceptions the scraper can meet, the last two raised by xlsxwriter;
    all derive from [Exception], so the [except Exception] handlers of the
    source catch each of them. *)
Inductive exn :=
| RequestException (msg : string)
| IndexError (msg : string)
| AttributeError (msg : string)
| ValueError (msg : string)
| InvalidWorksheetName (msg : string)
| DuplicateWorksheetName (msg : string).

(** [str(e)], as interpolated by the warning messages. *)
Definition exn_str (e : exn) : string :=
  match e with
  | RequestException m | IndexError m | AttributeError m | ValueError m
  | InvalidWorksheetName m | DuplicateWorksheetName m => m
  end.

Inductive result (A : Type) :=
| Ok (a : A)
| Raise (e : exn).
Arguments Ok {A} a.
Arguments Raise {A} e.

Definition rbind {A B} (r : result A) (k : A → result B) : result B :=
  match r with
  | Ok a => k a
  | Raise e => Raise e
  end.

Notation "x ←r e ; k" := (rbind e (λ x, k))
  (at level 100, e at next level, k at level 200, right associativity,
   format "'[v' x  ←r  e ;  '/' k ']'").

(** A loop whose body can raise: the first exception ends the loop. *)
Fixpoint rfold {A S} (f : S → A → result S) (l : list A) (s : S) : result S :=
  match l with
  | [] => Ok s
  | a :: l' => s' ←r f s a; rfold f l' s'
  end.

(** ** Python strings and dicts *)

Module Py.

Definition chars : string → list ascii := String.list_ascii_of_string.
Definition str : list ascii → string := String.string_of_list_ascii.

(** [str.isspace] on one character: the Unicode white space below 256.
    The same class is what [\s] matches in [re] and what [strip] removes. *)
Definition isspace (c : ascii) : bool :=
  let n := nat_of_ascii c in
  (((9 <=? n) && (n <=? 13)) || ((28 <=? n) && (n <=? 32))
   || (n =? 133) || (n =? 160))%nat.

Fixpoint drop_while (P : ascii → bool) (l : list ascii) : list ascii :=
  match l with
  | [] => []
  | c :: l' => if P c then drop_while P l' else l
  end.

Definition lstrip_by (P : ascii → bool) (s : string) : string :=
  str (drop_while P (chars s)).
Definition rstrip_by (P : ascii → bool) (s : string) : string :=
  str (reverse (drop_while P (reverse (chars s)))).

(** [s.strip()] *)
Definition strip (s : string) : string :=
  rstrip_by isspace (lstrip_by isspace s).

(** [s.rstrip(c)] for a one-character argument. *)
Definition rstrip_char (c : ascii) (s : string) : string :=
  rstrip_by (λ x, bool_decide (x = c)) s.

(** [s.lower()]: A-Z, and the upper-case letters of Latin-1
    (192..222 without the multiplication sign 215). *)
Definition lower_char (c : ascii) : ascii :=
  let n := nat_of_ascii c in
  if (((65 <=? n) && (n <=? 90))
      || ((192 <=? n) && (n <=? 222) && negb (n =? 215)))%nat
  then ascii_of_nat (n + 32) else c.
Definition lower (s : string) : string := str (map lower_char (chars s)).

Definition is_ascii_alpha (c : ascii) : bool :=
  let n := nat_of_ascii c in
  (((65 <=? n) && (n <=? 90)) || ((97 <=? n) && (n <=? 122)))%nat.
Definition is_ascii_digit (c : ascii) : bool :=
  let n := nat_of_ascii c in ((48 <=? n) && (n <=? 57))%nat.

Definition upper_ascii (c : ascii) : ascii :=
  let n := nat_of_ascii c in
  if ((97 <=? n) && (n <=? 122))%nat then ascii_of_nat (n - 32) else c.

(** [s.title()] on ASCII text: a letter that follows a letter is
    lower-cased, any other letter is upper-cased.  The source applies it
    to the six month keys only. *)
Fixpoint title_go (prev_cased : bool) (l : list ascii) : list ascii :=
  match l with
  | [] => []
  | c :: l' =>
      (if prev_cased then lower_char c else upper_ascii c)
        :: title_go (is_ascii_alpha c) l'
  end.
Definition title (s : string) : string := str (title_go false (chars s)).

(** [s.replace(old, new)] where [old] is one character, as in every call
    of the source. *)
Fixpoint replace (old : ascii) (new : string) (s : string) : string :=
  match s with
  | "" => ""
  | String c s' =>
      if bool_decide (c = old) then new +:+ replace old new s'
      else String c (replace old new s')
  end.

(** [re.sub(P+, r, s)] for a character class [P]: every maximal run of
    characters of the class becomes one [r]. *)
Fixpoint sub_runs (P : ascii → bool) (r : ascii) (in_run : bool)
    (l : list ascii) : list ascii :=
  match l with
  | [] => []
  | c :: l' =>
      if P c then
        if in_run then sub_runs P r true l' else r :: sub_runs P r true l'
      else c :: sub_runs P r false l'
  end.
Definition re_sub_runs (P : ascii → bool) (r : ascii) (s : string) : string :=
  str (sub_runs P r false (chars s)).

Definition startswith (s pre : string) : bool := String.prefix pre s.
Definition endswith (s suf : string) : bool :=
  String.prefix (String.rev suf) (String.rev s).

(** [sub in s] *)
Fixpoint contains (sub s : string) : bool :=
  String.prefix sub s ||
  match s with
  | "" => false
  | String _ s' => contains sub s'
  end.

(** [s.split(sep)[0]] for a non-empty [sep]: the text before the first
    occurrence of [sep], or all of [s]. *)
Fixpoint split_head (sep s : string) : string :=
  if String.prefix sep s then ""
  else match s with
       | "" => ""
       | String c s' => String c (split_head sep s')
       end.

(** [s.split(c)] for a one-character separator. *)
Fixpoint split_char_go (c : ascii) (cur : list ascii) (l : list ascii)
    : list string :=
  match l with
  | [] => [str (reverse cur)]
  | x :: l' =>
      if bool_decide (x = c) then str (reverse cur) :: split_char_go c [] l'
      else split_char_go c (x :: cur) l'
  end.
Definition split_char (c : ascii) (s : string) : list string :=
  split_char_go c [] (chars s).

(** [l[-2]] *)
Definition index_m2 (l : list string) : result string :=
  match reverse l with
  | _ :: x :: _ => Ok x
  | _ => Raise (IndexError "list index out of range")
  end.

(** [s[:n]] *)
Definition take (n : nat) (s : string) : string := str (firstn n (chars s)).

(** [sep.join(l)] *)
Definition join (sep : string) (l : list string) : string :=
  String.concat sep l.

(** [str(n)] for a non-negative integer. *)
Definition str_of_nat (n : nat) : string := pretty n.

(** *** Dicts

    A [dict] keeps its keys in insertion order and assigning to a key
    that is present overwrites the value in place. *)
Definition dict (V : Type) := list (string * V).

Fixpoint dict_get {V} (d : dict V) (k : string) : option V :=
  match d with
  | [] => None
  | (k', v) :: d' => if bool_decide (k' = k) then Some v else dict_get d' k
  end.

Fixpoint dict_set {V} (d : dict V) (k : string) (v : V) : dict V :=
  match d with
  | [] => [(k, v)]
  | (k', v') :: d' =>
      if bool_decide (k' = k) then (k, v) :: d'
      else (k', v') :: dict_set d' k v
  end.

Definition dict_in {V} (k : string) (d : dict V) : bool :=
  bool_decide (is_Some (dict_get d k)).

(** An update of the object stored under [k], in place. *)
Fixpoint dict_alter {V} (f : V → V) (k : string) (d : dict V) : dict V :=
  match d with
  | [] => []
  | (k', v) :: d' =>
      if bool_decide (k' = k) then (k', f v) :: d'
      else (k', v) :: dict_alter f k d'
  end.

(** [repr(s)]: the text between quotes, double quotes when it holds a
    single quote and no double quote, with the backslash escapes of Python
    for the quote, the backslash and the characters that are not
    printable. *)
Definition hex_digit (n : nat) : ascii :=
  ascii_of_nat (if (n <? 10)%nat then 48 + n else 87 + n).

Definition printable (c : ascii) : bool :=
  let n := nat_of_ascii c in
  ((32 <=? n) && (n <=? 126) || (161 <=? n) && negb (n =? 173))%nat.

Definition repr_char (quote : ascii) (c : ascii) : list ascii :=
  let n := nat_of_ascii c in
  if bool_decide (c = quote) || bool_decide (c = "\"%char)
  then ["\"%char; c]
  else if bool_decide (c = "009"%char) then ["\"%char; "t"%char]
  else if bool_decide (c = "010"%char) then ["\"%char; "n"%char]
  else if bool_decide (c = "013"%char) then ["\"%char; "r"%char]
  else if printable c then [c]
  else ["\"%char; "x"%char; hex_digit (n / 16); hex_digit (n mod 16)].

Definition repr (s : string) : string :=
  let l := chars s in
  let quote :=
    if existsb (λ c, bool_decide (c = "'"%char)) l
       && negb (existsb (λ c, bool_decide (c = "034"%char)) l)
    then "034"%char else "'"%char in
  str (quote :: flat_map (repr_char quote) l ++ [quote]).

End Py.

(** ** BeautifulSoup's tree

    A parsed document is a tree of tags and text nodes.  The scraper keeps
    references to elements while it removes others with [extract]; an
    element is therefore named by its path from the document root (the
    child indices), and [extract] marks the element in place as [Detached]
    instead of deleting it, so every path stays valid.  All navigation from
    a tag skips [Detached] children, exactly as the removed element is gone
    from its parent's [contents] in BeautifulSoup, while a reference taken
    before the removal still reaches the element through its path. *)

Module Bs4.

Inductive node :=
| NavigableString (s : string)
| Tag (name : string) (attrs : list (string * string)) (contents : list node)
| Detached (n : node).

Definition path := list nat.

(** The [BeautifulSoup] object built from the parser's top-level nodes. *)
Definition BeautifulSoup (top : list node) : node := Tag "[document]" [] top.

Fixpoint undetach (n : node) : node :=
  match n with
  | Detached n' => undetach n'
  | _ => n
  end.

Definition is_tag (n : node) : bool :=
  match n with Tag _ _ _ => true | _ => false end.

Definition tag_name (n : node) : string :=
  match n with Tag nm _ _ => nm | _ => "" end.

(** The element a path names, whether it is still attached or not. *)
Fixpoint at_path (p : path) (n : node) : option node :=
  match p with
  | [] => Some (undetach n)
  | i :: p' =>
      match undetach n with
      | Tag _ _ cs => c ← cs !! i; at_path p' c
      | _ => None
      end
  end.

(** [tag.get(k)]: the parser leaves one value per attribute name. *)
Fixpoint assoc (k : string) (l : list (string * string)) : option string :=
  match l with
  | [] => None
  | (k', v) :: l' => if bool_decide (k' = k) then Some v else assoc k l'
  end.
Definition get (n : node) (k : string) : option string :=
  match n with Tag _ a _ => assoc k a | _ => None end.

(** [tag.children] with the index of each child: the attached children. *)
Fixpoint attached_from (i : nat) (cs : list node) : list (nat * node) :=
  match cs with
  | [] => []
  | Detached _ :: cs' => attached_from (S i) cs'
  | c :: cs' => (i, c) :: attached_from (S i) cs'
  end.
Definition children (n : node) : list (nat * node) :=
  match n with Tag _ _ cs => attached_from 0 cs | _ => [] end.

(** [tag.descendants]: every attached node below [n] in document order,
    with its path relative to [n]. *)
Fixpoint descendants (n : node) : list (path * node) :=
  match n with
  | Tag _ _ cs =>
      (fix go (i : nat) (cs : list node) : list (path * node) :=
         match cs with
         | [] => []
         | c :: cs' =>
             match c with
             | Detached _ => []
             | _ => ([i], c) :: map (λ pd, (i :: pd.1, pd.2)) (descendants c)
             end ++ go (S i) cs'
         end) 0 cs
  | _ => []
  end.

(** The text nodes below [n], in document order. *)
Definition all_strings (n : node) : list string :=
  omap (λ pd, match pd.2 with NavigableString s => Some s | _ => None end)
       (descendants n).

(** [tag.get_text()] *)
Definition get_text (n : node) : string := Py.join "" (all_strings n).

(** [tag.get_text(sep, strip=True)]: each string is stripped and the empty
    ones are dropped before joining. *)
Definition get_text_strip (sep : string) (n : node) : string :=
  Py.join sep
    (filter (λ s, s ≠ "") (map Py.strip (all_strings n))).

(** [tag.string]: the text of a tag whose only child is a string, or whose
    only child is a tag with such a [string]. *)
Fixpoint tag_string (n : node) : option string :=
  match n with
  | NavigableString s => Some s
  | Tag _ _ cs =>
      match (fix go (cs : list node) : list (option string) :=
               match cs with
               | [] => []
               | Detached _ :: cs' => go cs'
               | c :: cs' => tag_string c :: go cs'
               end) cs with
      | [r] => r
      | _ => None
      end
  | Detached _ => None
  end.

(** The values of the multi-valued [class] attribute. *)
Fixpoint tokens_go (cur : list ascii) (l : list ascii) : list string :=
  match l with
  | [] => match cur with [] => [] | _ => [Py.str (reverse cur)] end
  | c :: l' =>
      if Py.isspace c then
        match cur with
        | [] => tokens_go [] l'
        | _ => Py.str (reverse cur) :: tokens_go [] l'
        end
      else tokens_go (c :: cur) l'
  end.
Definition class_tokens (n : node) : option (list string) :=
  (λ v, tokens_go [] (Py.chars v)) <$> get n "class".

(** [class_="c"]: one of the classes is [c], or the classes joined by a
    space are [c]. *)
Definition has_class (c : string) (n : node) : bool :=
  match class_tokens n with
  | Some ts =>
      existsb (λ t, bool_decide (t = c)) ts
      || bool_decide (Py.join " " ts = c)
  | None => false
  end.

(** [class_=re.compile(pat)] for a pattern that is plain text: [pat]
    occurs in one of the classes, or in the classes joined by a space. *)
Definition class_search (pat : string) (n : node) : bool :=
  match class_tokens n with
  | Some ts =>
      existsb (Py.contains pat) ts || Py.contains pat (Py.join " " ts)
  | None => false
  end.

(** [id="i"] *)
Definition has_id (i : string) (n : node) : bool :=
  bool_decide (get n "id" = Some i).

(** [attrs={k: lambda x: x and sub in x}] *)
Definition attr_contains (k sub : string) (n : node) : bool :=
  match get n k with
  | Some v => negb (bool_decide (v = "")) && Py.contains sub v
  | None => false
  end.

(** [string=lambda x: x and sub in x] *)
Definition string_contains (sub : string) (n : node) : bool :=
  match tag_string n with
  | Some s => negb (bool_decide (s = "")) && Py.contains sub s
  | None => false
  end.

Definition named (nm : string) (n : node) : bool :=
  is_tag n && bool_decide (tag_name n = nm).

(** [tag.find_all(...)]: the matching tags below [n] in document order,
    with their paths relative to [n]. *)
Definition find_all (P : node → bool) (n : node) : list (path * node) :=
  filter (λ pd, is_tag pd.2 && P pd.2) (descendants n).

(** [tag.find(...)] *)
Definition find (P : node → bool) (n : node) : option (path * node) :=
  head (find_all P n).

(** The entries of a document-order listing that come after the element
    at [p]. *)
Fixpoint after (p : path) (l : list (path * node)) : list (path * node) :=
  match l with
  | [] => []
  | pd :: l' => if bool_decide (pd.1 = p) then l' else after p l'
  end.

(** [elem.find_next(...)] for the element of [soup] at path [p]: the first
    matching tag after it in document order (its own descendants
    included). *)
Definition find_next (P : node → bool) (soup : node) (p : path)
    : option (path * node) :=
  head (filter (λ pd, is_tag pd.2 && P pd.2) (after p (descendants soup))).

(** [elem.next_sibling] for the element of [soup] at path [p]. *)
Definition next_sibling (soup : node) (p : path) : option node :=
  match reverse p with
  | [] => None
  | i :: rp =>
      parent ← at_path (reverse rp) soup;
      snd <$> head (filter (λ ic, bool_decide (i < ic.1)) (children parent))
  end.

Fixpoint on_undetached (g : node → node) (n : node) : node :=
  match n with
  | Detached n' => Detached (on_undetached g n')
  | _ => g n
  end.

(** Applies [f] to the child slot that path [p] names. *)
Fixpoint update_at (p : path) (f : node → node) (n : node) : node :=
  match p with
  | [] => f n
  | i :: p' =>
      on_undetached
        (λ m, match m with
              | Tag nm a cs => Tag nm a (alter (update_at p' f) i cs)
              | _ => m
              end) n
  end.

(** [elem.extract()] for the element at path [p]: it leaves its parent.
    Extracting an element that has no parent any more changes nothing. *)
Definition extract (p : path) (soup : node) : node :=
  update_at p (λ n, match n with Detached _ => n | _ => Detached n end) soup.

End Bs4.

(** ** Text cleaning and URL paths *)

(** [clean_text]: non-breaking spaces become spaces, white space is
    collapsed and the ends are trimmed. *)
Definition clean_text (text : string) : string :=
  if bool_decide (text = "") then ""
  else
    let text := Py.replace "160"%char " " text in
    Py.strip (Py.re_sub_runs Py.isspace " "%char text).

Module Url.

(** The first position where [P] holds splits the text: what is before,
    and what is after when there is such a position. *)
Fixpoint break_at (P : ascii → bool) (l : list ascii)
    : list ascii * option (list ascii) :=
  match l with
  | [] => ([], None)
  | c :: l' =>
      if P c then ([], Some l')
      else let r := break_at P l' in (c :: r.1, r.2)
  end.

Definition is_char (c : ascii) : ascii → bool := λ x, bool_decide (x = c).

Definition has_char (c : ascii) (s : string) : bool :=
  existsb (is_char c) (Py.chars s).

Definition scheme_char (c : ascii) : bool :=
  Py.is_ascii_alpha c || Py.is_ascii_digit c
  || is_char "+" c || is_char "-" c || is_char "." c.

Definition uses_params : list string :=
  [""; "ftp"; "hdl"; "prospero"; "http"; "imap"; "https"; "shttp"; "rtsp";
   "rtspu"; "sip"; "sips"; "mms"; "sftp"; "tel"].

(** [_WHATWG_C0_CONTROL_OR_SPACE]: the characters up to the space. *)
Definition c0_control_or_space (c : ascii) : bool :=
  (nat_of_ascii c <=? 32)%nat.

(** [_UNSAFE_URL_BYTES_TO_REMOVE]: tab, carriage return and newline. *)
Definition unsafe_byte (c : ascii) : bool :=
  is_char "009" c || is_char "013" c || is_char "010" c.

(** [s.partition(c)] *)
Definition partition (c : ascii) (s : string) : string * bool * string :=
  let r := break_at (is_char c) (Py.chars s) in
  match r.2 with
  | Some rest => (Py.str r.1, true, Py.str rest)
  | None => (s, false, "")
  end.

(** [s.rpartition(c)[2]]: what follows the last [c], or all of [s]. *)
Definition after_last (c : ascii) (s : string) : string :=
  Py.str (reverse (break_at (is_char c) (reverse (Py.chars s))).1).

(** *** [ipaddress]: which texts are addresses *)

Definition is_hex_digit (c : ascii) : bool :=
  let n := nat_of_ascii c in
  (Py.is_ascii_digit c || (65 <=? n) && (n <=? 70)
   || (97 <=? n) && (n <=? 102))%nat.

(** [int(s, 10)] for a text of decimal digits. *)
Definition decimal (l : list ascii) : nat :=
  foldl (λ n c, 10 * n + (nat_of_ascii c - 48)) 0 l.

(** [IPv4Address._parse_octet] returns: decimal digits, at most three, no
    leading zero, at most 255. *)
Definition octet_ok (octet_str : string) : bool :=
  let l := Py.chars octet_str in
  if bool_decide (octet_str = "") then false
  else if negb (forallb Py.is_ascii_digit l) then false
  else if (3 <? length l)%nat then false
  else if negb (bool_decide (octet_str = "0"))
          && match l with c :: _ => is_char "0" c | [] => false end
  then false
  else (decimal l <=? 255)%nat.

(** [IPv4Address(s)] returns. *)
Definition ipv4_ok (addr_str : string) : bool :=
  negb (has_char "/" addr_str)
  && negb (bool_decide (addr_str = ""))
  && (let octets := Py.split_char "." addr_str in
      bool_decide (length octets = 4) && forallb octet_ok octets).

(** [IPv6Address._parse_hextet] returns: one to four hexadecimal
    digits. *)
Definition hextet_ok (hextet_str : string) : bool :=
  let l := Py.chars hextet_str in
  forallb is_hex_digit l && (length l <=? 4)%nat
  && negb (bool_decide (hextet_str = "")).

(** The positions [1 .. len - 2] of [parts] that hold an empty part. *)
Definition skip_indices (parts : list string) : list nat :=
  omap (λ ip : nat * string,
          if (1 <=? ip.1)%nat && (ip.1 + 1 <? length parts)%nat
             && bool_decide (ip.2 = "")
          then Some ip.1 else None)
       (imap pair parts).

(** [IPv6Address._ip_int_from_string] returns.  An IPv4 suffix is replaced
    by its two hextets, which are valid whatever the address: ["0"] stands
    for each. *)
Definition ipv6_parts_ok (ip_str : string) : bool :=
  negb (bool_decide (ip_str = ""))
  && (let parts := Py.split_char ":" ip_str in
      (3 <=? length parts)%nat
      && match last parts with
         | None => false
         | Some last_part =>
             let v4 := has_char "." last_part in
             (if v4 then ipv4_ok last_part else true)
             && (let parts :=
                   if v4 then removelast parts ++ ["0"; "0"] else parts in
                 let len := length parts in
                 (len <=? 9)%nat
                 && match skip_indices parts with
                    | _ :: _ :: _ => false
                    | [skip_index] =>
                        let first_empty :=
                          bool_decide (head parts = Some "") in
                        let last_empty :=
                          bool_decide (last parts = Some "") in
                        let parts_hi :=
                          if first_empty then skip_index - 1 else skip_index in
                        let parts_lo :=
                          if last_empty then len - skip_index - 1 - 1
                          else len - skip_index - 1 in
                        negb (first_empty && negb (parts_hi =? 0)%nat)
                        && negb (last_empty && negb (parts_lo =? 0)%nat)
                        && (parts_hi + parts_lo + 1 <=? 8)%nat
                        && forallb hextet_ok (take parts_hi parts)
                        && forallb hextet_ok (drop (len - parts_lo) parts)
                    | [] =>
                        bool_decide (len = 8)
                        && negb (bool_decide (head parts = Some ""))
                        && negb (bool_decide (last parts = Some ""))
                        && forallb hextet_ok parts
                    end)
         end).

(** [IPv6Address(s)] returns: no slash, a scope after [%] that is not
    empty and holds no [%], and a valid address before it. *)
Definition ipv6_ok (address : string) : bool :=
  negb (has_char "/" address)
  && (let '(addr, sep, scope_id) := partition "%" address in
      negb (sep && (bool_decide (scope_id = "") || has_char "%" scope_id))
      && ipv6_parts_ok addr).

(** [re.match(r"\Av[a-fA-F0-9]+\..+\Z", hostname)] *)
Definition ipvfuture_ok (hostname : string) : bool :=
  match Py.chars hostname with
  | "v"%char :: l =>
      let digits := (break_at (λ c, negb (is_hex_digit c)) l).1 in
      negb (bool_decide (digits = []))
      && match drop (length digits) l with
         | "."%char :: rest =>
             negb (bool_decide (rest = []))
             && forallb (λ c, negb (is_char "010" c)) rest
         | _ => false
         end
  | _ => false
  end.

(** [_check_bracketed_host] *)
Definition check_bracketed_host (hostname : string) : result unit :=
  if Py.startswith hostname "v" then
    if ipvfuture_ok hostname then Ok tt
    else Raise (ValueError "IPvFuture address is invalid")
  else if ipv4_ok hostname then
    Raise (ValueError "An IPv4 address cannot be in brackets")
  else if ipv6_ok hostname then Ok tt
  else Raise (ValueError (Py.repr hostname +:+
                          " does not appear to be an IPv4 or IPv6 address")).

(** [_check_bracketed_netloc] *)
Definition check_bracketed_netloc (netloc : string) : result unit :=
  let hostname_and_port := after_last "@" netloc in
  let '(before_bracket, have_open_br, bracketed) :=
    partition "[" hostname_and_port in
  if have_open_br then
    if negb (bool_decide (before_bracket = "")) then
      Raise (ValueError "Invalid IPv6 URL")
    else
      let '(hostname, _, port) := partition "]" bracketed in
      if negb (bool_decide (port = "")) && negb (Py.startswith port ":") then
        Raise (ValueError "Invalid IPv6 URL")
      else check_bracketed_host hostname
  else
    check_bracketed_host (partition ":" hostname_and_port).1.1.

(** [urlparse(url).path], after [urllib.parse] of Python 3.11: leading
    control characters and spaces are stripped and every tab, carriage
    return and newline is removed; then the scheme, the network location
    after [//], the fragment, the query and the parameters of the last
    segment are split off in that order.  A network location with an
    unmatched bracket, or with brackets around what is no IPv6 or
    IPvFuture address, raises [ValueError].  ([_checknetloc] never raises
    on text below 256: its normalisation introduces none of [/?#@:].) *)
Definition urlparse_path (url : string) : result string :=
  let l := Py.drop_while c0_control_or_space (Py.chars url) in
  let l := List.filter (λ c, negb (unsafe_byte c)) l in
  let '(scheme, l) :=
    match break_at (is_char ":") l with
    | (c :: pre, Some rest) =>
        if Py.is_ascii_alpha c && forallb scheme_char (c :: pre)
        then (Py.lower (Py.str (c :: pre)), rest) else ("", l)
    | _ => ("", l)
    end in
  l ←r match l with
       | "/"%char :: "/"%char :: rest =>
           let r :=
             break_at (λ x, is_char "/" x || is_char "?" x || is_char "#" x)
                      rest in
           let netloc := r.1 in
           let lb := existsb (is_char "[") netloc in
           let rb := existsb (is_char "]") netloc in
           if (lb && negb rb) || (rb && negb lb)
           then Raise (ValueError "Invalid IPv6 URL")
           else
             _ ←r (if lb && rb then check_bracketed_netloc (Py.str netloc)
                   else Ok tt);
             Ok (drop (length netloc) rest)
       | _ => Ok l
       end;
  let l := (break_at (is_char "#") l).1 in
  let l := (break_at (is_char "?") l).1 in
  let l :=
    if bool_decide (scheme ∈ uses_params) && existsb (is_char ";") l then
      if existsb (is_char "/") l then
        (* the first [;] at or after the last [/] *)
        let rl := reverse l in
        let last_seg := reverse (break_at (is_char "/") rl).1 in
        let dir := take (length l - length last_seg) l in
        dir ++ (break_at (is_char ";") last_seg).1
      else (break_at (is_char ";") l).1
    else l in
  Ok (Py.str l).

(** [os.path.basename(p)]: what follows the last [/]. *)
Definition basename (p : string) : string :=
  Py.str (reverse (break_at (is_char "/") (reverse (Py.chars p))).1).

End Url.

(** ** The seasons table *)

Definition none_has_no (attr : string) : exn :=
  AttributeError ("'NoneType' object has no attribute '" +:+ attr +:+ "'").

(** [elem.find(name).m(...)]: calling a method on the [None] that [find]
    returns when nothing matches raises [AttributeError]. *)
Definition find_then (nm method : string) (n : Bs4.node) : result Bs4.node :=
  match Bs4.find (Bs4.named nm) n with
  | Some pd => Ok pd.2
  | None => Raise (none_has_no method)
  end.

Definition tags (nm : string) (n : Bs4.node) : list Bs4.node :=
  (Bs4.find_all (Bs4.named nm) n).*2.

(** [re.match(r"[A-Za-z]{3}$", c)]: three letters, then the end of the text
    or its final newline. *)
Definition is_month3 (c : string) : bool :=
  match Py.chars c with
  | [x; y; z] =>
      Py.is_ascii_alpha x && Py.is_ascii_alpha y && Py.is_ascii_alpha z
  | [x; y; z; nl] =>
      Py.is_ascii_alpha x && Py.is_ascii_alpha y && Py.is_ascii_alpha z
      && bool_decide (nl = "010"%char)
  | _ => false
  end.

(** The column keys of the paired layout: the cells of the second header
    row. *)
Definition bi_month_headers (thead_rows : list Bs4.node) : list string :=
  match thead_rows !! 1 with
  | Some row =>
      map (λ cell,
             let month_key :=
               Py.replace "/" "_" (Py.lower (Bs4.get_text_strip "" cell)) in
             Py.replace " " "_" month_key)
          (tags "th" row)
  | None => []
  end.

(** The column keys of the single-month layout: the month cells of the
    first header row that has any. *)
Fixpoint single_month_headers (thead_rows : list Bs4.node) : list string :=
  match thead_rows with
  | [] => []
  | row :: rows =>
      let cells := map (Bs4.get_text_strip "") (tags "th" row) in
      let months := filter (λ c, is_month3 c = true) cells in
      match months with
      | [] => single_month_headers rows
      | _ => map Py.lower months
      end
  end.

Definition month_headers_of (months_format : string)
    (thead_rows : list Bs4.node) : list string :=
  if bool_decide (months_format = "bi") then bi_month_headers thead_rows
  else single_month_headers thead_rows.

(** The value of one month cell: the file name of its image, ["0"] for the
    placeholder image, or its cleaned text. *)
Definition cell_value (cell : Bs4.node) : result string :=
  match Bs4.find (Bs4.named "img") cell with
  | Some img =>
      let src := default "" (Bs4.get img.2 "src") in
      path ←r Url.urlparse_path src;
      let filename := Url.basename path in
      if Py.startswith (Py.lower filename) "wanna-empty" then Ok "0"
      else Ok filename
  | None => Ok (clean_text (Bs4.get_text cell))
  end.

Definition row_values (month_headers : list string) (cells : list Bs4.node)
    : result (Py.dict string) :=
  rfold (λ values im,
           let cell_index := im.1 + 1 in
           match cells !! cell_index with
           | None => Ok (Py.dict_set values im.2 "")
           | Some cell =>
               v ←r cell_value cell;
               Ok (Py.dict_set values im.2 v)
           end)
        (imap pair month_headers) [].

Definition metric_name_of (cell : Bs4.node) : string :=
  Py.replace "." ""
    (Py.replace " " "_" (Py.lower (clean_text (Bs4.get_text cell)))).

(** [row.find_all(["td", "th"])] *)
Definition row_cells (row : Bs4.node) : list Bs4.node :=
  (Bs4.find_all (λ n, Bs4.named "td" n || Bs4.named "th" n) row).*2.

Definition parse_seasons_table (table : Bs4.node) (months_format : string)
    : result (Py.dict (Py.dict string)) :=
  thead ←r find_then "thead" "find_all" table;
  let header_cells := tags "th" thead in
  let thead_rows := tags "tr" thead in
  let month_headers := month_headers_of months_format thead_rows in
  tbody ←r find_then "tbody" "find_all" table;
  let body_rows := tags "tr" tbody in
  rfold (λ result row,
           let cells := row_cells row in
           match cells with
           | [] => Ok result
           | cell0 :: _ =>
               values ←r row_values month_headers cells;
               Ok (Py.dict_set result (metric_name_of cell0) values)
           end)
        body_rows [].

(** A synthetic paired table: the rows of the header and of the body. *)
Definition th (s : string) : Bs4.node :=
  Bs4.Tag "th" [] [Bs4.NavigableString s].
Definition td_text (s : string) : Bs4.node :=
  Bs4.Tag "td" [] [Bs4.NavigableString s].
Definition td_img (src : string) : Bs4.node :=
  Bs4.Tag "td" [] [Bs4.Tag "img" [("src", src)] []].
Definition tr (cells : list Bs4.node) : Bs4.node := Bs4.Tag "tr" [] cells.
Definition season_table (head body : list Bs4.node) : Bs4.node :=
  Bs4.Tag "table" [("id", "wanna-season-table")]
    [Bs4.Tag "thead" [] head; Bs4.Tag "tbody" [] body].

Definition paired_table_example : Bs4.node :=
  season_table
    [tr [th ""; th "Months"]; tr [th "Jan/Feb"; th "Mar/Apr"]]
    [tr [td_text "best season";
         td_img "/images/3-star.png";
         td_img "/images/wanna-empty-1x1.gif"]].

(** ** Surf spots *)

(** The 22 attributes of a [Spot] besides its name, as [getattr] and
    [setattr] address them. *)
Module Field.
Inductive t :=
| distance
| walk
| easy_to_find
| public_access
| special_access
| wave_quality
| experience
| frequency
| type
| direction
| bottom
| power
| normal_length
| good_day_length
| good_swell_direction
| good_wind_direction
| swell_size
| best_tide_position
| best_tide_movement
| additional_information
| latitude
| longitude.

Global Instance eq_dec : EqDecision t.
Proof. solve_decision. Defined.
End Field.

Module Spot.

(** The dataclass [Spot]: the name and 22 string attributes. *)
Record t := mk {
  name : string;
  distance : string;
  walk : string;
  easy_to_find : string;
  public_access : string;
  special_access : string;
  wave_quality : string;
  experience : string;
  frequency : string;
  type : string;
  direction : string;
  bottom : string;
  power : string;
  normal_length : string;
  good_day_length : string;
  good_swell_direction : string;
  good_wind_direction : string;
  swell_size : string;
  best_tide_position : string;
  best_tide_movement : string;
  additional_information : string;
  latitude : string;
  longitude : string
}.

(** [Spot(name=name)]: every other attribute takes its default [""]. *)
Definition new (name : string) : t :=
  mk name "" "" "" "" "" "" "" "" "" "" "" "" "" "" "" "" "" "" "" "" "" "".

Definition getattr (s : t) (f : Field.t) : string :=
  match f with
  | Field.distance => distance s
  | Field.walk => walk s
  | Field.easy_to_find => easy_to_find s
  | Field.public_access => public_access s
  | Field.special_access => special_access s
  | Field.wave_quality => wave_quality s
  | Field.experience => experience s
  | Field.frequency => frequency s
  | Field.type => type s
  | Field.direction => direction s
  | Field.bottom => bottom s
  | Field.power => power s
  | Field.normal_length => normal_length s
  | Field.good_day_length => good_day_length s
  | Field.good_swell_direction => good_swell_direction s
  | Field.good_wind_direction => good_wind_direction s
  | Field.swell_size => swell_size s
  | Field.best_tide_position => best_tide_position s
  | Field.best_tide_movement => best_tide_movement s
  | Field.additional_information => additional_information s
  | Field.latitude => latitude s
  | Field.longitude => longitude s
  end.

Definition setattr (s : t) (f : Field.t) (v : string) : t :=
  match f with
  | Field.distance =>
      mk (name s) v (walk s) (easy_to_find s) (public_access s)
      (special_access s) (wave_quality s) (experience s) (frequency s)
      (type s) (direction s) (bottom s) (power s) (normal_length s)
      (good_day_length s) (good_swell_direction s) (good_wind_direction s)
      (swell_size s) (best_tide_position s) (best_tide_movement s)
      (additional_information s) (latitude s) (longitude s)
  | Field.walk =>
      mk (name s) (distance s) v (easy_to_find s) (public_access s)
      (special_access s) (wave_quality s) (experience s) (frequency s)
      (type s) (direction s) (bottom s) (power s) (normal_length s)
      (good_day_length s) (good_swell_direction s) (good_wind_direction s)
      (swell_size s) (best_tide_position s) (best_tide_movement s)
      (additional_information s) (latitude s) (longitude s)
  | Field.easy_to_find =>
      mk (name s) (distance s) (walk s) v (public_access s)
      (special_access s) (wave_quality s) (experience s) (frequency s)
      (type s) (direction s) (bottom s) (power s) (normal_length s)
      (good_day_length s) (good_swell_direction s) (good_wind_direction s)
      (swell_size s) (best_tide_position s) (best_tide_movement s)
      (additional_information s) (latitude s) (longitude s)
  | Field.public_access =>
      mk (name s) (distance s) (walk s) (easy_to_find s) v
      (special_access s) (wave_quality s) (experience s) (frequency s)
      (type s) (direction s) (bottom s) (power s) (normal_length s)
      (good_day_length s) (good_swell_direction s) (good_wind_direction s)
      (swell_size s) (best_tide_position s) (best_tide_movement s)
      (additional_information s) (latitude s) (longitude s)
  | Field.special_access =>
      mk (name s) (distance s) (walk s) (easy_to_find s) (public_access s)
      v (wave_quality s) (experience s) (frequency s) (type s)
      (direction s) (bottom s) (power s) (normal_length s)
      (good_day_length s) (good_swell_direction s) (good_wind_direction s)
      (swell_size s) (best_tide_position s) (best_tide_movement s)
      (additional_information s) (latitude s) (longitude s)
  | Field.wave_quality =>
      mk (name s) (distance s) (walk s) (easy_to_find s) (public_access s)
      (special_access s) v (experience s) (frequency s) (type s)
      (direction s) (bottom s) (power s) (normal_length s)
      (good_day_length s) (good_swell_direction s) (good_wind_direction s)
      (swell_size s) (best_tide_position s) (best_tide_movement s)
      (additional_information s) (latitude s) (longitude s)
  | Field.experience =>
      mk (name s) (distance s) (walk s) (easy_to_find s) (public_access s)
      (special_access s) (wave_quality s) v (frequency s) (type s)
      (direction s) (bottom s) (power s) (normal_length s)
      (good_day_length s) (good_swell_direction s) (good_wind_direction s)
      (swell_size s) (best_tide_position s) (best_tide_movement s)
      (additional_information s) (latitude s) (longitude s)
  | Field.frequency =>
      mk (name s) (distance s) (walk s) (easy_to_find s) (public_access s)
      (special_access s) (wave_quality s) (experience s) v (type s)
      (direction s) (bottom s) (power s) (normal_length s)
      (good_day_length s) (good_swell_direction s) (good_wind_direction s)
      (swell_size s) (best_tide_position s) (best_tide_movement s)
      (additional_information s) (latitude s) (longitude s)
  | Field.type =>
      mk (name s) (distance s) (walk s) (easy_to_find s) (public_access s)
      (special_access s) (wave_quality s) (experience s) (frequency s) v
      (direction s) (bottom s) (power s) (normal_length s)
      (good_day_length s) (good_swell_direction s) (good_wind_direction s)
      (swell_size s) (best_tide_position s) (best_tide_movement s)
      (additional_information s) (latitude s) (longitude s)
  | Field.direction =>
      mk (name s) (distance s) (walk s) (easy_to_find s) (public_access s)
      (special_access s) (wave_quality s) (experience s) (frequency s)
      (type s) v (bottom s) (power s) (normal_length s)
      (good_day_length s) (good_swell_direction s) (good_wind_direction s)
      (swell_size s) (best_tide_position s) (best_tide_movement s)
      (additional_information s) (latitude s) (longitude s)
  | Field.bottom =>
      mk (name s) (distance s) (walk s) (easy_to_find s) (public_access s)
      (special_access s) (wave_quality s) (experience s) (frequency s)
      (type s) (direction s) v (power s) (normal_length s)
      (good_day_length s) (good_swell_direction s) (good_wind_direction s)
      (swell_size s) (best_tide_position s) (best_tide_movement s)
      (additional_information s) (latitude s) (longitude s)
  | Field.power =>
      mk (name s) (distance s) (walk s) (easy_to_find s) (public_access s)
      (special_access s) (wave_quality s) (experience s) (frequency s)
      (type s) (direction s) (bottom s) v (normal_length s)
      (good_day_length s) (good_swell_direction s) (good_wind_direction s)
      (swell_size s) (best_tide_position s) (best_tide_movement s)
      (additional_information s) (latitude s) (longitude s)
  | Field.normal_length =>
      mk (name s) (distance s) (walk s) (easy_to_find s) (public_access s)
      (special_access s) (wave_quality s) (experience s) (frequency s)
      (type s) (direction s) (bottom s) (power s) v (good_day_length s)
      (good_swell_direction s) (good_wind_direction s) (swell_size s)
      (best_tide_position s) (best_tide_movement s)
      (additional_information s) (latitude s) (longitude s)
  | Field.good_day_length =>
      mk (name s) (distance s) (walk s) (easy_to_find s) (public_access s)
      (special_access s) (wave_quality s) (experience s) (frequency s)
      (type s) (direction s) (bottom s) (power s) (normal_length s) v
      (good_swell_direction s) (good_wind_direction s) (swell_size s)
      (best_tide_position s) (best_tide_movement s)
      (additional_information s) (latitude s) (longitude s)
  | Field.good_swell_direction =>
      mk (name s) (distance s) (walk s) (easy_to_find s) (public_access s)
      (special_access s) (wave_quality s) (experience s) (frequency s)
      (type s) (direction s) (bottom s) (power s) (normal_length s)
      (good_day_length s) v (good_wind_direction s) (swell_size s)
      (best_tide_position s) (best_tide_movement s)
      (additional_information s) (latitude s) (longitude s)
  | Field.good_wind_direction =>
      mk (name s) (distance s) (walk s) (easy_to_find s) (public_access s)
      (special_access s) (wave_quality s) (experience s) (frequency s)
      (type s) (direction s) (bottom s) (power s) (normal_length s)
      (good_day_length s) (good_swell_direction s) v (swell_size s)
      (best_tide_position s) (best_tide_movement s)
      (additional_information s) (latitude s) (longitude s)
  | Field.swell_size =>
      mk (name s) (distance s) (walk s) (easy_to_find s) (public_access s)
      (special_access s) (wave_quality s) (experience s) (frequency s)
      (type s) (direction s) (bottom s) (power s) (normal_length s)
      (good_day_length s) (good_swell_direction s) (good_wind_direction s)
      v (best_tide_position s) (best_tide_movement s)
      (additional_information s) (latitude s) (longitude s)
  | Field.best_tide_position =>
      mk (name s) (distance s) (walk s) (easy_to_find s) (public_access s)
      (special_access s) (wave_quality s) (experience s) (frequency s)
      (type s) (direction s) (bottom s) (power s) (normal_length s)
      (good_day_length s) (good_swell_direction s) (good_wind_direction s)
      (swell_size s) v (best_tide_movement s) (additional_information s)
      (latitude s) (longitude s)
  | Field.best_tide_movement =>
      mk (name s) (distance s) (walk s) (easy_to_find s) (public_access s)
      (special_access s) (wave_quality s) (experience s) (frequency s)
      (type s) (direction s) (bottom s) (power s) (normal_length s)
      (good_day_length s) (good_swell_direction s) (good_wind_direction s)
      (swell_size s) (best_tide_position s) v (additional_information s)
      (latitude s) (longitude s)
  | Field.additional_information =>
      mk (name s) (distance s) (walk s) (easy_to_find s) (public_access s)
      (special_access s) (wave_quality s) (experience s) (frequency s)
      (type s) (direction s) (bottom s) (power s) (normal_length s)
      (good_day_length s) (good_swell_direction s) (good_wind_direction s)
      (swell_size s) (best_tide_position s) (best_tide_movement s) v
      (latitude s) (longitude s)
  | Field.latitude =>
      mk (name s) (distance s) (walk s) (easy_to_find s) (public_access s)
      (special_access s) (wave_quality s) (experience s) (frequency s)
      (type s) (direction s) (bottom s) (power s) (normal_length s)
      (good_day_length s) (good_swell_direction s) (good_wind_direction s)
      (swell_size s) (best_tide_position s) (best_tide_movement s)
      (additional_information s) v (longitude s)
  | Field.longitude =>
      mk (name s) (distance s) (walk s) (easy_to_find s) (public_access s)
      (special_access s) (wave_quality s) (experience s) (frequency s)
      (type s) (direction s) (bottom s) (power s) (normal_length s)
      (good_day_length s) (good_swell_direction s) (good_wind_direction s)
      (swell_size s) (best_tide_position s) (best_tide_movement s)
      (additional_information s) (latitude s) v
  end.

(** [to_row]: the CSV row, in the column order of the source. *)
Definition to_row (s : t) : list string :=
  [name s; distance s; walk s; easy_to_find s; public_access s;
   special_access s; wave_quality s; experience s; frequency s; type s;
   direction s; bottom s; power s; normal_length s; good_day_length s;
   good_swell_direction s; good_wind_direction s; swell_size s;
   best_tide_position s; best_tide_movement s; additional_information s;
   latitude s; longitude s].

End Spot.


(** ** Zones *)

Module Zone.

(** The dataclass [Zone]: a country or a zone, with the spots it lists
    itself and its sub-zones. *)
Inductive t := mk {
  name : string;
  url : string;
  about : string;
  at_a_glance : string;
  seasons : Py.dict (Py.dict string);
  additional_map : option string;
  surf_spots : list Spot.t;
  sub_zones : list t
}.

(** [Zone(name=name, url=url)] *)
Definition new (name url : string) : t := mk name url "" "" [] None [] [].

(** [is_leaf] *)
Definition is_leaf (z : t) : bool := bool_decide (sub_zones z = []).

Definition set_about (z : t) (v : string) : t :=
  mk (name z) (url z) v (at_a_glance z) (seasons z) (additional_map z)
     (surf_spots z) (sub_zones z).
Definition set_at_a_glance (z : t) (v : string) : t :=
  mk (name z) (url z) (about z) v (seasons z) (additional_map z)
     (surf_spots z) (sub_zones z).
Definition set_seasons (z : t) (v : Py.dict (Py.dict string)) : t :=
  mk (name z) (url z) (about z) (at_a_glance z) v (additional_map z)
     (surf_spots z) (sub_zones z).
Definition set_additional_map (z : t) (v : option string) : t :=
  mk (name z) (url z) (about z) (at_a_glance z) (seasons z) v
     (surf_spots z) (sub_zones z).
Definition set_surf_spots (z : t) (v : list Spot.t) : t :=
  mk (name z) (url z) (about z) (at_a_glance z) (seasons z)
     (additional_map z) v (sub_zones z).
Definition set_sub_zones (z : t) (v : list t) : t :=
  mk (name z) (url z) (about z) (at_a_glance z) (seasons z)
     (additional_map z) (surf_spots z) v.

End Zone.

Definition BASE_URL : string := "https://www.wannasurf.com".

(** The attributes that the final pass of [parse_spot_page] visits, in the
    order of the source. *)
Definition field_names : list Field.t :=
  [Field.distance; Field.walk; Field.easy_to_find; Field.public_access;
   Field.special_access; Field.wave_quality; Field.experience;
   Field.frequency; Field.type; Field.direction; Field.bottom; Field.power;
   Field.normal_length; Field.good_day_length; Field.good_swell_direction;
   Field.good_wind_direction; Field.swell_size; Field.best_tide_position;
   Field.best_tide_movement; Field.latitude; Field.longitude;
   Field.additional_information].

(** The labels of the access table and the attribute each one sets. *)
Definition access_labels : list (string * Field.t) :=
  [("distance", Field.distance); ("walk", Field.walk);
   ("easy to find?", Field.easy_to_find);
   ("public access?", Field.public_access);
   ("special access", Field.special_access)].

(** The labels of the two characteristics columns. *)
Definition characteristics_labels : list (string * Field.t) :=
  [("wave quality", Field.wave_quality); ("experience", Field.experience);
   ("frequency", Field.frequency); ("type", Field.type);
   ("direction", Field.direction); ("bottom", Field.bottom);
   ("power", Field.power); ("normal length", Field.normal_length);
   ("good day length", Field.good_day_length);
   ("good swell direction", Field.good_swell_direction);
   ("good wind direction", Field.good_wind_direction);
   ("swell size", Field.swell_size);
   ("best tide position", Field.best_tide_position);
   ("best tide movement", Field.best_tide_movement)].

(** An [if label == ... elif label == ...] chain over a label table: the
    first label that is equal decides the attribute; an unknown label sets
    nothing. *)
Fixpoint assign_by (table : list (string * Field.t)) (spot : Spot.t)
    (label value : string) : Spot.t :=
  match table with
  | [] => spot
  | (l, f) :: table' =>
      if bool_decide (label = l) then Spot.setattr spot f value
      else assign_by table' spot label value
  end.

(** The [h3] headings of class [wanna-item], in document order. *)
Definition wanna_items (soup : Bs4.node) : list (Bs4.path * Bs4.node) :=
  Bs4.find_all (λ n, Bs4.named "h3" n && Bs4.has_class "wanna-item" n) soup.

(** The first such heading whose cleaned text satisfies [P]. *)
Definition first_header (P : string → bool) (soup : Bs4.node)
    : option (Bs4.path * Bs4.node) :=
  head (filter (λ h, P (clean_text (Bs4.get_text h.2)) = true)
               (wanna_items soup)).

(** [for span in p.find_all("span"): span.extract()] for the paragraph at
    [p_path]. *)
Definition extract_spans (p_path : Bs4.path) (soup : Bs4.node) : Bs4.node :=
  match Bs4.at_path p_path soup with
  | Some p =>
      foldl (λ s span, Bs4.extract (p_path ++ span.1) s) soup
            (Bs4.find_all (Bs4.named "span") p)
  | None => soup
  end.

(** One labelled paragraph: nothing happens without a label span; otherwise
    the label is read, every span leaves the paragraph, and what text
    remains is the value. *)
Definition labelled_paragraph (table : list (string * Field.t))
    (p_path : Bs4.path) (st : Bs4.node * Spot.t) : Bs4.node * Spot.t :=
  match Bs4.at_path p_path st.1 with
  | None => st
  | Some p =>
      match Bs4.find (λ n, Bs4.named "span" n
                           && Bs4.has_class "wanna-item-label" n) p with
      | None => st
      | Some label_span =>
          let label :=
            Py.lower (Py.rstrip_char ":"
                        (clean_text (Bs4.get_text label_span.2))) in
          let soup := extract_spans p_path st.1 in
          match Bs4.at_path p_path soup with
          | None => st
          | Some p' =>
              let value := clean_text (Bs4.get_text p') in
              (soup, assign_by table st.2 label value)
          end
      end
  end.

(** The access section. *)
Definition access_section (st : Bs4.node * Spot.t) : Bs4.node * Spot.t :=
  match first_header (λ text, Py.endswith (Py.lower text) "access") st.1 with
  | None => st
  | Some access_header =>
      match Bs4.find_next (Bs4.named "table") st.1 access_header.1 with
      | None => st
      | Some access_table =>
          foldl (λ st p,
                   labelled_paragraph access_labels (access_table.1 ++ p.1) st)
                st (Bs4.find_all (Bs4.named "p") access_table.2)
      end
  end.

(** One column of the characteristics section: its [p] children.  ([h5]
    children only set [current_section], which nothing reads.) *)
Definition characteristics_column (col : option (Bs4.path * Bs4.node))
    (st : Bs4.node * Spot.t) : Bs4.node * Spot.t :=
  match col with
  | None => st
  | Some col =>
      match Bs4.at_path col.1 st.1 with
      | None => st
      | Some col_now =>
          foldl (λ st child,
                   if Bs4.named "h5" child.2 then st
                   else if Bs4.named "p" child.2 then
                     labelled_paragraph characteristics_labels
                                        (col.1 ++ [child.1]) st
                   else st)
                st (Bs4.children col_now)
      end
  end.

(** The characteristics section. *)
Definition characteristics_section (st : Bs4.node * Spot.t)
    : Bs4.node * Spot.t :=
  match first_header
          (λ text, Py.contains "surf spot characteristics" (Py.lower text))
          st.1 with
  | None => st
  | Some _ =>
      let left_col :=
        Bs4.find (Bs4.has_id "wanna-item-specific-2columns-left") st.1 in
      let right_col :=
        Bs4.find (Bs4.has_id "wanna-item-specific-2columns-right") st.1 in
      characteristics_column right_col (characteristics_column left_col st)
  end.

(** The additional information section. *)
Definition additional_section (st : Bs4.node * Spot.t) : Bs4.node * Spot.t :=
  match first_header
          (λ text, Py.startswith (Py.lower text) "additional information")
          st.1 with
  | None => st
  | Some additional_header =>
      match Bs4.find_next
              (λ n, Bs4.named "p" n
                    && Bs4.attr_contains "style" "display:inline" n)
              st.1 additional_header.1 with
      | None => st
      | Some p_inline =>
          (st.1, Spot.setattr st.2 Field.additional_information
                   (clean_text (Bs4.get_text p_inline.2)))
      end
  end.

(** [if x:] for a page element: a text node is true when it is not empty,
    a tag always. *)
Definition truthy (n : Bs4.node) : bool :=
  match n with
  | Bs4.NavigableString s => negb (bool_decide (s = ""))
  | _ => true
  end.

(** One turn of the final pass of [parse_spot_page]: an attribute that is
    still empty becomes ["empty"]. *)
Definition fill_step (spot : Spot.t) (field_name : Field.t) : Spot.t :=
  let val := Spot.getattr spot field_name in
  if bool_decide (val = "") then Spot.setattr spot field_name "empty"
  else spot.

(** The final pass, over [field_names]. *)
Definition fill_missing (spot : Spot.t) : Spot.t :=
  foldl fill_step spot field_names.

(** A computation on a stored object of type [S]: its value, and the
    object as the computation leaves it. *)
Definition St (S A : Type) : Type := S → A * S.
Definition st_ret {S A} (a : A) : St S A := λ s, (a, s).
Definition st_bind {S A B} (m : St S A) (k : A → St S B) : St S B :=
  λ s, let r := m s in k r.1 r.2.
(** A read of the stored object. *)
Definition st_read {S A} (f : S → A) : St S A := λ s, (f s, s).

Notation "x ←s e ; k" := (st_bind e (λ x, k))
  (at level 100, e at next level, k at level 200, right associativity).

Fixpoint st_fold {S A B} (f : B → A → St S B) (l : list A) (b : B) : St S B :=
  match l with
  | [] => st_ret b
  | a :: l' => b' ←s f b a; st_fold f l' b'
  end.

(** A computation that may not finish within its fuel ([None]) and may
    raise. *)
Definition orbind {A B} (m : option (result A)) (k : A → option (result B))
    : option (result B) :=
  match m with
  | Some (Ok a) => k a
  | Some (Raise e) => Some (Raise e)
  | None => None
  end.

Notation "x ←or e ; k" := (orbind e (λ x, k))
  (at level 100, e at next level, k at level 200, right associativity).

(** A loop with such a body: the first exception ends it. *)
Fixpoint orfold {A S} (f : S → A → option (result S)) (l : list A) (s : S)
    : option (result S) :=
  match l with
  | [] => Some (Ok s)
  | a :: l' => s' ←or f s a; orfold f l' s'
  end.

(** What the scraper runs against: the network, the HTML parser and the
    URL resolver. *)
Record Env := MkEnv {
  (** [requests.get(url, headers=...)], [raise_for_status()] and [.text] *)
  http_get : string → result string;
  (** the top-level nodes [html.parser] builds from a markup text that it
      accepts *)
  html_parser : string → list Bs4.node;
  (** [str(element)]: the markup of a page element *)
  markup_of : Bs4.node → string;
  (** [urllib.parse.urljoin(base, url)]; [url] may be [None] *)
  urljoin : string → option string → result string
}.

Section Scraper.

Variable env : Env.

(** [fetch]: a relative URL is resolved against [BASE_URL] first.  The
    delay between requests is not modelled. *)
Definition fetch (url : string) : result string :=
  url ←r (if Py.startswith url "http" then Ok url
          else urljoin env BASE_URL (Some url));
  http_get env url.

(** One coordinate: the text that follows the label span. *)
Definition coordinate (label : string) (field : Field.t)
    (st : Bs4.node * Spot.t) : Bs4.node * Spot.t :=
  match Bs4.find (λ n, Bs4.named "span" n
                       && Bs4.has_class "wanna-item-label-gps" n
                       && Bs4.string_contains label n) st.1 with
  | None => st
  | Some span =>
      match Bs4.next_sibling st.1 span.1 with
      | None => st
      | Some text =>
          if truthy text then
            (st.1, Spot.setattr st.2 field
                     (clean_text
                        (Bs4.get_text
                           (Bs4.BeautifulSoup (html_parser env (markup_of env text))))))
          else st
      end
  end.

(** The extraction steps of [parse_spot_page] on a parsed page, in the
    order of the source, before the final pass. *)
Definition extract_spot (soup : Bs4.node) (name : string) : Spot.t :=
  let st := (soup, Spot.new name) in
  let st := access_section st in
  let st := characteristics_section st in
  let st := additional_section st in
  let st := coordinate "Latitude" Field.latitude st in
  let st := coordinate "Longitude" Field.longitude st in
  st.2.

(** The name of a spot page: the title up to [" - "], or the last but one
    segment of the URL when the page has no title text. *)
Definition spot_name (soup : Bs4.node) (url : string) : result string :=
  let title :=
    match Bs4.find (Bs4.named "title") soup with
    | Some t => Bs4.get_text_strip "" t.2
    | None => ""
    end in
  if bool_decide (title ≠ "") then Ok (Py.split_head " - " title)
  else Py.index_m2 (Py.split_char "/" url).

Definition parse_spot_page (url : string) : result Spot.t :=
  html ←r fetch url;
  let soup := Bs4.BeautifulSoup (html_parser env html) in
  name ←r spot_name soup url;
  Ok (fill_missing (extract_spot soup name)).

(** The name of a country or zone page. *)
Definition zone_name (soup : Bs4.node) (url : string) : result string :=
  title ←r match Bs4.find (Bs4.named "title") soup with
           | Some t => Ok (Bs4.get_text_strip "" t.2)
           | None => Py.index_m2 (Py.split_char "/" url)
           end;
  if bool_decide (title ≠ "") then Ok (Py.split_head " - " title)
  else Py.index_m2 (Py.split_char "/" url).

(** The about text: absent when it is the site's placeholder. *)
Definition parse_about (soup : Bs4.node) (zone : Zone.t) : Zone.t :=
  match Bs4.find (Bs4.has_id "wanna-country-tab-about") soup with
  | None => zone
  | Some about_div =>
      let p_inline :=
        match Bs4.find (λ n, Bs4.named "p" n
                             && Bs4.attr_contains "style" "display:inline" n)
                       about_div.2 with
        | Some p => Some p
        | None => Bs4.find (Bs4.named "p") about_div.2
        end in
      let about_text :=
        match p_inline with
        | Some p => clean_text (Bs4.get_text p.2)
        | None => ""
        end in
      if bool_decide (about_text ≠ "")
         && negb (Py.startswith (Py.lower about_text) "wanna add some info")
      then Zone.set_about zone about_text
      else zone
  end.

(** The "at a glance" text, read on country pages only. *)
Definition parse_at_a_glance (is_country : bool) (soup : Bs4.node)
    (zone : Zone.t) : Zone.t :=
  if is_country then
    match Bs4.find (Bs4.has_id "wanna-country-tab-infos") soup with
    | None => zone
    | Some infos_div =>
        let info_text := clean_text (Bs4.get_text_strip " " infos_div.2) in
        if bool_decide (info_text ≠ "")
           && negb (Py.contains "automatic build" (Py.lower info_text))
        then Zone.set_at_a_glance zone info_text
        else zone
    end
  else zone.

(** The seasons table, always read in the paired layout. *)
Definition parse_seasons (soup : Bs4.node) (zone : Zone.t) : result Zone.t :=
  let seasons_table :=
    match Bs4.find (Bs4.has_id "wanna-country-tab-additional-info") soup with
    | Some additional_div =>
        Bs4.find (Bs4.has_id "wanna-season-table") additional_div.2
    | None => None
    end in
  match seasons_table with
  | Some seasons_table =>
      seasons ←r parse_seasons_table seasons_table.2 "bi";
      Ok (Zone.set_seasons zone seasons)
  | None => Ok zone
  end.

(** The additional map image, as an absolute URL. *)
Definition parse_additional_map (soup : Bs4.node) (zone : Zone.t)
    : result Zone.t :=
  match Bs4.find (Bs4.has_id "wanna-item-tab-additional-map") soup with
  | None => Ok zone
  | Some map_div =>
      match Bs4.find (Bs4.named "img") map_div.2 with
      | None => Ok zone
      | Some img_tag =>
          match Bs4.get img_tag.2 "src" with
          | Some src =>
              if bool_decide (src ≠ "") then
                u ←r urljoin env BASE_URL (Some src);
                Ok (Zone.set_additional_map zone (Some u))
              else Ok zone
          | None => Ok zone
          end
      end
  end.

(** The links of the table that follows the heading containing [word]:
    one [(name, url)] per row whose first cell holds a link. *)
Definition discover_links (word : string) (soup : Bs4.node)
    : result (list (string * string)) :=
  match Bs4.find (λ n, Bs4.named "h3" n && Bs4.has_class "wanna-item" n
                       && Bs4.string_contains word n) soup with
  | None => Ok []
  | Some header =>
      match Bs4.find_next (Bs4.named "table") soup header.1 with
      | None => Ok []
      | Some table =>
          rfold (λ acc tr,
                   match tags "td" tr with
                   | [] => Ok acc
                   | cell0 :: _ =>
                       match Bs4.find (Bs4.named "a") cell0 with
                       | None => Ok acc
                       | Some link =>
                           let l_name := clean_text (Bs4.get_text link.2) in
                           l_url ←r urljoin env BASE_URL (Bs4.get link.2 "href");
                           Ok (acc ++ [(l_name, l_url)])
                       end
                   end)
                (tags "tr" table.2) []
      end
  end.

(** What [parse_country_or_zone_page] does before it visits any child: the
    zone with its own attributes, [zones_list] and [spots_list]. *)
Definition zone_page (url : string) (is_country : bool)
    : result (Zone.t * list (string * string) * list (string * string)) :=
  html ←r fetch url;
  let soup := Bs4.BeautifulSoup (html_parser env html) in
  name ←r zone_name soup url;
  let zone := Zone.new name url in
  let zone := parse_about soup zone in
  let zone := parse_at_a_glance is_country soup zone in
  zone ←r parse_seasons soup zone;
  zone ←r parse_additional_map soup zone;
  zones_list ←r discover_links "Zones" soup;
  spots_list ←r discover_links "Surf Spots" soup;
  Ok (zone, zones_list, spots_list).

Definition spot_warning (s_name s_url : string) (e : exn) : string :=
  "Warning: failed to parse spot " +:+ s_name +:+ " at " +:+ s_url
  +:+ ": " +:+ exn_str e.

Definition zone_warning (z_name z_url : string) (e : exn) : string :=
  "Warning: failed to parse zone " +:+ z_name +:+ " at " +:+ z_url
  +:+ ": " +:+ exn_str e.

(** One turn of the loop over [spots_list]: the spot is appended, or the
    exception is caught and a warning is printed. *)
Definition spot_step (acc : Zone.t * list string) (s : string * string)
    : Zone.t * list string :=
  match parse_spot_page s.2 with
  | Ok spot =>
      (Zone.set_surf_spots acc.1 (Zone.surf_spots acc.1 ++ [spot]), acc.2)
  | Raise e => (acc.1, acc.2 ++ [spot_warning s.1 s.2 e])
  end.

(** One turn of the loop over [zones_list], given the outcome of the
    recursive call: what the call printed is kept in either case. *)
Definition zone_step (acc : Zone.t * list string) (z : string * string)
    (r : result Zone.t * list string) : Zone.t * list string :=
  match r.1 with
  | Ok sub_zone =>
      (Zone.set_sub_zones acc.1 (Zone.sub_zones acc.1 ++ [sub_zone]),
       acc.2 ++ r.2)
  | Raise e => (acc.1, acc.2 ++ r.2 ++ [zone_warning z.1 z.2 e])
  end.

(** A loop whose body may not finish within the fuel. *)
Fixpoint ofold {A S} (f : S → A → option S) (l : list A) (s : S) : option S :=
  match l with
  | [] => Some s
  | a :: l' => s' ← f s a; ofold f l' s'
  end.

(** [parse_country_or_zone_page]: the zone and the lines it printed, or the
    exception it raised.  [None] only when the fuel does not cover the
    depth of the recursion. *)
Fixpoint parse_country_or_zone_page (fuel : nat) (url : string)
    (is_country : bool) : option (result Zone.t * list string) :=
  match fuel with
  | 0 => None
  | S fuel' =>
      match zone_page url is_country with
      | Raise e => Some (Raise e, [])
      | Ok (zone, zones_list, spots_list) =>
          let acc := foldl spot_step (zone, []) spots_list in
          acc ← ofold (λ acc z,
                         r ← parse_country_or_zone_page fuel' z.2 false;
                         Some (zone_step acc z r))
                      zones_list acc;
          Some (Ok acc.1, acc.2)
      end
  end.

(** [parse_homepage]: the continents and, for each, its countries. *)
Definition parse_homepage : result (Py.dict (list (string * string))) :=
  html ←r fetch (BASE_URL +:+ "/");
  let soup := Bs4.BeautifulSoup (html_parser env html) in
  rfold (λ continents h2,
           let continent_name :=
             match Bs4.find (Bs4.named "a") h2.2 with
             | Some continent_link => clean_text (Bs4.get_text continent_link.2)
             | None => clean_text (Bs4.get_text h2.2)
             end in
           continent_countries ←r
             match Bs4.find_next (Bs4.named "table") soup h2.1 with
             | Some table =>
                 rfold (λ acc a,
                          c_url ←r urljoin env BASE_URL (Bs4.get a.2 "href");
                          Ok (acc ++ [(clean_text (Bs4.get_text a.2), c_url)]))
                       (Bs4.find_all
                          (λ n, Bs4.named "a" n
                                && Bs4.class_search
                                     "wanna-main-menu-static-tabbar-submenu" n)
                          table.2)
                       []
             | None => Ok []
             end;
           Ok (Py.dict_set continents continent_name continent_countries))
        (Bs4.find_all
           (λ n, Bs4.named "h2" n
                 && Bs4.class_search "wanna-title-continent" n) soup)
        [].

(** ** The report *)

Definition newline : string := String "010"%char "".

Definition default_months : list string :=
  ["jan_feb"; "mar_apr"; "may_jun"; "jul_aug"; "sep_oct"; "nov_dec"].

(** [month.replace("_", "/").title()] *)
Definition month_label (month : string) : string :=
  Py.title (Py.replace "_" "/" month).

(** [seasons[metric_key].get(month, "")] *)
Definition seasons_get (metric_key month : string)
    (seasons : Py.dict (Py.dict string)) : string :=
  match Py.dict_get seasons metric_key with
  | Some row => default "" (Py.dict_get row month)
  | None => ""
  end.

(** One turn of the loop of [format_seasons] over the months. *)
Definition season_row_step (metric_key : string) (rows : list string)
    (month : string) : St (Py.dict (Py.dict string)) (list string) :=
  val ←s st_read (seasons_get metric_key month);
  if bool_decide (val = "") || bool_decide (val = "0")
  then st_ret (rows ++ [month_label month +:+ " - empty"])
  else st_ret (rows ++ [month_label month +:+ " - " +:+ val]).

(** The lines of [format_seasons], one per month pair: the list that the
    source joins with newlines.  It only reads the stored [seasons]. *)
Definition season_rows (metric_key : string)
    : St (Py.dict (Py.dict string)) (list string) :=
  missing ←s st_read (λ seasons, bool_decide (seasons = [])
                                 || negb (Py.dict_in metric_key seasons));
  if (missing : bool) then
    st_ret (map (λ m, month_label m +:+ " - empty") default_months)
  else st_fold (season_row_step metric_key) default_months [].

(** [format_seasons], the helper of [build_excel_workbook], run on the
    stored [seasons] mapping. *)
Definition format_seasons (metric_key : string)
    : St (Py.dict (Py.dict string)) string :=
  rows ←s season_rows metric_key;
  st_ret (Py.join newline rows).

(** The text [format_seasons] returns. *)
Definition render_seasons (seasons : Py.dict (Py.dict string))
    (metric_key : string) : string :=
  (format_seasons metric_key seasons).1.

Definition season_metrics : list (string * string) :=
  [("best_surfing_season", "best surfing");
   ("typical_swell_size", "Typical Swell Size");
   ("surf_equipment", "Surf Equipment");
   ("water_temp", "Water temp.");
   ("air_temp", "Air temp.")].

(** A value written to a worksheet cell. *)
Inductive cell :=
| CellStr (s : string)
| CellInt (n : nat).

(** A worksheet: its name and the [write(row, col, value)] calls it
    received. *)
Record sheet := Sheet {
  sheet_name : string;
  cells : list (nat * nat * cell)
}.

(** A workbook: its path and its worksheets in the order of creation. *)
Record workbook := Workbook {
  workbook_path : string;
  sheets : list sheet
}.

(** The writes of one row, from column [col] on. *)
Definition write_row (row col : nat) (vals : list cell)
    : list (nat * nat * cell) :=
  imap (λ i v, (row, col + i, v)) vals.

Definition or_empty (s : string) : cell :=
  CellStr (if bool_decide (s = "") then "empty" else s).

Definition season_cells (z : Zone.t) : list cell :=
  map (λ m, CellStr (render_seasons (Zone.seasons z) m.1)) season_metrics.

Definition metric_titles : list cell :=
  map (λ m, CellStr m.2) season_metrics.

(** The class [[^A-Za-z0-9_]] of the sanitising pattern. *)
Definition not_word (c : ascii) : bool :=
  negb (Py.is_ascii_alpha c || Py.is_ascii_digit c
        || bool_decide (c = "_"%char)).

(** [re.sub(r"[^A-Za-z0-9_]+", "_", name)[:n]] *)
Definition sanitize (n : nat) (name : string) : string :=
  Py.take n (Py.re_sub_runs not_word "_"%char name).

(** [os.path.join(a, b)]: [b] alone when it starts at the root; otherwise
    [a] and [b], with a slash between them unless [a] is empty or ends
    with one. *)
Definition path_join (a b : string) : string :=
  if Py.startswith b "/" then b
  else if bool_decide (a = "") || Py.endswith a "/" then a +:+ b
  else a +:+ "/" +:+ b.

(** The "Country" sheet. *)
Definition country_sheet (continent : string) (countries : Py.dict Zone.t)
    : sheet :=
  Sheet "Country"
    (write_row 0 0
       (map CellStr ["country"; "continent"; "about"; "at a glance";
                     "seasons"; ""; ""; ""; ""])
     ++ write_row 1 0 (map CellStr [""; ""; ""; ""] ++ metric_titles)
     ++ concat
          (imap (λ i c,
                   write_row (2 + i) 0
                     ([CellStr c.1; CellStr continent;
                       or_empty (Zone.about c.2);
                       or_empty (Zone.at_a_glance c.2)]
                      ++ season_cells c.2))
                countries)).

(** The top-level zones of a continent with the name of their country, in
    the order of the two nested loops. *)
Definition top_zones (countries : Py.dict Zone.t) : list (string * Zone.t) :=
  flat_map (λ c, map (pair c.1) (Zone.sub_zones c.2)) countries.

(** The "Zones" sheet. *)
Definition zones_sheet (countries : Py.dict Zone.t) : sheet :=
  Sheet "Zones"
    (write_row 0 0
       (map CellStr ["country"; "Zones (count)"; "Surf Spots"; "Sub zones";
                     "about"; "at a glance"; "seasons"; ""; ""; ""; ""])
     ++ write_row 1 0 (map CellStr [""; ""; ""; ""; ""; ""] ++ metric_titles)
     ++ concat
          (imap (λ i cz,
                   write_row (2 + i) 0
                     ([CellStr cz.1; CellStr (Zone.name cz.2);
                       CellInt (length (Zone.surf_spots cz.2));
                       CellInt (length (Zone.sub_zones cz.2));
                       or_empty (Zone.about cz.2);
                       CellStr "empty"]
                      ++ season_cells cz.2))
                (top_zones countries))).

(** [nested_zones]: the top-level zones that have sub-zones. *)
Definition nested_zones (countries : Py.dict Zone.t)
    : list (string * Zone.t) :=
  omap (λ cz, if bool_decide (Zone.sub_zones cz.2 ≠ [])
              then Some (Zone.name cz.2, cz.2) else None)
       (top_zones countries).

(** The writes of the sheet of one nested zone. *)
Definition sub_zones_cells (z_obj : Zone.t) : list (nat * nat * cell) :=
  write_row 0 0
    (map CellStr ["Zone"; "Zones (count)"; "Surf Spots"; "Sub zones";
                  "about"; "seasons"; ""; ""; ""; ""])
  ++ write_row 1 0 (map CellStr [""; ""; ""; ""; ""] ++ metric_titles)
  ++ concat
       (imap (λ i sub_zone,
                write_row (2 + i) 0
                  ([CellStr (Zone.name z_obj); CellStr (Zone.name sub_zone);
                    CellInt (length (Zone.surf_spots sub_zone));
                    CellInt (length (Zone.sub_zones sub_zone));
                    or_empty (Zone.about sub_zone)]
                   ++ season_cells sub_zone))
             (Zone.sub_zones z_obj)).

(** [leaf_zones] of one country: the country itself when it has no zones,
    otherwise its zones without sub-zones and, below the other zones, the
    sub-zones without sub-zones. *)
Definition leaf_zones (country_zone : Zone.t) : list (string * Zone.t) :=
  if bool_decide (Zone.sub_zones country_zone = []) then
    [(Zone.name country_zone, country_zone)]
  else
    flat_map
      (λ z_obj,
         if bool_decide (Zone.sub_zones z_obj = []) then
           [(Zone.name z_obj, z_obj)]
         else
           flat_map
             (λ sub_z,
                if bool_decide (Zone.sub_zones sub_z = []) then
                  [(Zone.name sub_z, sub_z)]
                else [])
             (Zone.sub_zones z_obj))
      (Zone.sub_zones country_zone).

Definition spot_headers : list string :=
  ["zone"; "Surf Spots (count)"; "Distance"; "Walk"; "Easy to find?";
   "Public access?"; "Special access"; "Wave quality"; "Experience";
   "Frequency"; "Type"; "Direction"; "Bottom"; "Power"; "Normal length";
   "Good day length"; "Good swell direction"; "Good wind direction";
   "Good swell direction"; "Best tide position"; "Best tide movement";
   "Additional Information"; "Latitude"; "Longitude"].

(** The rows of a surf-spot sheet below its header: the zone name, then
    the spot's name and attributes. *)
Definition spot_rows (zone_name : string) (spots : list Spot.t)
    : list (nat * nat * cell) :=
  concat
    (imap (λ i sp,
             write_row (1 + i) 0
               (map CellStr
                  [zone_name; Spot.name sp; Spot.distance sp; Spot.walk sp;
                   Spot.easy_to_find sp; Spot.public_access sp;
                   Spot.special_access sp; Spot.wave_quality sp;
                   Spot.experience sp; Spot.frequency sp; Spot.type sp;
                   Spot.direction sp; Spot.bottom sp; Spot.power sp;
                   Spot.normal_length sp; Spot.good_day_length sp;
                   Spot.good_swell_direction sp; Spot.good_wind_direction sp;
                   Spot.swell_size sp; Spot.best_tide_position sp;
                   Spot.best_tide_movement sp; Spot.additional_information sp;
                   Spot.latitude sp; Spot.longitude sp]))
          spots).

(** The writes of the surf-spot sheet of one leaf zone. *)
Definition spot_cells (zone_name : string) (leaf_zone : Zone.t)
    : list (nat * nat * cell) :=
  write_row 0 0 (map CellStr spot_headers)
  ++ spot_rows zone_name (Zone.surf_spots leaf_zone).

(** The candidate that the [while] loop forms for a suffix. *)
Definition suffixed (base : string) (suffix : nat) : string :=
  Py.take 28 base +:+ "_" +:+ Py.str_of_nat suffix.

(** [while sheet_name in created_sheets: ...]: the loop that looks for a
    free sheet name, with the number of tests it may make.  Two more than
    the size of [created_sheets] always suffice (see
    [unique_sheet_name_spec]). *)
Fixpoint unique_sheet_name (fuel : nat) (created_sheets : gset string)
    (base sheet_name : string) (suffix : nat) : option string :=
  match fuel with
  | 0 => None
  | S fuel' =>
      if bool_decide (sheet_name ∈ created_sheets) then
        unique_sheet_name fuel' created_sheets base (suffixed base suffix)
                          (S suffix)
      else Some sheet_name
  end.

(** *** xlsxwriter's worksheets *)

Definition dquote : string := String "034"%char "".

(** The characters that a sheet name may not hold. *)
Definition invalid_char (c : ascii) : bool :=
  existsb (λ x, bool_decide (c = x))
          ["["; "]"; ":"; "*"; "?"; "/"; "\"]%char.

(** [Workbook._check_sheetname] in a workbook that holds [sheets]: an
    empty name becomes [SheetN], with the number of the new sheet; a name
    of more than 31 characters, with an invalid character, or with an
    apostrophe at either end raises [InvalidWorksheetName]; a name that
    is, case ignored, the name of a sheet of the workbook raises
    [DuplicateWorksheetName]. *)
Definition check_sheetname (sheets : list sheet) (sheetname : string)
    : result string :=
  let sheetname_count := S (length sheets) in
  let sheetname :=
    if bool_decide (sheetname = "")
    then "Sheet" +:+ Py.str_of_nat sheetname_count else sheetname in
  if (31 <? length (Py.chars sheetname))%nat then
    Raise (InvalidWorksheetName
             ("Excel worksheet name '" +:+ sheetname
              +:+ "' must be <= 31 chars."))
  else if existsb invalid_char (Py.chars sheetname) then
    Raise (InvalidWorksheetName
             ("Invalid Excel character '[]:*?/\' in sheetname '"
              +:+ sheetname +:+ "'."))
  else if Py.startswith sheetname "'" || Py.endswith sheetname "'" then
    Raise (InvalidWorksheetName
             ("Sheet name cannot start or end with an apostrophe "
              +:+ dquote +:+ sheetname +:+ dquote +:+ "."))
  else if existsb (λ worksheet,
                     bool_decide (Py.lower sheetname
                                  = Py.lower (sheet_name worksheet)))
                  sheets then
    Raise (DuplicateWorksheetName
             ("Sheetname '" +:+ sheetname
              +:+ "', with case ignored, is already in use."))
  else Ok sheetname.

(** [workbook.add_worksheet(name)], and the writes [content] that the new
    sheet receives afterwards. *)
Definition add_worksheet (name : string) (content : list (nat * nat * cell))
    (sheets : list sheet) : result (list sheet) :=
  name ←r check_sheetname sheets name;
  Ok (sheets ++ [Sheet name content]).

(** One sheet for a zone: the name asked for is the sanitised zone name
    made unique among the names in [created_sheets]; the sheet is added to
    the workbook, when xlsxwriter accepts the name, and the name to
    [created_sheets].  The loop of the nested zones adds the sheet first
    and the loop of the leaf zones the name; an exception of
    [add_worksheet] ends [build_excel_workbook] in both, so the order
    shows in no result. *)
Definition add_zone_sheet (zone_name : string)
    (content : list (nat * nat * cell))
    (wb : list sheet * gset string)
    : option (result (list sheet * gset string)) :=
  let base := sanitize 31 zone_name in
  match unique_sheet_name (size wb.2 + 2) wb.2 base base 1 with
  | None => None
  | Some sheet_name =>
      Some (sheets ←r add_worksheet sheet_name content wb.1;
            Ok (sheets, {[sheet_name]} ∪ wb.2))
  end.

(** The workbook of one continent. *)
Definition build_continent (output_dir continent : string)
    (countries : Py.dict Zone.t) : option (result workbook) :=
  let safe_continent := sanitize 50 continent in
  let workbook_path := path_join output_dir (safe_continent +:+ ".xlsx") in
  sheets ←or Some (add_worksheet "Country"
                     (cells (country_sheet continent countries)) []);
  sheets ←or Some (add_worksheet "Zones" (cells (zones_sheet countries))
                     sheets);
  let wb : list sheet * gset string :=
    (sheets, {["Zones"]} ∪ ({["Country"]} ∪ ∅)) in
  wb ←or orfold (λ wb z, add_zone_sheet z.1 (sub_zones_cells z.2) wb)
                (nested_zones countries) wb;
  wb ←or orfold (λ wb c,
                   orfold (λ wb z,
                             add_zone_sheet z.1 (spot_cells z.1 z.2) wb)
                          (leaf_zones c.2) wb)
                countries wb;
  Some (Ok (Workbook workbook_path wb.1)).

(** [build_excel_workbook]: one workbook per continent, and the lines it
    prints; an exception of xlsxwriter ends it. *)
Definition build_excel_workbook (continents_data : Py.dict (Py.dict Zone.t))
    (output_dir : string) : option (result (list workbook * list string)) :=
  orfold (λ acc c,
            wb ←or build_continent output_dir c.1 c.2;
            Some (Ok (acc.1 ++ [wb],
                      acc.2 ++ ["Created workbook for continent " +:+ c.1
                                +:+ ": " +:+ workbook_path wb])))
         continents_data ([], []).

(** ** The driver *)

Definition csv_header : list string :=
  ["surf spot name"; "Distance"; "Walk"; "Easy to find?"; "Public access?";
   "Special access"; "Wave quality"; "Experience"; "Frequency"; "Type";
   "Direction"; "Bottom"; "Power"; "Normal length"; "Good day length";
   "Good swell direction"; "Good wind direction"; "Swell size";
   "Best tide position"; "Best tide movement"; "Additional Information";
   "Latitude"; "Longitude"].

(** [Zone.to_csv]: the path of the file and the rows written to it. *)
Definition to_csv (z : Zone.t) (directory : string)
    : string * list (list string) :=
  let safe_name := sanitize 50 (Zone.name z) in
  (path_join directory (safe_name +:+ ".csv"),
   csv_header :: map Spot.to_row (Zone.surf_spots z)).

(** The driver reaches every [Zone] object through [continents_data]: the
    parser builds each object once and appends it to one list, so an object
    is named by the continent and country under which its tree is stored
    and by the indices of the sub-zones that lead to it.  A variable of the
    source that holds a [Zone] ([country_zone], [zone_obj]) is such a
    reference; an assignment to an attribute goes through the reference and
    is seen by every later read of [continents_data]. *)
Definition zone_ref : Type := string * string * list nat.

Fixpoint zone_at (p : list nat) (z : Zone.t) : option Zone.t :=
  match p with
  | [] => Some z
  | i :: p' => c ← Zone.sub_zones z !! i; zone_at p' c
  end.

Fixpoint zone_update (p : list nat) (f : Zone.t → Zone.t) (z : Zone.t)
    : Zone.t :=
  match p with
  | [] => f z
  | i :: p' =>
      Zone.set_sub_zones z (alter (zone_update p' f) i (Zone.sub_zones z))
  end.

(** The object a reference names. *)
Definition deref (continents_data : Py.dict (Py.dict Zone.t)) (r : zone_ref)
    : option Zone.t :=
  countries ← Py.dict_get continents_data r.1.1;
  country ← Py.dict_get countries r.1.2;
  zone_at r.2 country.

(** [zone.surf_spots = v] through the reference [r]. *)
Definition assign_surf_spots (r : zone_ref) (v : list Spot.t)
    (continents_data : Py.dict (Py.dict Zone.t))
    : Py.dict (Py.dict Zone.t) :=
  Py.dict_alter
    (Py.dict_alter (zone_update r.2 (λ z, Zone.set_surf_spots z v)) r.1.2)
    r.1.1 continents_data.

(** What the driver has built and printed so far. *)
Record driver := Driver {
  continents_data : Py.dict (Py.dict Zone.t);
  csv_files : Py.dict (list (list string));
  printed : list string
}.

Definition csv_output_dir : string := "output_csv".

(** The sampling and the CSV dump of one zone: with [sample], a list of
    more than five spots is replaced by its first five; then the zone is
    written.  [what] is how the printed line names the zone. *)
Definition dump_zone (sample : bool) (r : zone_ref) (what : Zone.t → string)
    (d : driver) : driver :=
  match deref (continents_data d) r with
  | None => d
  | Some zone_obj =>
      let cd :=
        if sample && bool_decide (5 < length (Zone.surf_spots zone_obj)) then
          assign_surf_spots r (take 5 (Zone.surf_spots zone_obj))
                            (continents_data d)
        else continents_data d in
      match deref cd r with
      | None => Driver cd (csv_files d) (printed d)
      | Some zone_obj =>
          let csv := to_csv zone_obj csv_output_dir in
          Driver cd (Py.dict_set (csv_files d) csv.1 csv.2)
                 (printed d ++ ["  Wrote CSV for " +:+ what zone_obj +:+ ": "
                                +:+ csv.1])
      end
  end.

(** The body of the loop over the countries of a continent, with its
    [try] and [except]. *)
Definition process_country (fuel : nat) (sample : bool)
    (continent_name : string) (d : driver) (c : string * string)
    : option driver :=
  let lines :=
    printed d ++ ["Processing country " +:+ c.1 +:+ " (" +:+ c.2 +:+ ")"] in
  r ← parse_country_or_zone_page fuel c.2 true;
  match r.1 with
  | Raise e =>
      Some (Driver (continents_data d) (csv_files d)
                   (lines ++ r.2 ++ ["Error processing country " +:+ c.1
                                     +:+ ": " +:+ exn_str e]))
  | Ok country_zone =>
      let d :=
        Driver (Py.dict_alter (λ countries,
                                 Py.dict_set countries c.1 country_zone)
                              continent_name (continents_data d))
               (csv_files d) (lines ++ r.2) in
      if bool_decide (Zone.sub_zones country_zone ≠ []) then
        let zones_to_process :=
          let all := seq 0 (length (Zone.sub_zones country_zone)) in
          if sample then take 1 all else all in
        Some (foldl (λ d i,
                       dump_zone sample (continent_name, c.1, [i])
                                 (λ z, "zone " +:+ Zone.name z) d)
                    d zones_to_process)
      else
        Some (dump_zone sample (continent_name, c.1, [])
                        (λ _, "country " +:+ c.1) d)
  end.

(** What [main] leaves behind. *)
Record output := Output {
  forest : Py.dict (Py.dict Zone.t);
  csv_written : Py.dict (list (list string));
  workbooks : list workbook;
  stdout : list string
}.

(** The loops of [main] over the continents and their countries. *)
Definition scrape (fuel : nat) (sample : bool)
    (continents_map : Py.dict (list (string * string))) : option driver :=
  ofold (λ d continent,
           let d :=
             Driver (Py.dict_set (continents_data d) continent.1 [])
                    (csv_files d) (printed d) in
           let country_iter :=
             if sample then take 1 continent.2 else continent.2 in
           ofold (process_country fuel sample continent.1) country_iter d)
        continents_map (Driver [] [] []).

Definition main (fuel : nat) (sample : bool) : option (result output) :=
  match parse_homepage with
  | Raise e => Some (Raise e)
  | Ok continents_map =>
      d ← scrape fuel sample continents_map;
      wb ←or build_excel_workbook (continents_data d) "excel_output";
      Some (Ok (Output (continents_data d) (csv_files d) wb.1
                       (printed d ++ wb.2
                        ++ ["Excel workbooks created in excel_output/"])))
  end.

End Scraper.

(** ** A small web to run the scraper on

    The markup of a page is represented by its URL, the parser looks the
    page up in a table of trees, and a text that is no page parses to one
    text node. *)

Module Web.

Definition site : Type := list (string * list Bs4.node).

Definition http_get (pages : site) (url : string) : result string :=
  match Bs4.assoc url (map (λ p, (p.1, p.1)) pages) with
  | Some u => Ok u
  | None => Raise (RequestException ("404 Client Error: Not Found for url: "
                                     +:+ url))
  end.

Fixpoint page_of (pages : site) (markup : string) : option (list Bs4.node) :=
  match pages with
  | [] => None
  | p :: pages' =>
      if bool_decide (p.1 = markup) then Some p.2 else page_of pages' markup
  end.

Definition html_parser (pages : site) (markup : string) : list Bs4.node :=
  match page_of pages markup with
  | Some top => top
  | None => [Bs4.NavigableString markup]
  end.

(** [str(element)] on the sample sites, whose pages are given as trees:
    a string is its own markup; no example re-reads the markup of a
    tag. *)
Definition markup_of (n : Bs4.node) : string :=
  match n with
  | Bs4.NavigableString s => s
  | _ => ""
  end.

(** A resolver for absolute URLs and for paths that start at the root. *)
Definition urljoin (base : string) (url : option string) : result string :=
  match url with
  | None => Ok base
  | Some u => if Py.startswith u "http" then Ok u else Ok (base +:+ u)
  end.

(** The environment of a site. *)
Definition env (pages : site) : Env :=
  MkEnv (http_get pages) (html_parser pages) markup_of urljoin.

(** Page elements. *)
Definition text (s : string) : Bs4.node := Bs4.NavigableString s.
Definition el (nm : string) (kids : list Bs4.node) : Bs4.node :=
  Bs4.Tag nm [] kids.
Definition el_class (nm cls : string) (kids : list Bs4.node) : Bs4.node :=
  Bs4.Tag nm [("class", cls)] kids.
Definition el_id (nm i : string) (kids : list Bs4.node) : Bs4.node :=
  Bs4.Tag nm [("id", i)] kids.
Definition link (href label : string) : Bs4.node :=
  Bs4.Tag "a" [("href", href)] [text label].
Definition title (s : string) : Bs4.node := el "title" [text s].
Definition heading (s : string) : Bs4.node :=
  el_class "h3" "wanna-item" [text s].
Definition labelled (label value : string) : Bs4.node :=
  el "p" [el_class "span" "wanna-item-label" [text label]; text value].
(** A table with one link per row. *)
Definition link_table (links : list (string * string)) : Bs4.node :=
  el "table" (map (λ l, el "tr" [el "td" [link l.1 l.2]]) links).

End Web.

(** What the final pass of [parse_spot_page] makes of one attribute. *)
Definition or_sentinel (v : string) : string :=
  if bool_decide (v = "") then "empty" else v.

(** A spot page with a title, the access table, both characteristics
    columns, the additional information and the coordinates. *)
Definition pipeline_page : list Bs4.node :=
  [Web.el "html"
     [Web.el "head" [Web.title "Pipeline - Surfing in Hawaii"];
      Web.el "body"
        [Web.heading "Access";
         Web.el "table"
           [Web.el "tr"
              [Web.el "td"
                 [Web.labelled "Distance:" " Short  walk";
                  Web.labelled "Walk" "5 min";
                  Web.el "p" [Web.text "By the road."]]]];
         Web.heading "Surf Spot Characteristics";
         Web.el_id "div" "wanna-item-specific-2columns-left"
           [Web.el "h5" [Web.text "Wave"];
            Web.labelled "Wave quality" "World Class";
            Web.labelled "Type:" "Reef"];
         Web.el_id "div" "wanna-item-specific-2columns-right"
           [Web.labelled "Swell size" "big"];
         Web.heading "Additional Information";
         Bs4.Tag "p" [("style", "display:inline")] [Web.text "Crowded."];
         Web.el "p"
           [Web.el_class "span" "wanna-item-label-gps" [Web.text "Latitude:"];
            Web.text " 21 N ";
            Web.el_class "span" "wanna-item-label-gps"
              [Web.text "Longitude:"];
            Web.text "158 W"]]]].

(** A site with that page, and with a page that has no title under a URL
    whose last but one segment is empty. *)
Definition spot_site : Web.site :=
  [("https://www.wannasurf.com/spot/Pipeline/", pipeline_page);
   ("https://www.wannasurf.com/spot//", [Web.el "html" []])].

Definition pipeline_spot : Spot.t :=
  Spot.mk "Pipeline" "Short walk" "5 min" "empty" "empty" "empty"
    "World Class" "empty" "empty" "Reef" "empty" "empty" "empty" "empty"
    "empty" "empty" "empty" "big" "empty" "empty" "Crowded." "21 N" "158 W".

(** A paired table whose header has one row only, and a table in the
    single-month layout whose header cells are no month names. *)
Definition one_header_row_table : Bs4.node :=
  season_table
    [tr [th "Jan/Feb"; th "Mar/Apr"]]
    [tr [td_text "best season";
         td_img "/images/3-star.png";
         td_img "/images/wanna-empty-1x1.gif"]].

Definition no_month_table : Bs4.node :=
  season_table
    [tr [th ""; th "Months"]]
    [tr [td_text "Water temp."; td_text "24"]].

(** The header rows among which the claim about tables without qualifying
    header finds none: in the paired layout there is no second row, in the
    single-month layout no cell of any row is a month name. *)
Definition no_qualifying_header (months_format : string)
    (thead_rows : list Bs4.node) : Prop :=
  if bool_decide (months_format = "bi") then length thead_rows ≤ 1
  else ∀ row c, row ∈ thead_rows →
                c ∈ map (Bs4.get_text_strip "") (tags "th" row) →
                is_month3 c = false.

(** The value that the report shows for a month: the stored text, or
    ["empty"] when the metric or the month is missing or the stored text
    is [""] or ["0"]. *)
Definition value_or_empty (seasons : Py.dict (Py.dict string))
    (metric_key month : string) : string :=
  match row ← Py.dict_get seasons metric_key; Py.dict_get row month with
  | Some v => if bool_decide (v = "") || bool_decide (v = "0") then "empty"
              else v
  | None => "empty"
  end.

(** A decoded mapping with a rating, a placeholder and a missing month. *)
Definition seasons_example : Py.dict (Py.dict string) :=
  [("best_surfing_season",
    [("jan_feb", "3-star.png"); ("mar_apr", "0"); ("may_jun", "")])].

(** The header rows of a table: [table.find("thead").find_all("tr")]. *)
Definition thead_rows_of (table : Bs4.node) : list Bs4.node :=
  match Bs4.find (Bs4.named "thead") table with
  | Some thead => tags "tr" thead.2
  | None => []
  end.

(** The result of a call when it returned. *)
Definition ok_of {A} (r : result A) : option A :=
  match r with
  | Ok a => Some a
  | Raise _ => None
  end.

(** The zone a recursive call returned, when it returned one. *)
Definition child_of (o : option (result Zone.t * list string))
    : option Zone.t :=
  r ← o; ok_of r.1.

(** Two zones with the same attributes of their own page. *)
Definition same_page (z z' : Zone.t) : Prop :=
  Zone.name z' = Zone.name z ∧ Zone.url z' = Zone.url z
  ∧ Zone.about z' = Zone.about z ∧ Zone.at_a_glance z' = Zone.at_a_glance z
  ∧ Zone.seasons z' = Zone.seasons z
  ∧ Zone.additional_map z' = Zone.additional_map z.

(** A sample site: the home page lists one continent with one country;
    the country lists three zones and three spots of its own; the page of
    the second zone and the page of the second spot are missing; the first
    zone lists six spots. *)
Definition base (path : string) : string := BASE_URL +:+ path.

Definition spot_page (name : string) : list Bs4.node :=
  [Web.el "html" [Web.el "head" [Web.title (name +:+ " - Surfing")]]].

Definition listing_page (name : string) (zones spots : list (string * string))
    : list Bs4.node :=
  [Web.el "html"
     [Web.el "head" [Web.title (name +:+ " - Surfing")];
      Web.el "body"
        ((if bool_decide (zones = []) then []
          else [Web.heading "Zones"; Web.link_table zones])
         ++ (if bool_decide (spots = []) then []
             else [Web.heading "Surf Spots"; Web.link_table spots]))]].

(** A home page with one continent and its countries. *)
Definition home_of (continent : string) (countries : list (string * string))
    : list Bs4.node :=
  [Web.el "html"
     [Web.el "body"
        [Web.el_class "h2" "wanna-title-continent"
           [Web.link "/spot/" continent];
         Web.el "table"
           [Web.el "tr"
              (map (λ c,
                      Web.el "td"
                        [Bs4.Tag "a"
                           [("class",
                             "wanna-main-menu-static-tabbar-submenu");
                            ("href", c.1)]
                           [Web.text c.2]])
                   countries)]]]].

Definition home_page : list Bs4.node :=
  home_of "Europe" [("/spot/Europe/France/", "France")].

Definition france_site : Web.site :=
  [(base "/", home_page);
   (base "/spot/Europe/France/",
    listing_page "France"
      [("/spot/Europe/France/North/", "North");
       ("/spot/Europe/France/Middle/", "Middle");
       ("/spot/Europe/France/South/", "South")]
      [("/spot/Europe/France/La_Torche/", "La Torche");
       ("/spot/Europe/France/Ghost/", "Ghost");
       ("/spot/Europe/France/Hossegor/", "Hossegor")]);
   (base "/spot/Europe/France/North/",
    listing_page "North" []
      [("/spot/Europe/France/North/S1/", "S1");
       ("/spot/Europe/France/North/S2/", "S2");
       ("/spot/Europe/France/North/S3/", "S3");
       ("/spot/Europe/France/North/S4/", "S4");
       ("/spot/Europe/France/North/S5/", "S5");
       ("/spot/Europe/France/North/S6/", "S6")]);
   (base "/spot/Europe/France/South/", listing_page "South" [] []);
   (base "/spot/Europe/France/La_Torche/", spot_page "La Torche");
   (base "/spot/Europe/France/Hossegor/", spot_page "Hossegor");
   (base "/spot/Europe/France/North/S1/", spot_page "S1");
   (base "/spot/Europe/France/North/S2/", spot_page "S2");
   (base "/spot/Europe/France/North/S3/", spot_page "S3");
   (base "/spot/Europe/France/North/S4/", spot_page "S4");
   (base "/spot/Europe/France/North/S5/", spot_page "S5");
   (base "/spot/Europe/France/North/S6/", spot_page "S6")].

(** The steps that fill a zone from its own page leave both lists as
    they are. *)
Definition same_lists (z z' : Zone.t) : Prop :=
  Zone.surf_spots z' = Zone.surf_spots z
  ∧ Zone.sub_zones z' = Zone.sub_zones z.

(** The name that the report gives a zone sheet, among the sheet names
    [earlier] taken before it: the sanitised zone name [base] when it is
    free, otherwise the first free name among [base[:28]_1], [base[:28]_2]
    and so on. *)
Definition name_rule (earlier : list string) (base name : string) : Prop :=
  ((base ∉ earlier) ∧ name = base)
  ∨ (base ∈ earlier
     ∧ ∃ k, 1 ≤ k ∧ name = suffixed base k ∧ (name ∉ earlier)
            ∧ ∀ j, 1 ≤ j < k → suffixed base j ∈ earlier).

(** The zones named [zones] receive the sheet names [names], one after
    the other, each by [name_rule] among the names taken before it. *)
Fixpoint named_in_turn (earlier zones names : list string) : Prop :=
  match zones, names with
  | [], [] => True
  | z :: zones', n :: names' =>
      name_rule earlier (sanitize 31 z) n
      ∧ named_in_turn (earlier ++ [n]) zones' names'
  | _, _ => False
  end.

(** The zones that get a sheet in the workbook of a continent, in the
    order of their sheets, each with the writes of its sheet: the nested
    zones, then the leaf zones of every country. *)
Definition zone_sheet_items (countries : Py.dict Zone.t)
    : list (string * list (nat * nat * cell)) :=
  map (λ z, (z.1, sub_zones_cells z.2)) (nested_zones countries)
  ++ map (λ z, (z.1, spot_cells z.1 z.2))
         (flat_map (λ c, leaf_zones c.2) countries).

(** The name that xlsxwriter gives the [n]-th sheet of a workbook when
    asked for the name [requested]: [SheetN] for the empty name. *)
Definition given_name (n : nat) (requested : string) : string :=
  if bool_decide (requested = "") then "Sheet" +:+ Py.str_of_nat n
  else requested.

(** The workbook under construction: [created_sheets] holds the names
    asked for so far, in [requested], and the sheets bear the names that
    xlsxwriter gave for them. *)
Definition tracked (requested : list string) (wb : list sheet * gset string)
    : Prop :=
  (∀ n, n ∈ wb.2 ↔ n ∈ requested)
  ∧ map sheet_name wb.1 = imap (λ j, given_name (S j)) requested.

(** A name that xlsxwriter cannot reject as invalid: at most 31
    characters, all of them letters, digits or underscores. *)
Definition plain_name (name : string) : Prop :=
  length (Py.chars name) ≤ 31
  ∧ Forall (λ c, not_word c = false) (Py.chars name).

(** The sheets of a workbook that xlsxwriter accepted: no two names are
    equal with case ignored, and no name has more than 31 characters. *)
Definition well_named (sheets : list sheet) : Prop :=
  NoDup (map (λ sh, Py.lower (sheet_name sh)) sheets)
  ∧ Forall (λ sh, length (Py.chars (sheet_name sh)) ≤ 31) sheets.

(** The two exceptions of [add_worksheet]. *)
Definition worksheet_error (e : exn) : Prop :=
  (∃ msg, e = DuplicateWorksheetName msg)
  ∨ (∃ msg, e = InvalidWorksheetName msg).

(** A workbook has a surf-spot sheet for a zone: a sheet whose writes are
    the header row and one row per spot of the zone. *)
Definition has_spot_sheet (wb : workbook) (zone_name : string) (z : Zone.t)
    : Prop :=
  ∃ sh, sh ∈ sheets wb ∧ cells sh = spot_cells zone_name z.

(** A site whose only country has a chain of three nested zones; the
    deepest zone lists one spot. *)
Definition deep_site : Web.site :=
  [(base "/", home_of "Oceania" [("/spot/Oceania/Deepland/", "Deepland")]);
   (base "/spot/Oceania/Deepland/",
    listing_page "Deepland" [("/spot/Oceania/Deepland/Coast/", "Coast")] []);
   (base "/spot/Oceania/Deepland/Coast/",
    listing_page "Coast" [("/spot/Oceania/Deepland/Coast/Bay/", "Bay")] []);
   (base "/spot/Oceania/Deepland/Coast/Bay/",
    listing_page "Bay" [("/spot/Oceania/Deepland/Coast/Bay/Reef/", "Reef")]
                 []);
   (base "/spot/Oceania/Deepland/Coast/Bay/Reef/",
    listing_page "Reef" []
      [("/spot/Oceania/Deepland/Coast/Bay/Reef/Break/", "Reef Break")]);
   (base "/spot/Oceania/Deepland/Coast/Bay/Reef/Break/",
    spot_page "Reef Break")].

(** A country with two zones whose names sanitise to the same text. *)
Definition cote_country : Zone.t :=
  Zone.mk "Landes" (base "/spot/Europe/Landes/") "" "" [] None []
    [Zone.mk "Cote Sud" (base "/spot/Europe/Landes/a/") "" "" [] None [] [];
     Zone.mk "Cote-Sud" (base "/spot/Europe/Landes/b/") "" "" [] None [] []].

(** The countries of a continent: one with a zone of two sub-zones that
    lists a spot itself and a zone without sub-zones, and one without
    zones. *)
Definition iberia : Py.dict Zone.t :=
  [("Portugal",
    Zone.mk "Portugal" (base "/spot/Europe/Portugal/") "" "" [] None []
      [Zone.mk "Algarve" (base "/spot/Europe/Portugal/Algarve/") "" "" []
         None [Spot.new "Arrifana"]
         [Zone.mk "Sagres" (base "/spot/Europe/Portugal/Algarve/Sagres/")
            "" "" [] None [Spot.new "Tonel"; Spot.new "Beliche"] [];
          Zone.new "Lagos" (base "/spot/Europe/Portugal/Algarve/Lagos/")];
       Zone.mk "Peniche" (base "/spot/Europe/Portugal/Peniche/") "" "" []
         None [Spot.new "Supertubos"] []]);
   ("Gibraltar",
    Zone.mk "Gibraltar" (base "/spot/Europe/Gibraltar/") "" "" [] None
      [Spot.new "Eastern Beach"] [])].

(** A country with two zones whose names differ in case only. *)
Definition case_country : Zone.t :=
  Zone.mk "Landes" (base "/spot/Europe/Landes/") "" "" [] None []
    [Zone.new "Cote_Sud" (base "/spot/Europe/Landes/a/");
     Zone.new "cote_sud" (base "/spot/Europe/Landes/b/")].

(** A country with 101 zones of one name, 31 characters long once
    sanitised. *)
Definition crowded_country : Zone.t :=
  Zone.mk "Brasil" (base "/spot/South_America/Brasil/") "" "" [] None []
    (replicate 101
       (Zone.new "Praia do Norte de Santa Catarina"
                 (base "/spot/South_America/Brasil/Praia/"))).

(** The sampling of one zone: a list of more than five spots is cut to
    its first five. *)
Definition sample_spots (z : Zone.t) : Zone.t :=
  if bool_decide (5 < length (Zone.surf_spots z)) then
    Zone.set_surf_spots z (take 5 (Zone.surf_spots z))
  else z.

(** A country as a sampled run leaves it: its first zone is sampled, or
    the country itself when it has no zone. *)
Definition sampled (country_zone : Zone.t) : Zone.t :=
  if bool_decide (Zone.sub_zones country_zone = []) then
    sample_spots country_zone
  else
    Zone.set_sub_zones country_zone
      (alter sample_spots 0 (Zone.sub_zones country_zone)).

(** The tree stored for a country comes from a call of the parser: it is
    the tree the call returned, sampled in a sampled run. *)
Definition as_parsed (env : Env) (fuel : nat) (sample : bool)
    (stored : Zone.t) : Prop :=
  ∃ url zone printed,
    parse_country_or_zone_page env fuel url true = Some (Ok zone, printed)
    ∧ stored = (if sample then sampled zone else zone).

(** Every country of a forest is [as_parsed]. *)
Definition forest_as_parsed (env : Env) (fuel : nat) (sample : bool)
    (forest : Py.dict (Py.dict Zone.t)) : Prop :=
  ∀ continent countries country stored,
    Py.dict_get forest continent = Some countries →
    Py.dict_get countries country = Some stored →
    as_parsed env fuel sample stored.

(** [continents_data] once the tree [z] is stored for a country. *)
Definition stored_at (continent country : string) (z : Zone.t)
    (continents_data : Py.dict (Py.dict Zone.t))
    : Py.dict (Py.dict Zone.t) :=
  Py.dict_alter (λ countries, Py.dict_set countries country z) continent
                continents_data.

(** What [dump_zone] does to the tree of a country, for the zone at
    position [p] of that tree. *)
Definition dump_effect (sample : bool) (p : list nat) (z : Zone.t) : Zone.t :=
  match zone_at p z with
  | Some zone_obj =>
      if sample && bool_decide (5 < length (Zone.surf_spots zone_obj)) then
        zone_update p (λ z', Zone.set_surf_spots
                               z' (take 5 (Zone.surf_spots zone_obj))) z
      else z
  | None => z
  end.

(** ** What the further properties speak of *)

(** White space that occurs as single spaces only, each followed by a
    character that is no white space; [at_end] tells whether a space may
    also end the text. *)
Fixpoint spaced (at_end : bool) (l : list ascii) : bool :=
  match l with
  | [] => true
  | c :: l' =>
      (if Py.isspace c then
         bool_decide (c = " "%char)
         && match l' with [] => at_end | d :: _ => negb (Py.isspace d) end
       else true)
      && spaced at_end l'
  end.

(** No white space at the start. *)
Definition starts_clean (l : list ascii) : bool :=
  match l with [] => true | c :: _ => negb (Py.isspace c) end.

(** A text as [clean_text] leaves it: no white space at either end, and
    single spaces between the words. *)
Definition is_clean (s : string) : bool :=
  starts_clean (Py.chars s) && spaced false (Py.chars s).

(** The last character is no white space. *)
Definition ends_clean (l : list ascii) : bool := starts_clean (reverse l).

(** What [strip] leaves of a text. *)
Definition stripped (l : list ascii) : list ascii :=
  reverse (Py.drop_while Py.isspace (reverse (Py.drop_while Py.isspace l))).

(** The title text of a page, [""] when it has no [title]. *)
Definition page_title (soup : Bs4.node) : string :=
  match Bs4.find (Bs4.named "title") soup with
  | Some t => Bs4.get_text_strip "" t.2
  | None => ""
  end.

(** A zone page whose seasons table has a body but no header. *)
Definition headless_seasons_page : list Bs4.node :=
  [Web.el "html"
     [Web.el "head" [Web.title "Landes - Surfing in France"];
      Web.el "body"
        [Web.el_id "div" "wanna-country-tab-additional-info"
           [Bs4.Tag "table" [("id", "wanna-season-table")]
              [Bs4.Tag "tbody" []
                 [tr [td_text "Water temp."; td_text "18"]]]];
         Web.heading "Surf Spots";
         Web.link_table [("/spot/Europe/France/Landes/Hossegor/", "Hossegor")]]]].

Definition headless_site : Web.site :=
  [(BASE_URL +:+ "/spot/Europe/France/Landes/", headless_seasons_page);
   (BASE_URL +:+ "/spot/Europe/France/Landes/Hossegor/",
    [Web.el "html" [Web.el "head" [Web.title "Hossegor - Surfing"]]])].

(** The zones below a zone, at every depth. *)
Fixpoint zones_below (z : Zone.t) : list Zone.t :=
  match z with
  | Zone.mk _ _ _ _ _ _ _ sub_zones =>
      flat_map (λ c, c :: zones_below c) sub_zones
  end.

(** A spot without empty attribute. *)
Definition spot_complete (sp : Spot.t) : Prop :=
  ∀ f, Spot.getattr sp f ≠ "".

(** A zone that stores no placeholder text. *)
Definition no_placeholder (z : Zone.t) : Prop :=
  Py.startswith (Py.lower (Zone.about z)) "wanna add some info" = false
  ∧ Py.contains "automatic build" (Py.lower (Zone.at_a_glance z)) = false.

(** The path of the workbook of a continent. *)
Definition workbook_path_of (output_dir continent : string) : string :=
  path_join output_dir (sanitize 50 continent +:+ ".xlsx").

(** What a sampled run keeps within bounds: at most one country per
    continent, and at most five spot rows below the header of a CSV
    file. *)
Definition sample_bounded (d : driver) : Prop :=
  (∀ continent countries,
     Py.dict_get (continents_data d) continent = Some countries →
     length countries ≤ 1)
  ∧ ∀ path rows, (path, rows) ∈ csv_files d → length rows ≤ 6.

(** A spot whose attributes are all as [clean_text] leaves a text. *)
Definition all_clean (sp : Spot.t) : Prop :=
  ∀ f, is_clean (Spot.getattr sp f) = true.

(** * Properties *)

(** ** Generic facts about loops *)

Lemma foldl_invariant {A B} (P : B → Prop) (f : B → A → B) (l : list A)
    (b : B) :
  P b → (∀ b a, P b → P (f b a)) → P (foldl f b l).
Proof.
  intros Hb Hstep. revert b Hb.
  induction l as [|a l IH]; intros b Hb; simpl; [done|].
  apply IH, Hstep, Hb.
Qed.

Lemma filter_none {A} (P : A → Prop) `{!∀ x, Decision (P x)} (l : list A) :
  (∀ x, x ∈ l → ¬ P x) → filter P l = [].
Proof.
  induction l as [|a l IH]; intros Hl; [done|].
  rewrite filter_cons_False by (apply Hl, list_elem_of_here).
  apply IH. intros x Hx. by apply Hl, list_elem_of_further.
Qed.

Lemma Forall2_of_map_eq {A B C} (f : A → C) (g : B → C) (l : list A)
    (k : list B) :
  map g k = map f l → Forall2 (λ a b, g b = f a) l k.
Proof.
  revert k. induction l as [|a l IH]; intros [|b k] H; simplify_eq/=;
    constructor; auto.
Qed.

Lemma Ok_inj {A} (a b : A) : Ok a = Ok b → a = b.
Proof. intros H. by injection H. Qed.

(** ** Surf spots: the final pass *)

Lemma getattr_setattr_eq (s : Spot.t) (f : Field.t) (v : string) :
  Spot.getattr (Spot.setattr s f v) f = v.
Proof. by destruct f. Qed.

Lemma getattr_setattr_ne (s : Spot.t) (f g : Field.t) (v : string) :
  f ≠ g → Spot.getattr (Spot.setattr s f v) g = Spot.getattr s g.
Proof. by destruct f, g. Qed.

Lemma name_setattr (s : Spot.t) (f : Field.t) (v : string) :
  Spot.name (Spot.setattr s f v) = Spot.name s.
Proof. by destruct f. Qed.

Lemma or_sentinel_idemp (v : string) :
  or_sentinel (or_sentinel v) = or_sentinel v.
Proof. unfold or_sentinel. by repeat case_bool_decide. Qed.

Lemma or_sentinel_nonempty (v : string) : or_sentinel v ≠ "".
Proof. unfold or_sentinel. by case_bool_decide. Qed.

Lemma fill_step_same (s : Spot.t) (f : Field.t) :
  Spot.getattr (fill_step s f) f = or_sentinel (Spot.getattr s f).
Proof.
  unfold fill_step, or_sentinel. case_bool_decide; [|done].
  apply getattr_setattr_eq.
Qed.

Lemma fill_step_other (s : Spot.t) (f g : Field.t) :
  f ≠ g → Spot.getattr (fill_step s f) g = Spot.getattr s g.
Proof.
  intros Hne. unfold fill_step. case_bool_decide; [|done].
  by apply getattr_setattr_ne.
Qed.

Lemma fill_fields_getattr (l : list Field.t) (s : Spot.t) (f : Field.t) :
  Spot.getattr (foldl fill_step s l) f =
  if bool_decide (f ∈ l) then or_sentinel (Spot.getattr s f)
  else Spot.getattr s f.
Proof.
  revert s. induction l as [|a l IH]; intros s; simpl; [done|].
  rewrite IH. destruct (decide (a = f)) as [->|Hne].
  - rewrite fill_step_same, or_sentinel_idemp.
    rewrite (bool_decide_eq_true_2 (f ∈ f :: l)) by apply list_elem_of_here.
    by case_bool_decide.
  - rewrite fill_step_other by done.
    apply (f_equal (λ b : bool, if b then _ else _)).
    apply bool_decide_ext. rewrite elem_of_cons.
    split; [by right | by intros [->|?]].
Qed.

Lemma field_names_complete (f : Field.t) : f ∈ field_names.
Proof. destruct f; unfold field_names; set_solver. Qed.

(** Every attribute after the final pass: the extracted text when there is
    one, the sentinel otherwise. *)
Lemma fill_missing_getattr (s : Spot.t) (f : Field.t) :
  Spot.getattr (fill_missing s) f = or_sentinel (Spot.getattr s f).
Proof.
  unfold fill_missing.
  rewrite fill_fields_getattr.
  by rewrite (bool_decide_eq_true_2 _ (field_names_complete f)).
Qed.

Lemma fill_missing_name (s : Spot.t) :
  Spot.name (fill_missing s) = Spot.name s.
Proof.
  unfold fill_missing.
  apply (foldl_invariant (λ s', Spot.name s' = Spot.name s)); [done|].
  intros b a Hb. unfold fill_step. case_bool_decide; [|done].
  by rewrite name_setattr.
Qed.

(** ** Surf spots: the name *)

Lemma assign_by_name (table : list (string * Field.t)) (s : Spot.t)
    (label value : string) :
  Spot.name (assign_by table s label value) = Spot.name s.
Proof.
  induction table as [|[l f] table IH]; simpl; [done|].
  case_bool_decide; [apply name_setattr | apply IH].
Qed.

Lemma labelled_paragraph_name (table : list (string * Field.t))
    (p : Bs4.path) (st : Bs4.node * Spot.t) :
  Spot.name (labelled_paragraph table p st).2 = Spot.name st.2.
Proof.
  unfold labelled_paragraph.
  repeat case_match; simpl; try done. apply assign_by_name.
Qed.

Lemma access_section_name (st : Bs4.node * Spot.t) :
  Spot.name (access_section st).2 = Spot.name st.2.
Proof.
  unfold access_section. repeat case_match; try done.
  apply (foldl_invariant (λ st', Spot.name st'.2 = Spot.name st.2)); [done|].
  intros b a Hb. by rewrite labelled_paragraph_name.
Qed.

Lemma characteristics_column_name (col : option (Bs4.path * Bs4.node))
    (st : Bs4.node * Spot.t) :
  Spot.name (characteristics_column col st).2 = Spot.name st.2.
Proof.
  unfold characteristics_column. repeat case_match; try done.
  apply (foldl_invariant (λ st', Spot.name st'.2 = Spot.name st.2)); [done|].
  intros b a Hb. repeat case_match; try done.
  by rewrite labelled_paragraph_name.
Qed.

Lemma characteristics_section_name (st : Bs4.node * Spot.t) :
  Spot.name (characteristics_section st).2 = Spot.name st.2.
Proof.
  unfold characteristics_section. case_match; [|done].
  by rewrite !characteristics_column_name.
Qed.

Lemma additional_section_name (st : Bs4.node * Spot.t) :
  Spot.name (additional_section st).2 = Spot.name st.2.
Proof.
  unfold additional_section. repeat case_match; try done; simpl.
  all: apply name_setattr.
Qed.

Lemma coordinate_name (env : Env) (label : string) (field : Field.t)
    (st : Bs4.node * Spot.t) :
  Spot.name (coordinate env label field st).2
  = Spot.name st.2.
Proof.
  unfold coordinate. repeat case_match; try done; simpl.
  all: apply name_setattr.
Qed.

(** No extraction step assigns the name. *)
Lemma extract_spot_name (env : Env) (soup : Bs4.node) (name : string) :
  Spot.name (extract_spot env soup name) = name.
Proof.
  unfold extract_spot.
  by rewrite !coordinate_name, additional_section_name,
    characteristics_section_name, access_section_name.
Qed.

(** What [parse_spot_page] returns: the final pass applied to the outcome
    of the extraction steps on the fetched page. *)
Lemma parse_spot_page_ok (env : Env) (url : string) (spot : Spot.t) :
  parse_spot_page env url = Ok spot →
  ∃ html name,
    fetch env url = Ok html ∧
    spot_name (Bs4.BeautifulSoup (html_parser env html)) url = Ok name ∧
    spot = fill_missing
             (extract_spot env
                (Bs4.BeautifulSoup (html_parser env html)) name).
Proof.
  unfold parse_spot_page, rbind. intros H.
  destruct (fetch env url) as [html|e] eqn:Hf; [|discriminate].
  cbv beta iota in H.
  destruct (spot_name (Bs4.BeautifulSoup (html_parser env html)) url)
    as [name|e] eqn:Hn; [|discriminate].
  cbv beta iota in H. apply Ok_inj in H.
  exists html, name. split; [reflexivity|]. split; [exact Hn|].
  symmetry. exact H.
Qed.

(** C1: every attribute of a spot that [parse_spot_page] returns, other
    than the name, is the non-empty text that the extraction steps found
    or exactly the sentinel ["empty"], never the empty string; the spot is
    the outcome of one final pass over the spot that all the extraction
    steps produced. *)
Theorem parse_spot_page_fields (env : Env) (url : string) (spot : Spot.t) :
  parse_spot_page env url = Ok spot →
  ∃ soup name,
    spot = fill_missing (extract_spot env soup name) ∧
    ∀ f : Field.t,
      let extracted :=
        Spot.getattr (extract_spot env soup name) f in
      Spot.getattr spot f ≠ "" ∧
      ((extracted ≠ "" ∧ Spot.getattr spot f = extracted)
       ∨ (extracted = "" ∧ Spot.getattr spot f = "empty")).
Proof.
  intros H. apply parse_spot_page_ok in H as (html & name & _ & _ & ->).
  exists (Bs4.BeautifulSoup (html_parser env html)), name. split; [done|].
  intros f extracted. rewrite fill_missing_getattr. fold extracted.
  split; [apply or_sentinel_nonempty|].
  unfold or_sentinel. case_bool_decide; [by right | by left].
Qed.

Lemma parse_spot_page_fields_witness :
  ∃ soup name,
    pipeline_spot
    = fill_missing
        (extract_spot (Web.env spot_site) soup name) ∧
    ∀ f : Field.t,
      let extracted :=
        Spot.getattr
          (extract_spot (Web.env spot_site) soup name) f in
      Spot.getattr pipeline_spot f ≠ "" ∧
      ((extracted ≠ "" ∧ Spot.getattr pipeline_spot f = extracted)
       ∨ (extracted = "" ∧ Spot.getattr pipeline_spot f = "empty")).
Proof.
  apply (parse_spot_page_fields (Web.env spot_site) "/spot/Pipeline/").
  vm_compute. reflexivity.
Defined.

(** C9: the name is outside the final pass.  The name of a returned spot
    is the text computed from the title or the URL, whatever it is; and on
    a page without title under a URL whose last but one segment is empty
    the returned spot has the empty name while all its 22 attributes are
    the sentinel. *)
Theorem parse_spot_page_name_kept :
  (∀ (env : Env) (url : string) (spot : Spot.t),
     parse_spot_page env url = Ok spot →
     ∃ html,
       fetch env url = Ok html ∧
       spot_name (Bs4.BeautifulSoup (html_parser env html)) url
       = Ok (Spot.name spot))
  ∧ (∀ s : Spot.t, Spot.name (fill_missing s) = Spot.name s)
  ∧ ∃ spot,
      parse_spot_page (Web.env spot_site) "https://www.wannasurf.com/spot//"
      = Ok spot
      ∧ Spot.name spot = ""
      ∧ ∀ f : Field.t, Spot.getattr spot f = "empty".
Proof.
  split; [|split].
  - intros env url spot H.
    apply parse_spot_page_ok in H as (html & name & Hf & Hn & ->).
    exists html. split; [done|].
    by rewrite fill_missing_name, extract_spot_name.
  - apply fill_missing_name.
  - eexists. split; [vm_compute; reflexivity|].
    split; [done|]. by intros [].
Qed.

(** ** The seasons table *)

(** C3: the synthetic paired table decodes to the mapping of the claim. *)
Theorem parse_seasons_table_paired_example :
  parse_seasons_table paired_table_example "bi"
  = Ok [("best_season", [("jan_feb", "3-star.png"); ("mar_apr", "0")])].
Proof. vm_compute. reflexivity. Qed.

Lemma dict_get_set_eq {V} (d : Py.dict V) (k : string) (v : V) :
  Py.dict_get (Py.dict_set d k v) k = Some v.
Proof.
  induction d as [|[k' v'] d IH]; simpl.
  - by rewrite bool_decide_eq_true_2.
  - case_bool_decide as Hk; simpl.
    + by rewrite bool_decide_eq_true_2.
    + by rewrite (bool_decide_eq_false_2 _ Hk).
Qed.

Lemma dict_get_set_ne {V} (d : Py.dict V) (k k' : string) (v : V) :
  k ≠ k' → Py.dict_get (Py.dict_set d k v) k' = Py.dict_get d k'.
Proof.
  intros Hne. induction d as [|[k0 v0] d IH]; simpl.
  - by rewrite bool_decide_eq_false_2.
  - case_bool_decide as Hk; simpl.
    + subst k0. by rewrite !bool_decide_eq_false_2.
    + case_bool_decide; [done | apply IH].
Qed.

Lemma dict_set_elem {V} (d : Py.dict V) (k : string) (v : V) (kv : string * V) :
  kv ∈ Py.dict_set d k v → kv = (k, v) ∨ kv ∈ d.
Proof.
  induction d as [|[k' v'] d IH]; simpl.
  - rewrite list_elem_of_singleton. by left.
  - case_bool_decide; rewrite !elem_of_cons.
    + intros [->|H']; [by left | by right; right].
    + intros [->|H']; [by right; left|]. destruct (IH H'); auto.
Qed.

Lemma bi_month_headers_short (thead_rows : list Bs4.node) :
  length thead_rows ≤ 1 → bi_month_headers thead_rows = [].
Proof.
  intros Hlen. unfold bi_month_headers.
  by rewrite (lookup_ge_None_2 thead_rows 1).
Qed.

Lemma single_month_headers_none (thead_rows : list Bs4.node) :
  (∀ row c, row ∈ thead_rows →
            c ∈ map (Bs4.get_text_strip "") (tags "th" row) →
            is_month3 c = false) →
  single_month_headers thead_rows = [].
Proof.
  induction thead_rows as [|row rows IH]; intros H; simpl; [done|].
  assert (filter (λ c, is_month3 c = true)
                 (map (Bs4.get_text_strip "") (tags "th" row)) = []) as ->.
  { apply filter_none. intros c Hc.
    rewrite (H row c); [done | apply list_elem_of_here | done]. }
  apply IH. intros row' c Hrow. apply H. by apply list_elem_of_further.
Qed.

Lemma month_headers_of_none (months_format : string)
    (thead_rows : list Bs4.node) :
  no_qualifying_header months_format thead_rows →
  month_headers_of months_format thead_rows = [].
Proof.
  unfold no_qualifying_header, month_headers_of. case_bool_decide.
  - apply bi_month_headers_short.
  - apply single_month_headers_none.
Qed.

Lemma dict_get_elem {V} (d : Py.dict V) (k : string) (v : V) :
  Py.dict_get d k = Some v → (k, v) ∈ d.
Proof.
  induction d as [|[k' v'] d IH]; simpl; [done|].
  case_bool_decide as Hk.
  - intros [= ->]. subst k'. apply list_elem_of_here.
  - intros H. by apply list_elem_of_further, IH.
Qed.

(** The loop over the body rows when there is no column key: it cannot
    raise, every row with cells stores an empty inner mapping under its
    metric key, and nothing else is stored. *)
Lemma body_loop_no_keys (rows : list Bs4.node)
    (d : Py.dict (Py.dict string)) :
  (∀ k v, (k, v) ∈ d → v = []) →
  ∃ result,
    rfold (λ result row,
             let cells := row_cells row in
             match cells with
             | [] => Ok result
             | cell0 :: _ =>
                 values ←r row_values [] cells;
                 Ok (Py.dict_set result (metric_name_of cell0) values)
             end) rows d = Ok result
    ∧ (∀ k v, (k, v) ∈ result → v = [])
    ∧ (∀ k, is_Some (Py.dict_get d k) → Py.dict_get result k = Some [])
    ∧ (∀ row cell0 cells, row ∈ rows → row_cells row = cell0 :: cells →
         Py.dict_get result (metric_name_of cell0) = Some [])
    ∧ (∀ k v, (k, v) ∈ result →
         (k, v) ∈ d
         ∨ ∃ row cell0 cells, row ∈ rows ∧ row_cells row = cell0 :: cells
                              ∧ k = metric_name_of cell0).
Proof.
  revert d. induction rows as [|row rows IH]; intros d Hd.
  - exists d. repeat split; try done.
    + intros k [v Hv]. rewrite Hv. f_equal. eapply Hd, dict_get_elem, Hv.
    + intros row cell0 cells H. by apply elem_of_nil in H.
    + intros k v H. by left.
  - cbn [rfold]. destruct (row_cells row) as [|cell0 cells] eqn:Hc.
    + cbn [rbind].
      destruct (IH d Hd) as (result & Hr & Hall & Hold & Hrows & Hfrom).
      exists result. repeat split; try done.
      * intros row' c0 cs [->|Hin]%elem_of_cons Hc'; [congruence|].
        by eapply Hrows.
      * intros k v Hkv. destruct (Hfrom k v Hkv) as [?|(r & c0 & cs & ? & ? & ?)];
          [by left|]. right. exists r, c0, cs. split; [|done].
        by apply list_elem_of_further.
    + change (row_values [] (cell0 :: cells)) with (Ok ([] : Py.dict string)).
      cbn [rbind].
      set (d' := Py.dict_set d (metric_name_of cell0) []).
      assert (∀ k v, (k, v) ∈ d' → v = []) as Hd'.
      { intros k v [[= -> ->]|?]%dict_set_elem; [done | by eapply Hd]. }
      destruct (IH d' Hd') as (result & Hr & Hall & Hold & Hrows & Hfrom).
      exists result. repeat split; try done.
      * intros k Hk. apply Hold. unfold d'.
        destruct (decide (metric_name_of cell0 = k)) as [<-|Hne].
        -- by rewrite dict_get_set_eq.
        -- by rewrite dict_get_set_ne.
      * intros row' c0 cs [->|Hin]%elem_of_cons Hc'; [|by eapply Hrows].
        assert (c0 = cell0) as -> by congruence.
        apply Hold. unfold d'. by rewrite dict_get_set_eq.
      * intros k v Hkv.
        destruct (Hfrom k v Hkv) as [Hin|(r & c0 & cs & ? & ? & ?)].
        -- apply dict_set_elem in Hin as [[= -> ->]|?]; [|by left].
           right. exists row, cell0, cells. split; [apply list_elem_of_here|done].
        -- right. exists r, c0, cs. split; [|done].
           by apply list_elem_of_further.
Qed.

(** C4, as the code has it: without a qualifying header row the list of
    column keys is empty and the table is decoded without an exception
    (when it has a [thead] and a [tbody]); the mapping has an entry for
    every body row that has cells, under its metric key, and each such
    entry is an empty inner mapping.  The mapping itself is empty exactly
    when no body row has cells. *)
Theorem parse_seasons_table_no_header (table : Bs4.node)
    (months_format : string) (thead tbody : Bs4.path * Bs4.node) :
  Bs4.find (Bs4.named "thead") table = Some thead →
  Bs4.find (Bs4.named "tbody") table = Some tbody →
  no_qualifying_header months_format (tags "tr" thead.2) →
  month_headers_of months_format (tags "tr" thead.2) = []
  ∧ ∃ result,
      parse_seasons_table table months_format = Ok result
      ∧ (∀ k v, (k, v) ∈ result → v = [])
      ∧ (∀ row cell0 cells,
           row ∈ tags "tr" tbody.2 → row_cells row = cell0 :: cells →
           Py.dict_get result (metric_name_of cell0) = Some [])
      ∧ (result = [] ↔ ∀ row, row ∈ tags "tr" tbody.2 → row_cells row = []).
Proof.
  intros Hthead Htbody Hno.
  pose proof (month_headers_of_none _ _ Hno) as Hkeys.
  split; [done|].
  unfold parse_seasons_table, find_then. rewrite Hthead, Htbody.
  cbn [rbind]. rewrite Hkeys.
  destruct (body_loop_no_keys (tags "tr" tbody.2) [])
    as (result & Hr & Hall & _ & Hrows & Hfrom).
  { intros k v H. by apply elem_of_nil in H. }
  exists result. split; [exact Hr|]. split; [exact Hall|].
  split; [exact Hrows|]. split.
  - intros -> row Hrow. destruct (row_cells row) as [|c0 cs] eqn:Hc; [done|].
    by specialize (Hrows row c0 cs Hrow Hc).
  - intros Hnone. destruct result as [|[k v] result]; [done|].
    destruct (Hfrom k v) as [H|(r & c0 & cs & Hin & Hc & _)].
    + apply list_elem_of_here.
    + by apply elem_of_nil in H.
    + by rewrite (Hnone r Hin) in Hc.
Qed.

Lemma parse_seasons_table_no_header_witness :
  month_headers_of "bi" (thead_rows_of one_header_row_table) = []
  ∧ ∃ result,
      parse_seasons_table one_header_row_table "bi" = Ok result
      ∧ (∀ k v, (k, v) ∈ result → v = [])
      ∧ (∀ row cell0 cells,
           row ∈ [tr [td_text "best season";
                      td_img "/images/3-star.png";
                      td_img "/images/wanna-empty-1x1.gif"]] →
           row_cells row = cell0 :: cells →
           Py.dict_get result (metric_name_of cell0) = Some [])
      ∧ (result = []
         ↔ ∀ row, row ∈ [tr [td_text "best season";
                             td_img "/images/3-star.png";
                             td_img "/images/wanna-empty-1x1.gif"]] →
                  row_cells row = []).
Proof.
  apply (parse_seasons_table_no_header one_header_row_table "bi"
           ([0], Bs4.Tag "thead" [] [tr [th "Jan/Feb"; th "Mar/Apr"]])
           ([1], Bs4.Tag "tbody" []
                   [tr [td_text "best season";
                        td_img "/images/3-star.png";
                        td_img "/images/wanna-empty-1x1.gif"]])).
  - reflexivity.
  - reflexivity.
  - vm_compute. lia.
Defined.

(** C4 as stated fails: a paired table with a single header row and one
    metric row has no column key, yet its decoded mapping is not empty. *)
Lemma headerless_table_result_not_empty :
  no_qualifying_header "bi" (thead_rows_of one_header_row_table)
  ∧ month_headers_of "bi" (thead_rows_of one_header_row_table) = []
  ∧ parse_seasons_table one_header_row_table "bi" = Ok [("best_season", [])]
  ∧ parse_seasons_table one_header_row_table "bi" ≠ Ok [].
Proof.
  split; [vm_compute; lia|]. split; [reflexivity|].
  split; [vm_compute; reflexivity|]. by vm_compute.
Qed.

(** ** The seasonal lines of the report *)

Lemma month_labels :
  map month_label default_months
  = ["Jan/Feb"; "Mar/Apr"; "May/Jun"; "Jul/Aug"; "Sep/Oct"; "Nov/Dec"].
Proof. reflexivity. Qed.

(** One turn of the loop of [format_seasons]: a read, and one more row. *)
Lemma season_row_step_spec (seasons : Py.dict (Py.dict string))
    (metric_key : string) (row : Py.dict string) (rows : list string)
    (m : string) :
  Py.dict_get seasons metric_key = Some row →
  season_row_step metric_key rows m seasons
  = (rows ++ [month_label m +:+ " - "
              +:+ value_or_empty seasons metric_key m], seasons).
Proof.
  intros Hrow.
  unfold season_row_step, st_bind, st_read, seasons_get, value_or_empty.
  rewrite Hrow. cbn [fst snd mbind option_bind].
  destruct (Py.dict_get row m) as [v|]; cbn [default from_option id].
  - by destruct (bool_decide (v = "") || bool_decide (v = "0")).
  - done.
Qed.

(** The loop of [format_seasons] over the months, from any list of rows
    built so far. *)
Lemma season_rows_loop (seasons : Py.dict (Py.dict string))
    (metric_key : string) (row : Py.dict string) (months rows : list string) :
  Py.dict_get seasons metric_key = Some row →
  st_fold (season_row_step metric_key) months rows seasons
  = (rows ++ map (λ m, month_label m +:+ " - "
                        +:+ value_or_empty seasons metric_key m) months,
     seasons).
Proof.
  intros Hrow. revert rows.
  induction months as [|m months IH]; intros rows; cbn [st_fold map].
  - unfold st_ret. by rewrite app_nil_r.
  - unfold st_bind. rewrite (season_row_step_spec _ _ row) by done.
    cbn [fst snd]. rewrite IH. by rewrite <- app_assoc.
Qed.

(** The rows of [format_seasons]: one per month of the fixed axis, with
    the stored value or ["empty"]; the stored mapping is left as it was. *)
Lemma season_rows_spec (seasons : Py.dict (Py.dict string))
    (metric_key : string) :
  season_rows metric_key seasons
  = (map (λ m, month_label m +:+ " - "
               +:+ value_or_empty seasons metric_key m) default_months,
     seasons).
Proof.
  unfold season_rows, st_bind, st_read. cbn [fst snd].
  match goal with |- context [if ?b then _ else _] => destruct b eqn:Hm end.
  - assert (Py.dict_get seasons metric_key = None) as Hnone.
    { apply orb_true_iff in Hm as [Hm|Hm].
      - apply bool_decide_eq_true in Hm. by subst seasons.
      - apply negb_true_iff, bool_decide_eq_false in Hm.
        by apply eq_None_not_Some. }
    unfold st_ret. f_equal. apply map_ext. intros m.
    unfold value_or_empty. by rewrite Hnone.
  - apply orb_false_iff in Hm as [_ Hm].
    apply negb_false_iff, bool_decide_eq_true in Hm as [row Hrow].
    by rewrite (season_rows_loop seasons metric_key row).
Qed.

(** C5: whatever the stored mapping and the metric key, [format_seasons]
    returns six lines joined by newlines, in the order Jan/Feb, Mar/Apr,
    May/Jun, Jul/Aug, Sep/Oct, Nov/Dec, each made of the column label,
    [" - "] and the stored value or ["empty"]; a metric or a month that
    the mapping lacks gives ["empty"]; and the mapping that the call
    leaves is the mapping it was given. *)
Theorem format_seasons_six_lines :
  ∀ (seasons : Py.dict (Py.dict string)) (metric_key : string),
    let v := value_or_empty seasons metric_key in
    format_seasons metric_key seasons
    = (Py.join newline
         ["Jan/Feb - " +:+ v "jan_feb"; "Mar/Apr - " +:+ v "mar_apr";
          "May/Jun - " +:+ v "may_jun"; "Jul/Aug - " +:+ v "jul_aug";
          "Sep/Oct - " +:+ v "sep_oct"; "Nov/Dec - " +:+ v "nov_dec"],
       seasons)
    ∧ (Py.dict_get seasons metric_key = None → ∀ month, v month = "empty")
    ∧ (∀ row month, Py.dict_get seasons metric_key = Some row →
                    Py.dict_get row month = None → v month = "empty").
Proof.
  intros seasons metric_key v. split; [|split].
  - unfold format_seasons, st_bind. rewrite season_rows_spec. reflexivity.
  - intros Hnone month. unfold v, value_or_empty. by rewrite Hnone.
  - intros row month Hrow Hnone. unfold v, value_or_empty.
    rewrite Hrow. cbn [mbind option_bind]. by rewrite Hnone.
Qed.

Lemma value_or_empty_not_zero (seasons : Py.dict (Py.dict string))
    (metric_key month : string) :
  value_or_empty seasons metric_key month ≠ "0".
Proof.
  unfold value_or_empty.
  destruct (_ ← Py.dict_get seasons metric_key; _) as [v|]; [|done].
  destruct (bool_decide (v = "")) eqn:H1; [done|].
  destruct (bool_decide (v = "0")) eqn:H2; [done|]. cbn [orb].
  by apply bool_decide_eq_false in H2.
Qed.

(** C10: a stored ["0"] is rendered like a missing value, as
    [label - empty], and no line of a metric is [label - 0]. *)
Theorem format_seasons_zero_is_empty :
  ∀ (seasons : Py.dict (Py.dict string)) (metric_key : string),
    Forall2
      (λ month line,
         ((row ← Py.dict_get seasons metric_key; Py.dict_get row month)
          = Some "0" →
          line = month_label month +:+ " - empty")
         ∧ line ≠ month_label month +:+ " - 0")
      default_months (season_rows metric_key seasons).1
    ∧ render_seasons seasons metric_key
      = Py.join newline (season_rows metric_key seasons).1.
Proof.
  intros seasons metric_key. split.
  - rewrite season_rows_spec. cbn [fst].
    apply Forall2_fmap_r, Forall_Forall2_diag, Forall_forall.
    intros month _. split.
    + intros Hzero. unfold value_or_empty. by rewrite Hzero.
    + intros Heq. apply (inj (String.app _)) in Heq.
      apply (inj (String.app " - ")) in Heq.
      by apply value_or_empty_not_zero in Heq.
  - unfold render_seasons, format_seasons, st_bind. reflexivity.
Qed.

(** A decoded mapping with a rating, a placeholder and an empty text. *)
Example format_seasons_example :
  render_seasons seasons_example "best_surfing_season"
  = Py.join newline
      ["Jan/Feb - 3-star.png"; "Mar/Apr - empty"; "May/Jun - empty";
       "Jul/Aug - empty"; "Sep/Oct - empty"; "Nov/Dec - empty"].
Proof. reflexivity. Qed.

(** ** Failure isolation in [parse_country_or_zone_page] *)

Lemma same_page_refl (z : Zone.t) : same_page z z.
Proof. by repeat split. Qed.

Lemma same_page_trans (z1 z2 z3 : Zone.t) :
  same_page z1 z2 → same_page z2 z3 → same_page z1 z3.
Proof.
  unfold same_page. intros (?&?&?&?&?&?) (?&?&?&?&?&?).
  repeat split; congruence.
Qed.

Section Isolation.

Variable env : Env.

Lemma spot_step_spec (acc : Zone.t * list string) (s : string * string) :
  let r := spot_step env acc s in
  same_page acc.1 r.1
  ∧ Zone.sub_zones r.1 = Zone.sub_zones acc.1
  ∧ Zone.surf_spots r.1
    = Zone.surf_spots acc.1 ++ option_list (ok_of (parse_spot_page env s.2))
  ∧ (∀ line, line ∈ acc.2 → line ∈ r.2)
  ∧ (∀ e, parse_spot_page env s.2 = Raise e → spot_warning s.1 s.2 e ∈ r.2).
Proof.
  unfold spot_step.
  destruct (parse_spot_page env s.2) as [spot|e]; cbn [fst snd ok_of].
  - by repeat split.
  - rewrite app_nil_r. repeat split; try done.
    + intros line Hin. apply elem_of_app. by left.
    + intros e' [= ->]. apply elem_of_app. right. apply list_elem_of_here.
Qed.

Lemma omap_cons_list {A B} (f : A → option B) (a : A) (l : list A) :
  omap f (a :: l) = option_list (f a) ++ omap f l.
Proof. simpl. by destruct (f a). Qed.

(** The loop over [spots_list]: the spots that parsed are appended in the
    order of the list, every failure leaves a warning, nothing else of the
    zone changes and nothing printed before is lost. *)
Lemma spot_loop (spots_list : list (string * string))
    (acc : Zone.t * list string) :
  let r := foldl (spot_step env) acc spots_list in
  same_page acc.1 r.1
  ∧ Zone.sub_zones r.1 = Zone.sub_zones acc.1
  ∧ Zone.surf_spots r.1
    = Zone.surf_spots acc.1
      ++ omap (λ s, ok_of (parse_spot_page env s.2)) spots_list
  ∧ (∀ line, line ∈ acc.2 → line ∈ r.2)
  ∧ (∀ s e, s ∈ spots_list → parse_spot_page env s.2 = Raise e →
            spot_warning s.1 s.2 e ∈ r.2).
Proof.
  revert acc. induction spots_list as [|s l IH]; intros acc r.
  - subst r. cbn [foldl omap]. rewrite app_nil_r.
    split; [apply same_page_refl|]. repeat split; try done.
    intros s e H. by apply elem_of_nil in H.
  - subst r. cbn [foldl]. rewrite omap_cons_list.
    destruct (IH (spot_step env acc s)) as (Hp & Hz & Hs & Hl & Hw).
    destruct (spot_step_spec acc s) as (Hp1 & Hz1 & Hs1 & Hl1 & Hw1).
    split; [by eapply same_page_trans|].
    split; [by rewrite Hz|].
    split; [by rewrite Hs, Hs1, <- app_assoc|].
    split; [by auto|].
    intros s' e' [->|Hin]%elem_of_cons Hr; [by auto | by eapply Hw].
Qed.

Lemma zone_step_spec (acc : Zone.t * list string) (z : string * string)
    (res : result Zone.t * list string) :
  let r := zone_step acc z res in
  same_page acc.1 r.1
  ∧ Zone.surf_spots r.1 = Zone.surf_spots acc.1
  ∧ Zone.sub_zones r.1 = Zone.sub_zones acc.1 ++ option_list (ok_of res.1)
  ∧ (∀ line, line ∈ acc.2 → line ∈ r.2)
  ∧ (∀ e, res.1 = Raise e → zone_warning z.1 z.2 e ∈ r.2).
Proof.
  unfold zone_step. destruct res as [[sub_zone|e] out]; cbn [fst snd ok_of].
  - repeat split; try done. intros line Hin. apply elem_of_app. by left.
  - rewrite app_nil_r. repeat split; try done.
    + intros line Hin. apply elem_of_app. by left.
    + intros e' [= ->]. rewrite !elem_of_app. right. right.
      apply list_elem_of_here.
Qed.

(** The loop over [zones_list], for any function standing for the
    recursive call: when every call returns, so does the loop; the zones
    that parsed are appended in the order of the list and every failure
    leaves a warning. *)
Lemma zone_loop (rec : string → option (result Zone.t * list string))
    (zones_list : list (string * string)) (acc : Zone.t * list string) :
  Forall (λ z, is_Some (rec z.2)) zones_list →
  ∃ r,
    ofold (λ acc z, r ← rec z.2; Some (zone_step acc z r)) zones_list acc
    = Some r
    ∧ same_page acc.1 r.1
    ∧ Zone.surf_spots r.1 = Zone.surf_spots acc.1
    ∧ Zone.sub_zones r.1
      = Zone.sub_zones acc.1 ++ omap (λ z, child_of (rec z.2)) zones_list
    ∧ (∀ line, line ∈ acc.2 → line ∈ r.2)
    ∧ (∀ z e out, z ∈ zones_list → rec z.2 = Some (Raise e, out) →
                  zone_warning z.1 z.2 e ∈ r.2).
Proof.
  revert acc. induction zones_list as [|z l IH]; intros acc Hall.
  - exists acc. cbn [ofold omap]. rewrite app_nil_r.
    split; [done|]. split; [apply same_page_refl|]. repeat split; try done.
    intros z e out H. by apply elem_of_nil in H.
  - apply Forall_cons in Hall as [[res Hz] Hall].
    cbn [ofold]. rewrite omap_cons_list, Hz. cbn [mbind option_bind].
    destruct (IH (zone_step acc z res) Hall)
      as (r & Hr & Hp & Hs & Hsub & Hl & Hw).
    destruct (zone_step_spec acc z res) as (Hp1 & Hs1 & Hsub1 & Hl1 & Hw1).
    exists r. split; [exact Hr|].
    split; [by eapply same_page_trans|].
    split; [by rewrite Hs|].
    split; [by rewrite Hsub, Hsub1, <- app_assoc|].
    split; [by auto|].
    intros z' e' out' [->|Hin]%elem_of_cons Hrec; [|by eapply Hw].
    apply Hl, Hw1. rewrite Hz in Hrec. by injection Hrec as ->.
Qed.

End Isolation.

Lemma parse_about_lists (soup : Bs4.node) (z : Zone.t) :
  same_lists z (parse_about soup z).
Proof. unfold parse_about. by repeat case_match. Qed.

Lemma parse_at_a_glance_lists (c : bool) (soup : Bs4.node) (z : Zone.t) :
  same_lists z (parse_at_a_glance c soup z).
Proof. unfold parse_at_a_glance. by repeat case_match. Qed.

Lemma parse_seasons_lists (soup : Bs4.node) (z z' : Zone.t) :
  parse_seasons soup z = Ok z' → same_lists z z'.
Proof.
  unfold parse_seasons, rbind. repeat case_match; try done.
  all: by intros [= <-].
Qed.

Lemma parse_additional_map_lists (env : Env) (soup : Bs4.node)
    (z z' : Zone.t) :
  parse_additional_map env soup z = Ok z' → same_lists z z'.
Proof.
  unfold parse_additional_map, rbind. repeat case_match; try done.
  all: by intros [= <-].
Qed.

(** The zone that [zone_page] returns has no spot and no sub-zone yet. *)
Lemma zone_page_fresh (env : Env) (url : string) (is_country : bool)
    (zone : Zone.t) (zones_list spots_list : list (string * string)) :
  zone_page env url is_country = Ok (zone, zones_list, spots_list) →
  Zone.surf_spots zone = [] ∧ Zone.sub_zones zone = [].
Proof.
  unfold zone_page, rbind.
  destruct (fetch env url) as [html|?]; [|done].
  destruct (zone_name _ url) as [name|?]; [|done].
  destruct (parse_seasons _ _) as [z1|?] eqn:H1; [|done].
  destruct (parse_additional_map env _ z1) as [z2|?] eqn:H2; [|done].
  destruct (discover_links env "Zones" _) as [zl|?]; [|done].
  destruct (discover_links env "Surf Spots" _) as [sl|?]; [|done].
  intros [= <- _ _].
  apply parse_additional_map_lists in H2 as [-> ->].
  apply parse_seasons_lists in H1 as [-> ->].
  destruct (parse_at_a_glance_lists is_country
              (Bs4.BeautifulSoup (html_parser env html))
              (parse_about (Bs4.BeautifulSoup (html_parser env html))
                           (Zone.new name url))) as [-> ->].
  by destruct (parse_about_lists (Bs4.BeautifulSoup (html_parser env html))
                 (Zone.new name url)) as [-> ->].
Qed.

(** C2: when the page of a node itself parses, and the recursive calls on
    its zone links return, the node is returned: an exception raised for a
    child link is caught, leaves a warning among the printed lines, and
    omits that child only.  [surf_spots] holds the spots that parsed and
    [sub_zones] the zones that parsed, each in the order of discovery; the
    attributes read from the node's own page are untouched. *)
Theorem child_failure_is_isolated (env : Env) (fuel : nat) (url : string)
    (is_country : bool) (zone0 : Zone.t)
    (zones_list spots_list : list (string * string)) :
  zone_page env url is_country = Ok (zone0, zones_list, spots_list) →
  Forall (λ z, is_Some (parse_country_or_zone_page env fuel z.2 false))
         zones_list →
  ∃ zone printed,
    parse_country_or_zone_page env (S fuel) url is_country
    = Some (Ok zone, printed)
    ∧ same_page zone0 zone
    ∧ Zone.surf_spots zone
      = omap (λ s, ok_of (parse_spot_page env s.2)) spots_list
    ∧ Zone.sub_zones zone
      = omap (λ z, child_of (parse_country_or_zone_page env fuel z.2 false))
             zones_list
    ∧ (∀ s e, s ∈ spots_list → parse_spot_page env s.2 = Raise e →
              spot_warning s.1 s.2 e ∈ printed)
    ∧ (∀ z e out, z ∈ zones_list →
         parse_country_or_zone_page env fuel z.2 false = Some (Raise e, out) →
         zone_warning z.1 z.2 e ∈ printed).
Proof.
  intros Hpage Hrec.
  destruct (zone_page_fresh _ _ _ _ _ _ Hpage) as [Hs0 Hz0].
  cbn [parse_country_or_zone_page]. rewrite Hpage.
  destruct (spot_loop env spots_list (zone0, []))
    as (Hp1 & Hz1 & Hs1 & _ & Hw1).
  destruct (zone_loop (λ u, parse_country_or_zone_page env fuel u false)
              zones_list (foldl (spot_step env) (zone0, []) spots_list) Hrec)
    as (r & Hr & Hp2 & Hs2 & Hz2 & Hl2 & Hw2).
  cbn [fst snd] in *.
  exists r.1, r.2. rewrite Hr. cbn [mbind option_bind].
  split; [done|]. split; [by eapply same_page_trans|].
  split; [by rewrite Hs2, Hs1, Hs0|].
  split; [by rewrite Hz2, Hz1, Hz0|].
  split; [by eauto|]. exact Hw2.
Qed.

Lemma child_failure_is_isolated_witness :
  ∃ zone printed,
    parse_country_or_zone_page (Web.env france_site) 2
      (base "/spot/Europe/France/") true
    = Some (Ok zone, printed)
    ∧ same_page
        (Zone.mk "France" (base "/spot/Europe/France/") "" "" [] None [] [])
        zone
    ∧ Zone.surf_spots zone
      = omap (λ s, ok_of (parse_spot_page (Web.env france_site) s.2))
          [("La Torche", base "/spot/Europe/France/La_Torche/");
           ("Ghost", base "/spot/Europe/France/Ghost/");
           ("Hossegor", base "/spot/Europe/France/Hossegor/")]
    ∧ Zone.sub_zones zone
      = omap (λ z, child_of (parse_country_or_zone_page
                               (Web.env france_site) 1 z.2 false))
          [("North", base "/spot/Europe/France/North/");
           ("Middle", base "/spot/Europe/France/Middle/");
           ("South", base "/spot/Europe/France/South/")]
    ∧ (∀ s e,
         s ∈ [("La Torche", base "/spot/Europe/France/La_Torche/");
              ("Ghost", base "/spot/Europe/France/Ghost/");
              ("Hossegor", base "/spot/Europe/France/Hossegor/")] →
         parse_spot_page (Web.env france_site) s.2 = Raise e →
         spot_warning s.1 s.2 e ∈ printed)
    ∧ (∀ z e out,
         z ∈ [("North", base "/spot/Europe/France/North/");
              ("Middle", base "/spot/Europe/France/Middle/");
              ("South", base "/spot/Europe/France/South/")] →
         parse_country_or_zone_page (Web.env france_site) 1 z.2 false
         = Some (Raise e, out) →
         zone_warning z.1 z.2 e ∈ printed).
Proof.
  apply (child_failure_is_isolated (Web.env france_site) 1
           (base "/spot/Europe/France/") true).
  - vm_compute. reflexivity.
  - repeat constructor; vm_compute; eauto.
Defined.

(** The second of three zone links and the second of three spot links
    fail: the country keeps the first and the third of each, in that
    order, and prints one warning per failure. *)
Example second_child_of_three_fails :
  ∃ zone,
    parse_country_or_zone_page (Web.env france_site) 2
      (base "/spot/Europe/France/") true
    = Some (Ok zone,
            [spot_warning "Ghost" (base "/spot/Europe/France/Ghost/")
               (RequestException
                  ("404 Client Error: Not Found for url: "
                   +:+ base "/spot/Europe/France/Ghost/"));
             zone_warning "Middle" (base "/spot/Europe/France/Middle/")
               (RequestException
                  ("404 Client Error: Not Found for url: "
                   +:+ base "/spot/Europe/France/Middle/"))])
    ∧ map Zone.name (Zone.sub_zones zone) = ["North"; "South"]
    ∧ map Spot.name (Zone.surf_spots zone) = ["La Torche"; "Hossegor"].
Proof. eexists. split; [vm_compute; reflexivity|]. by split. Qed.

(** ** Sheet names *)

Lemma suffixed_inj (base : string) : Inj (=) (=) (suffixed base).
Proof.
  intros j k H. unfold suffixed, Py.str_of_nat in H.
  apply (inj (String.app _)) in H. apply (inj (String.app "_")) in H.
  by apply (inj pretty) in H.
Qed.

(** The loop from a suffixed candidate on: when one of the next [fuel]
    candidates is free, the loop returns the first free one. *)
Lemma unique_sheet_name_from (created : gset string) (base : string)
    (fuel j : nat) :
  (∃ k, j ≤ k < j + fuel ∧ suffixed base k ∉ created) →
  ∃ k, j ≤ k
       ∧ unique_sheet_name fuel created base (suffixed base j) (S j)
         = Some (suffixed base k)
       ∧ (suffixed base k ∉ created)
       ∧ ∀ i, j ≤ i < k → suffixed base i ∈ created.
Proof.
  revert j. induction fuel as [|fuel IH]; intros j (k & Hk & Hfree); [lia|].
  cbn [unique_sheet_name]. case_bool_decide as Hin.
  - destruct (IH (S j)) as (k' & Hk' & Hres & Hfree' & Hbefore).
    { exists k. split; [|done]. destruct (decide (k = j)) as [->|]; [done|lia]. }
    exists k'. split; [lia|]. split; [done|]. split; [done|].
    intros i Hi. destruct (decide (i = j)) as [->|]; [done|].
    apply Hbefore. lia.
  - exists j. split; [lia|]. split; [done|]. split; [done|]. intros i Hi. lia.
Qed.

(** Among any [n + 1] consecutive suffixes, one gives a name that is not
    in a set of at most [n] names. *)
Lemma fresh_suffix (created : gset string) (base : string) (j : nat) :
  ∃ k, j ≤ k < j + S (size created) ∧ suffixed base k ∉ created.
Proof.
  set (l := suffixed base <$> seq j (S (size created))).
  destruct (decide (Forall (λ n, n ∈ created) l)) as [Hall|Hnot].
  - exfalso.
    assert (l ⊆+ elements created) as Hsub.
    { apply NoDup_submseteq.
      - apply (NoDup_fmap_2 (suffixed base)), NoDup_seq.
      - intros x Hx. apply elem_of_elements.
        by eapply (proj1 (Forall_forall _ _) Hall). }
    apply submseteq_length in Hsub.
    unfold l in Hsub. rewrite length_fmap, length_seq in Hsub.
    unfold size, set_size in Hsub. simpl in Hsub. lia.
  - apply not_Forall_Exists in Hnot; [|apply _].
    apply Exists_exists in Hnot as (n & Hn & Hfree).
    apply list_elem_of_fmap in Hn as (k & -> & Hk).
    apply elem_of_seq in Hk. exists k. split; [lia | done].
Qed.

(** The [while] loop of the report always ends, with a name that is not
    taken: the base itself when it is free, otherwise the first free
    suffixed name. *)
Lemma unique_sheet_name_spec (created : gset string) (base : string) :
  ∃ name,
    unique_sheet_name (size created + 2) created base base 1 = Some name
    ∧ (name ∉ created)
    ∧ (((base ∉ created) ∧ name = base)
       ∨ (base ∈ created
          ∧ ∃ k, 1 ≤ k ∧ name = suffixed base k
                 ∧ ∀ j, 1 ≤ j < k → suffixed base j ∈ created)).
Proof.
  replace (size created + 2) with (S (S (size created))) by lia.
  cbn [unique_sheet_name]. case_bool_decide as Hin.
  - destruct (unique_sheet_name_from created base (S (size created)) 1
                (fresh_suffix created base 1))
      as (k & Hk & Hres & Hfree & Hbefore).
    exists (suffixed base k). split; [done|]. split; [done|].
    right. split; [done|]. by exists k.
  - exists base. split; [done|]. split; [done|]. by left.
Qed.

Lemma orfold_app {A S} (f : S → A → option (result S)) (l1 l2 : list A)
    (s : S) :
  orfold f (l1 ++ l2) s = (s' ←or orfold f l1 s; orfold f l2 s').
Proof.
  revert s. induction l1 as [|a l1 IH]; intros s; cbn [orfold app]; [done|].
  destruct (f s a) as [[s'|e]|]; cbn [orbind]; [apply IH | done | done].
Qed.

Lemma orfold_map {A B S} (f : S → B → option (result S)) (g : A → B)
    (l : list A) (s : S) :
  orfold (λ s a, f s (g a)) l s = orfold f (map g l) s.
Proof.
  revert s. induction l as [|a l IH]; intros s; cbn [orfold map]; [done|].
  destruct (f s (g a)) as [[s'|e]|]; cbn [orbind]; [apply IH | done | done].
Qed.

Lemma orfold_flat_map {A B S} (f : S → B → option (result S))
    (g : A → list B) (l : list A) (s : S) :
  orfold (λ s a, orfold f (g a) s) l s = orfold f (flat_map g l) s.
Proof.
  revert s. induction l as [|a l IH]; intros s; cbn [orfold flat_map]; [done|].
  rewrite orfold_app.
  destruct (orfold f (g a) s) as [[s'|e]|]; cbn [orbind];
    [apply IH | done | done].
Qed.

(** *** Sanitised names *)

Lemma chars_str (l : list ascii) : Py.chars (Py.str l) = l.
Proof. apply String.list_ascii_of_string_of_list_ascii. Qed.

Lemma str_chars (s : string) : Py.str (Py.chars s) = s.
Proof. apply String.string_of_list_ascii_of_string. Qed.

Lemma sub_runs_word (b : bool) (l : list ascii) :
  Forall (λ c, not_word c = false) (Py.sub_runs not_word "_"%char b l).
Proof.
  revert b. induction l as [|c l IH]; intros b; [constructor|].
  cbn [Py.sub_runs]. destruct (not_word c) eqn:Hc.
  - destruct b; [apply IH|]. constructor; [done|apply IH].
  - constructor; [done|apply IH].
Qed.

Lemma sanitize_chars (n : nat) (name : string) :
  Py.chars (sanitize n name)
  = take n (Py.sub_runs not_word "_"%char false (Py.chars name)).
Proof. unfold sanitize, Py.take, Py.re_sub_runs. by rewrite !chars_str. Qed.

Lemma sanitize_word (n : nat) (name : string) :
  Forall (λ c, not_word c = false) (Py.chars (sanitize n name))
  ∧ length (Py.chars (sanitize n name)) ≤ n.
Proof.
  rewrite sanitize_chars. split.
  - apply Forall_take, sub_runs_word.
  - rewrite length_take. lia.
Qed.

(** *** What xlsxwriter accepts *)

Lemma chars_app (a b : string) : Py.chars (a +:+ b) = Py.chars a ++ Py.chars b.
Proof.
  induction a as [|c a IH]; [done|].
  change (Py.chars (String c a +:+ b)) with (c :: Py.chars (a +:+ b)).
  by rewrite IH.
Qed.

Lemma chars_rev (s : string) : Py.chars (String.rev s) = reverse (Py.chars s).
Proof.
  unfold String.rev.
  enough (∀ acc, Py.chars (String.rev_app s acc)
                 = reverse (Py.chars s) ++ Py.chars acc) as H.
  { by rewrite H, app_nil_r. }
  induction s as [|c s IH]; intros acc; [done|].
  cbn [String.rev_app]. rewrite IH.
  change (Py.chars (String c s)) with (c :: Py.chars s).
  change (Py.chars (String c acc)) with (c :: Py.chars acc).
  by rewrite reverse_cons, <- app_assoc.
Qed.

Lemma prefix_char (c : ascii) (s : string) :
  String.prefix (String c "") s = true → c ∈ Py.chars s.
Proof.
  destruct s as [|d s]; cbn; [done|].
  destruct (Ascii.ascii_dec c d) as [->|]; [|done]. intros _. by left.
Qed.

(** A name of letters, digits and underscores has none of the characters
    that xlsxwriter refuses, and no apostrophe. *)
Lemma word_not_invalid (c : ascii) :
  not_word c = false → invalid_char c = false ∧ c ≠ "'"%char.
Proof.
  intros Hc. split.
  - destruct (invalid_char c) eqn:Hi; [|done].
    unfold invalid_char in Hi. apply existsb_exists in Hi as (x & Hx & Heq).
    apply bool_decide_eq_true in Heq as ->.
    repeat (destruct Hx as [<-|Hx]; [by vm_compute in Hc|]). done.
  - intros ->. by vm_compute in Hc.
Qed.

(** The checks of [check_sheetname] on a name that is given as
    requested. *)
Lemma check_sheetname_Ok (sheets : list sheet) (requested name : string) :
  check_sheetname sheets requested = Ok name →
  name = given_name (S (length sheets)) requested
  ∧ length (Py.chars name) ≤ 31
  ∧ Py.lower name ∉ map (λ sh, Py.lower (sheet_name sh)) sheets.
Proof.
  unfold check_sheetname. fold (given_name (S (length sheets)) requested).
  set (n := given_name _ _).
  destruct (31 <? length (Py.chars n)) eqn:Hlen; [done|].
  destruct (existsb invalid_char _); [done|].
  destruct (_ || _); [done|].
  destruct (existsb _ sheets) eqn:Hdup; [done|].
  intros [= <-]. split; [done|]. split; [by apply Nat.ltb_ge in Hlen|].
  intros (sh & Heq & Hsh)%list_elem_of_fmap.
  assert (existsb (λ worksheet,
                     bool_decide (Py.lower n = Py.lower (sheet_name worksheet)))
                  sheets = true) as Habs; [|by rewrite Habs in Hdup].
  apply existsb_exists. exists sh. split; [by apply list_elem_of_In|].
  by apply bool_decide_eq_true.
Qed.

Lemma check_sheetname_Raise (sheets : list sheet) (requested : string)
    (e : exn) :
  check_sheetname sheets requested = Raise e → worksheet_error e.
Proof.
  unfold check_sheetname, worksheet_error.
  fold (given_name (S (length sheets)) requested). set (n := given_name _ _).
  destruct (31 <? length (Py.chars n)); [intros [= <-]; eauto|].
  destruct (existsb invalid_char _); [intros [= <-]; eauto|].
  destruct (_ || _); [intros [= <-]; eauto|].
  destruct (existsb _ sheets); [intros [= <-]; eauto|]. done.
Qed.

(** A plain name is accepted unless it is, case ignored, the name of a
    sheet of the workbook. *)
Lemma check_sheetname_plain (sheets : list sheet) (requested : string) :
  plain_name (given_name (S (length sheets)) requested) →
  check_sheetname sheets requested
  = Ok (given_name (S (length sheets)) requested)
  ∨ ∃ msg, check_sheetname sheets requested
           = Raise (DuplicateWorksheetName msg).
Proof.
  intros [Hlen Hword].
  unfold check_sheetname. fold (given_name (S (length sheets)) requested).
  set (n := given_name _ _) in *.
  rewrite (proj2 (Nat.ltb_ge _ _) Hlen).
  assert (existsb invalid_char (Py.chars n) = false) as ->.
  { destruct (existsb _ _) eqn:Hi; [|done].
    apply existsb_exists in Hi as (c & Hc & Hi).
    apply list_elem_of_In in Hc.
    apply (proj1 (Forall_forall _ _) Hword), word_not_invalid in Hc.
    destruct Hc as [Hc _]. by rewrite Hc in Hi. }
  assert (Py.startswith n "'" = false) as ->.
  { destruct (Py.startswith n "'") eqn:Hs; [|done].
    apply prefix_char in Hs.
    apply (proj1 (Forall_forall _ _) Hword), word_not_invalid in Hs.
    by destruct Hs. }
  assert (Py.endswith n "'" = false) as ->.
  { destruct (Py.endswith n "'") eqn:Hs; [|done].
    unfold Py.endswith in Hs. apply prefix_char in Hs.
    rewrite chars_rev, elem_of_reverse in Hs.
    apply (proj1 (Forall_forall _ _) Hword), word_not_invalid in Hs.
    by destruct Hs. }
  cbn [orb]. destruct (existsb _ sheets); eauto.
Qed.

(** [add_worksheet] either appends the sheet under the name given for the
    name asked, or raises one of the two exceptions. *)
Lemma add_worksheet_spec (requested : string)
    (content : list (nat * nat * cell)) (sheets : list sheet) :
  match add_worksheet requested content sheets with
  | Ok sheets' =>
      sheets' = sheets ++ [Sheet (given_name (S (length sheets)) requested)
                                 content]
      ∧ (well_named sheets → well_named sheets')
  | Raise e => worksheet_error e
  end.
Proof.
  unfold add_worksheet, rbind.
  destruct (check_sheetname sheets requested) as [name|e] eqn:Hcheck.
  - apply check_sheetname_Ok in Hcheck as (-> & Hlen & Hnew).
    split; [done|]. intros [Hnd Hall]. split.
    + rewrite map_app. cbn [map sheet_name]. apply NoDup_app.
      split; [done|]. split; [|apply NoDup_singleton].
      by intros x Hx ->%list_elem_of_singleton.
    + apply Forall_app. split; [done|]. by constructor.
  - by apply check_sheetname_Raise in Hcheck.
Qed.

(** *** The names asked for *)

Lemma str_of_nat_short (k : nat) :
  k < 100 → length (Py.chars (Py.str_of_nat k)) ≤ 2.
Proof.
  intros Hk.
  assert (forallb (λ k, length (Py.chars (Py.str_of_nat k)) <=? 2) (seq 0 100)
          = true) as Hall by (vm_compute; reflexivity).
  rewrite forallb_forall in Hall.
  apply Nat.leb_le, Hall, in_seq. lia.
Qed.

Lemma str_of_nat_word (k : nat) :
  k < 100 → Forall (λ c, not_word c = false) (Py.chars (Py.str_of_nat k)).
Proof.
  intros Hk.
  assert (forallb (λ k, forallb (λ c, negb (not_word c))
                                (Py.chars (Py.str_of_nat k))) (seq 0 100)
          = true) as Hall by (vm_compute; reflexivity).
  rewrite forallb_forall in Hall.
  assert (In k (seq 0 100)) as Hin by (apply in_seq; lia).
  apply Hall in Hin. rewrite forallb_forall in Hin.
  apply Forall_forall. intros c Hc%list_elem_of_In%Hin.
  by apply negb_true_iff.
Qed.

Lemma suffixed_length (base : string) (k : nat) :
  k < 100 → length (Py.chars (suffixed base k)) ≤ 31.
Proof.
  intros Hk. unfold suffixed, Py.take.
  rewrite !chars_app, chars_str, !length_app, length_take.
  pose proof (str_of_nat_short k Hk).
  cbn [Py.chars String.list_ascii_of_string length]. lia.
Qed.

Lemma suffixed_plain (base : string) (k : nat) :
  Forall (λ c, not_word c = false) (Py.chars base) → k < 100 →
  plain_name (suffixed base k).
Proof.
  intros Hbase Hk. split; [by apply suffixed_length|].
  unfold suffixed, Py.take. rewrite !chars_app, chars_str.
  apply Forall_app. split; [by apply Forall_take|].
  apply Forall_app. split; [by repeat constructor|].
  by apply str_of_nat_word.
Qed.

(** The counter of a suffixed name is at most the number of names taken
    before. *)
Lemma name_rule_plain (earlier : list string) (zone_name name : string) :
  name_rule earlier (sanitize 31 zone_name) name →
  length earlier < 99 → plain_name name.
Proof.
  intros [[_ ->]|(_ & k & Hk & -> & _ & Hbefore)] Hlen.
  - destruct (sanitize_word 31 zone_name). by split.
  - apply suffixed_plain; [apply sanitize_word|].
    set (l := suffixed (sanitize 31 zone_name) <$> seq 1 (k - 1)).
    assert (l ⊆+ earlier) as Hsub.
    { apply NoDup_submseteq.
      - apply (NoDup_fmap_2 (suffixed _)), NoDup_seq.
      - intros x (j & -> & Hj%elem_of_seq)%list_elem_of_fmap.
        apply Hbefore. lia. }
    apply submseteq_length in Hsub.
    unfold l in Hsub. rewrite length_fmap, length_seq in Hsub. lia.
Qed.

Lemma given_name_plain (n : nat) (name : string) :
  plain_name name → n < 100 → plain_name (given_name n name).
Proof.
  intros Hname Hn. unfold given_name. case_bool_decide; [|done].
  unfold plain_name. rewrite chars_app, length_app.
  pose proof (str_of_nat_short n Hn). split; [cbn; lia|].
  apply Forall_app. split; [by repeat constructor|].
  by apply str_of_nat_word.
Qed.

Lemma tracked_length (requested : list string)
    (wb : list sheet * gset string) :
  tracked requested wb → length wb.1 = length requested.
Proof.
  intros [_ Hnames]. apply (f_equal length) in Hnames.
  by rewrite length_map, length_imap in Hnames.
Qed.

(** One step of the loops: the name asked for follows [name_rule] among
    the names asked for before, and the sheet is added under it when
    xlsxwriter accepts it. *)
Lemma add_zone_sheet_spec (zone_name : string)
    (content : list (nat * nat * cell)) (wb : list sheet * gset string)
    (requested : list string) :
  tracked requested wb →
  ∃ name,
    name_rule requested (sanitize 31 zone_name) name
    ∧ add_zone_sheet zone_name content wb
      = Some (sheets ←r add_worksheet name content wb.1;
              Ok (sheets, {[name]} ∪ wb.2)).
Proof.
  intros [Htr _]. unfold add_zone_sheet.
  destruct (unique_sheet_name_spec wb.2 (sanitize 31 zone_name))
    as (name & -> & Hfree & Hrule).
  exists name. split; [|done].
  destruct Hrule as [[Hb ->]|(Hb & k & Hk & -> & Hbefore)].
  - left. split; [|done]. by rewrite <- Htr.
  - right. split; [by rewrite <- Htr|]. exists k.
    split; [done|]. split; [done|]. split; [by rewrite <- Htr|].
    intros j Hj. rewrite <- Htr. by apply Hbefore.
Qed.

Lemma tracked_add (requested : list string) (wb : list sheet * gset string)
    (name : string) (content : list (nat * nat * cell)) :
  tracked requested wb →
  tracked (requested ++ [name])
          (wb.1 ++ [Sheet (given_name (S (length wb.1)) name) content],
           {[name]} ∪ wb.2).
Proof.
  intros Htr. pose proof (tracked_length _ _ Htr) as Hlen.
  destruct Htr as [Hset Hnames]. split; cbn [fst snd].
  - intros n. rewrite elem_of_app, elem_of_union, elem_of_singleton, (Hset n).
    rewrite list_elem_of_singleton. tauto.
  - rewrite map_app, imap_app, Hnames. cbn [map sheet_name imap].
    by rewrite Hlen, Nat.add_0_r.
Qed.

(** The loop that adds one sheet per zone: it ends, either with one more
    sheet per zone, or with an exception of xlsxwriter; an invalid name
    needs a hundred names or more. *)
Lemma add_zone_sheets_spec (items : list (string * list (nat * nat * cell)))
    (wb : list sheet * gset string) (requested : list string) :
  tracked requested wb →
  ∃ r,
    orfold (λ wb it, add_zone_sheet it.1 it.2 wb) items wb = Some r
    ∧ match r with
      | Ok wb' =>
          ∃ new asked,
            wb'.1 = wb.1 ++ new
            ∧ map cells new = map snd items
            ∧ named_in_turn requested (map fst items) asked
            ∧ tracked (requested ++ asked) wb'
            ∧ (well_named wb.1 → well_named wb'.1)
      | Raise e =>
          (∃ msg, e = DuplicateWorksheetName msg)
          ∨ ((∃ msg, e = InvalidWorksheetName msg)
             ∧ 99 < length requested + length items)
      end.
Proof.
  revert wb requested.
  induction items as [|it items IH]; intros wb requested Htr.
  - exists (Ok wb). split; [done|]. exists [], [].
    rewrite !app_nil_r. by cbn.
  - destruct (add_zone_sheet_spec it.1 it.2 wb requested Htr)
      as (name & Hrule & Hadd).
    cbn [orfold]. rewrite Hadd. clear Hadd.
    pose proof (add_worksheet_spec name it.2 wb.1) as Hws.
    pose proof (tracked_length _ _ Htr) as Hlen.
    destruct (add_worksheet name it.2 wb.1) as [sheets'|e] eqn:Hadd;
      cbn [rbind orbind].
    + destruct Hws as [-> Hwell].
      destruct (IH _ _ (tracked_add requested wb name it.2 Htr))
        as (r & Hfold & Hr).
      exists r. split; [done|]. cbn [fst] in Hr.
      destruct r as [wb'|e].
      * destruct Hr as (new & asked & Hsheets & Hcells & Hnames & Htr' & Hw).
        exists (Sheet (given_name (S (length wb.1)) name) it.2 :: new),
               (name :: asked).
        rewrite <- !app_assoc in *. cbn [app] in *.
        split; [done|]. split; [cbn; by rewrite Hcells|].
        split; [by split|]. split; [done|]. auto.
      * destruct Hr as [Hdup|[Hinv Hmany]]; [by left|].
        right. split; [done|]. rewrite length_app in Hmany. cbn in *. lia.
    + exists (Raise e). split; [done|].
      destruct (decide (length requested + length (it :: items) ≤ 99))
        as [Hfew|Hmany].
      * left. cbn [length] in Hfew.
        assert (plain_name (given_name (S (length wb.1)) name)) as Hplain.
        { apply given_name_plain; [|lia].
          apply (name_rule_plain requested it.1); [done|lia]. }
        apply check_sheetname_plain in Hplain.
        unfold add_worksheet, rbind in Hadd.
        destruct Hplain as [Hok|[msg Hdup]].
        -- by rewrite Hok in Hadd.
        -- rewrite Hdup in Hadd. injection Hadd as <-. by exists msg.
      * destruct Hws as [Hdup|Hinv]; [by left|].
        right. split; [done|lia].
Qed.

Lemma name_rule_fresh (earlier : list string) (base name : string) :
  name_rule earlier base name → name ∉ earlier.
Proof. by intros [[? ->]|(_ & k & _ & _ & ? & _)]. Qed.

Lemma named_in_turn_NoDup (earlier zones names : list string) :
  NoDup earlier → named_in_turn earlier zones names →
  NoDup (earlier ++ names).
Proof.
  revert earlier names.
  induction zones as [|z zones IH]; intros earlier [|n names] Hnd H;
    cbn [named_in_turn] in H; try done.
  - by rewrite app_nil_r.
  - destruct H as [Hrule H].
    rewrite (assoc_L (++) earlier [n] names : earlier ++ n :: names = _).
    apply IH; [|done]. apply NoDup_app. split; [done|].
    split; [|apply NoDup_singleton].
    intros x Hx ->%list_elem_of_singleton.
    by apply (name_rule_fresh _ _ _ Hrule).
Qed.

Lemma named_in_turn_length (earlier zones names : list string) :
  named_in_turn earlier zones names → length names = length zones.
Proof.
  revert earlier names.
  induction zones as [|z zones IH]; intros earlier [|n names] H;
    cbn [named_in_turn] in H; try done.
  destruct H as [_ H]. cbn [length]. f_equal. by eapply IH.
Qed.




(** ** The workbook of a continent *)

Lemma tracked_start (country zones : sheet) :
  sheet_name country = "Country" → sheet_name zones = "Zones" →
  tracked ["Country"; "Zones"]
          ([country; zones], {["Zones"]} ∪ ({["Country"]} ∪ ∅)).
Proof.
  intros Hc Hz. split; cbn [fst snd map].
  - intros n.
    rewrite !elem_of_union, !elem_of_singleton, !elem_of_cons, elem_of_nil.
    rewrite elem_of_empty. tauto.
  - by rewrite Hc, Hz.
Qed.

(** [build_continent] ends: with the two summary sheets followed by one
    sheet per zone of [zone_sheet_items], each with the writes of its
    zone and under the name given for the name that [name_rule] asks; or
    with an exception of xlsxwriter, which is [DuplicateWorksheetName]
    when there are at most 97 zone sheets. *)
Lemma build_continent_spec (output_dir continent : string)
    (countries : Py.dict Zone.t) :
  ∃ r,
    build_continent output_dir continent countries = Some r
    ∧ match r with
      | Ok wb =>
          ∃ new asked,
            wb = Workbook
                   (path_join output_dir (sanitize 50 continent +:+ ".xlsx"))
                   ([country_sheet continent countries; zones_sheet countries]
                    ++ new)
            ∧ map cells new = map snd (zone_sheet_items countries)
            ∧ named_in_turn ["Country"; "Zones"]
                (map fst (zone_sheet_items countries)) asked
            ∧ map sheet_name new = imap (λ j, given_name (3 + j)) asked
            ∧ well_named (sheets wb)
      | Raise e =>
          (∃ msg, e = DuplicateWorksheetName msg)
          ∨ ((∃ msg, e = InvalidWorksheetName msg)
             ∧ 97 < length (zone_sheet_items countries))
      end.
Proof.
  unfold build_continent.
  change (add_worksheet "Country" (cells (country_sheet continent countries))
            [])
    with (Ok [country_sheet continent countries]).
  cbn [orbind].
  change (add_worksheet "Zones" (cells (zones_sheet countries))
            [country_sheet continent countries])
    with (Ok [country_sheet continent countries; zones_sheet countries]).
  cbn [orbind].
  set (wb0 := ([country_sheet continent countries; zones_sheet countries],
               {["Zones"]} ∪ ({["Country"]} ∪ ∅))
              : list sheet * gset string).
  set (step := λ (wb : list sheet * gset string)
                 (it : string * list (nat * nat * cell)),
                 add_zone_sheet it.1 it.2 wb).
  assert (tracked ["Country"; "Zones"] wb0) as Htr by by apply tracked_start.
  assert (well_named wb0.1) as Hwell0.
  { split; [|by repeat constructor; cbn; lia].
    cbn. apply (NoDup_fmap_1 (λ s, length (Py.chars s))). compute_done. }
  destruct (add_zone_sheets_spec (zone_sheet_items countries) wb0 _ Htr)
    as (r & Hfold & Hr).
  fold step in Hfold. unfold zone_sheet_items in Hfold.
  rewrite orfold_app in Hfold.
  rewrite <- (orfold_map step (λ z, (z.1, sub_zones_cells z.2))) in Hfold.
  unfold step in Hfold at 1. cbn [fst snd] in Hfold.
  destruct (orfold _ (nested_zones countries) wb0) as [[wb1|e]|];
    cbn [orbind] in Hfold |- *; [| |done].
  - rewrite <- (orfold_map step (λ z, (z.1, spot_cells z.1 z.2))) in Hfold.
    rewrite <- (orfold_flat_map
                  (λ wb z, step wb (z.1, spot_cells z.1 z.2))
                  (λ c, leaf_zones c.2)) in Hfold.
    unfold step in Hfold. cbn [fst snd] in Hfold.
    rewrite Hfold. destruct r as [wb2|e]; cbn [orbind].
    + eexists. split; [done|].
      destruct Hr as (new & asked & Hsheets & Hcells & Hnames & Htr' & Hw).
      exists new, asked. rewrite Hsheets. cbn [sheets].
      split; [done|]. split; [done|]. split; [done|]. split.
      * destruct Htr' as [_ Hgiven]. rewrite Hsheets in Hgiven.
        rewrite map_app in Hgiven. cbn [fst map app imap] in Hgiven.
        by injection Hgiven.
      * rewrite <- Hsheets. by apply Hw.
    + exists (Raise e). split; [done|].
      destruct Hr as [?|[? Hmany]]; [by left|]. right. split; [done|].
      cbn [length] in Hmany. lia.
  - injection Hfold as <-. exists (Raise e). split; [done|].
    destruct Hr as [?|[? Hmany]]; [by left|]. right. split; [done|].
    cbn [length] in Hmany. lia.
Qed.

(** [build_excel_workbook] ends: with the workbook that [build_continent]
    makes for each continent, in order, or with the exception of the
    first continent whose workbook xlsxwriter refuses. *)
Lemma build_excel_workbook_spec (continents_data : Py.dict (Py.dict Zone.t))
    (output_dir : string) :
  ∃ r,
    build_excel_workbook continents_data output_dir = Some r
    ∧ match r with
      | Ok out =>
          Forall2 (λ c wb, build_continent output_dir c.1 c.2 = Some (Ok wb))
                  continents_data out.1
      | Raise e =>
          ∃ c, c ∈ continents_data
               ∧ build_continent output_dir c.1 c.2 = Some (Raise e)
      end.
Proof.
  unfold build_excel_workbook.
  enough (∀ acc : list workbook * list string,
            ∃ r,
              orfold (λ acc c,
                        wb ←or build_continent output_dir c.1 c.2;
                        Some (Ok (acc.1 ++ [wb],
                                  acc.2 ++ ["Created workbook for continent "
                                            +:+ c.1 +:+ ": "
                                            +:+ workbook_path wb])))
                     continents_data acc
              = Some r
              ∧ match r with
                | Ok out =>
                    ∃ wbs,
                      out.1 = acc.1 ++ wbs
                      ∧ Forall2 (λ c wb, build_continent output_dir c.1 c.2
                                         = Some (Ok wb))
                                continents_data wbs
                | Raise e =>
                    ∃ c, c ∈ continents_data
                         ∧ build_continent output_dir c.1 c.2
                           = Some (Raise e)
                end) as H.
  { destruct (H ([], [])) as (r & Hfold & Hr). exists r. split; [done|].
    destruct r as [out|e]; [|done].
    destruct Hr as (wbs & Heq & Hall). by rewrite Heq. }
  induction continents_data as [|c cd IH]; intros acc.
  - exists (Ok acc). split; [done|]. exists []. rewrite app_nil_r.
    split; [done | constructor].
  - destruct (build_continent_spec output_dir c.1 c.2)
      as ([wb|e] & Hwb & _).
    + cbn [orfold]. rewrite Hwb. cbn [orbind].
      match goal with |- context [orfold _ cd ?a] =>
        destruct (IH a) as (r & Hfold & Hr) end.
      exists r. split; [done|]. destruct r as [out|e].
      * destruct Hr as (wbs & Heq & Hall). cbn [fst] in Heq.
        exists (wb :: wbs). split; [by rewrite Heq, <- app_assoc|].
        by constructor.
      * destruct Hr as (c' & Hin & Hraise). exists c'.
        split; [by apply list_elem_of_further | done].
    + exists (Raise e). cbn [orfold]. rewrite Hwb. cbn [orbind].
      split; [done|]. exists c. split; [apply list_elem_of_here | done].
Qed.


(** Two zones named "Cote Sud" and "Cote-Sud": both sanitise to
    [Cote_Sud]; the second sheet gets the suffix [_1]. *)
Example same_base_gets_suffix :
  sanitize 31 "Cote Sud" = sanitize 31 "Cote-Sud"
  ∧ (wb ←or build_continent "excel_output" "Europe"
              [("Landes", cote_country)];
     Some (Ok (map sheet_name (sheets wb))))
    = Some (Ok ["Country"; "Zones"; "Cote_Sud"; "Cote_Sud_1"]).
Proof. split; [reflexivity|]. vm_compute. reflexivity. Qed.

(** Two zones named "Cote_Sud" and "cote_sud": the names differ, so the
    loop asks for both as they are, and xlsxwriter refuses the second. *)
Example names_equal_up_to_case_raise :
  build_continent "excel_output" "Europe" [("Landes", case_country)]
  = Some (Raise (DuplicateWorksheetName
                   "Sheetname 'cote_sud', with case ignored, is already in use.")).
Proof. vm_compute. reflexivity. Qed.

(** ** Surf-spot sheets *)

Lemma leaf_zones_elem (country : Zone.t) :
  (Zone.sub_zones country = [] →
   (Zone.name country, country) ∈ leaf_zones country)
  ∧ (∀ z, z ∈ Zone.sub_zones country → Zone.sub_zones z = [] →
          (Zone.name z, z) ∈ leaf_zones country)
  ∧ (∀ z sz, z ∈ Zone.sub_zones country → sz ∈ Zone.sub_zones z →
             Zone.sub_zones sz = [] →
             (Zone.name sz, sz) ∈ leaf_zones country).
Proof.
  unfold leaf_zones. split; [|split].
  - intros ->. rewrite bool_decide_eq_true_2 by done. apply list_elem_of_here.
  - intros z Hz Hleaf.
    rewrite bool_decide_eq_false_2 by (intros H; rewrite H in Hz;
                                        by apply elem_of_nil in Hz).
    apply list_elem_of_In, in_flat_map. exists z.
    split; [by apply list_elem_of_In|].
    rewrite bool_decide_eq_true_2 by done. by left.
  - intros z sz Hz Hsz Hleaf.
    rewrite bool_decide_eq_false_2 by (intros H; rewrite H in Hz;
                                        by apply elem_of_nil in Hz).
    apply list_elem_of_In, in_flat_map. exists z.
    split; [by apply list_elem_of_In|].
    rewrite bool_decide_eq_false_2 by (intros H; rewrite H in Hsz;
                                        by apply elem_of_nil in Hsz).
    apply in_flat_map. exists sz. split; [by apply list_elem_of_In|].
    rewrite bool_decide_eq_true_2 by done. by left.
Qed.

(** The sibling paths: a country without zones, a zone without sub-zones
    directly below a country, and a sub-zone without sub-zones directly
    below such a zone each have their surf-spot sheet in the workbook. *)
Lemma leaf_zone_has_sheet (output_dir continent : string)
    (countries : Py.dict Zone.t) (wb : workbook) (country : string * Zone.t) :
  build_continent output_dir continent countries = Some (Ok wb) →
  country ∈ countries →
  (Zone.sub_zones country.2 = [] →
   has_spot_sheet wb (Zone.name country.2) country.2)
  ∧ (∀ z, z ∈ Zone.sub_zones country.2 → Zone.sub_zones z = [] →
          has_spot_sheet wb (Zone.name z) z)
  ∧ (∀ z sz, z ∈ Zone.sub_zones country.2 → sz ∈ Zone.sub_zones z →
             Zone.sub_zones sz = [] →
             has_spot_sheet wb (Zone.name sz) sz).
Proof.
  intros Hwb Hc.
  assert (∀ lz, lz ∈ leaf_zones country.2 → has_spot_sheet wb lz.1 lz.2)
    as Hsheet.
  { intros lz Hlz.
    destruct (build_continent_spec output_dir continent countries)
      as (r & Hspec & Hr).
    rewrite Hspec in Hwb. injection Hwb as ->.
    destruct Hr as (new & asked & -> & Hcells & _).
    assert (spot_cells lz.1 lz.2 ∈ map cells new) as Hin.
    { rewrite Hcells. unfold zone_sheet_items. rewrite map_app.
      apply elem_of_app. right. rewrite map_map. cbn [snd].
      apply list_elem_of_fmap. exists lz. split; [done|].
      apply list_elem_of_In, in_flat_map. exists country.
      split; by apply list_elem_of_In. }
    apply list_elem_of_fmap in Hin as (sh & Hsh & Hin).
    exists sh. cbn [sheets]. split; [|done].
    by do 2 apply list_elem_of_further. }
  destruct (leaf_zones_elem country.2) as (H0 & H1 & H2).
  split; [|split].
  - intros Hleaf. by apply (Hsheet (Zone.name country.2, country.2)), H0.
  - intros z Hz Hleaf. by apply (Hsheet (Zone.name z, z)), H1.
  - intros z sz Hz Hsz Hleaf. apply (Hsheet (Zone.name sz, sz)). eauto.
Qed.

(** C7 fails on the code: a leaf zone three levels below its country,
    with a spot of its own, gets no surf-spot sheet; the workbook of its
    continent has the sheets "Country", "Zones" and "Coast" only. *)
Theorem deep_leaf_zone_has_no_sheet :
  ∃ out wb leaf,
    main (Web.env deep_site) 4 false = Some (Ok out)
    ∧ workbooks out = [wb]
    ∧ deref (forest out) ("Oceania", "Deepland", [0; 0; 0]) = Some leaf
    ∧ Zone.is_leaf leaf = true
    ∧ Zone.name leaf = "Reef"
    ∧ map Spot.name (Zone.surf_spots leaf) = ["Reef Break"]
    ∧ map sheet_name (sheets wb) = ["Country"; "Zones"; "Coast"]
    ∧ ¬ has_spot_sheet wb (Zone.name leaf) leaf.
Proof.
  eexists _, _, _. split; [vm_compute; reflexivity|].
  split; [reflexivity|]. split; [reflexivity|].
  split; [reflexivity|]. split; [reflexivity|].
  split; [reflexivity|]. split; [reflexivity|].
  intros (sh & Hin & Hcells). cbn [sheets] in Hin.
  repeat (apply elem_of_cons in Hin as [->|Hin]); [..|by apply elem_of_nil in Hin];
    vm_compute in Hcells; discriminate Hcells.
Qed.

(** ** The driver and the stored zones *)

Lemma dict_get_alter {V} (f : V → V) (d : Py.dict V) (k k' : string) :
  Py.dict_get (Py.dict_alter f k d) k'
  = if bool_decide (k = k') then f <$> Py.dict_get d k' else Py.dict_get d k'.
Proof.
  induction d as [|[k0 v0] d IH]; cbn [Py.dict_alter Py.dict_get].
  - by case_bool_decide.
  - destruct (bool_decide (k0 = k)) eqn:Hk0; cbn [Py.dict_get].
    + apply bool_decide_eq_true in Hk0 as ->.
      destruct (bool_decide (k = k')); done.
    + apply bool_decide_eq_false in Hk0.
      destruct (bool_decide (k0 = k')) eqn:Hk'.
      * apply bool_decide_eq_true in Hk' as ->.
        by rewrite bool_decide_eq_false_2 by done.
      * apply IH.
Qed.

Lemma dict_alter_alter {V} (f g : V → V) (d : Py.dict V) (k : string) :
  Py.dict_alter f k (Py.dict_alter g k d) = Py.dict_alter (f ∘ g) k d.
Proof.
  induction d as [|[k0 v0] d IH]; cbn [Py.dict_alter]; [done|].
  destruct (bool_decide (k0 = k)) eqn:Hk0; cbn [Py.dict_alter].
  - by rewrite Hk0.
  - rewrite Hk0. by rewrite IH.
Qed.

Lemma dict_alter_set {V} (f : V → V) (d : Py.dict V) (k : string) (v : V) :
  Py.dict_alter f k (Py.dict_set d k v) = Py.dict_set d k (f v).
Proof.
  induction d as [|[k0 v0] d IH]; cbn [Py.dict_set Py.dict_alter].
  - by rewrite bool_decide_eq_true_2.
  - destruct (bool_decide (k0 = k)) eqn:Hk0; cbn [Py.dict_alter].
    + by rewrite bool_decide_eq_true_2.
    + rewrite Hk0. by rewrite IH.
Qed.

Lemma dict_alter_ext {V} (f g : V → V) (d : Py.dict V) (k : string) :
  (∀ v, f v = g v) → Py.dict_alter f k d = Py.dict_alter g k d.
Proof.
  intros Hfg. induction d as [|[k0 v0] d IH]; cbn [Py.dict_alter]; [done|].
  by rewrite Hfg, IH.
Qed.

Lemma set_sub_zones_same (z : Zone.t) :
  Zone.set_sub_zones z (Zone.sub_zones z) = z.
Proof. by destruct z. Qed.

(** A reference into the tree stored for a country reads that tree. *)
Lemma deref_stored_at (continent country : string) (z : Zone.t)
    (cd : Py.dict (Py.dict Zone.t)) (p : list nat) :
  deref (stored_at continent country z cd) (continent, country, p)
  = _ ← Py.dict_get cd continent; zone_at p z.
Proof.
  unfold deref, stored_at. cbn [fst snd].
  rewrite dict_get_alter, bool_decide_eq_true_2 by done.
  destruct (Py.dict_get cd continent) as [cs|]; cbn; [|done].
  by rewrite dict_get_set_eq.
Qed.

(** An assignment through such a reference updates that tree. *)
Lemma assign_stored_at (continent country : string) (z : Zone.t)
    (cd : Py.dict (Py.dict Zone.t)) (p : list nat) (v : list Spot.t) :
  assign_surf_spots (continent, country, p) v
                    (stored_at continent country z cd)
  = stored_at continent country
      (zone_update p (λ z', Zone.set_surf_spots z' v) z) cd.
Proof.
  unfold assign_surf_spots, stored_at. cbn [fst snd].
  rewrite dict_alter_alter. apply dict_alter_ext. intros cs.
  unfold compose. apply dict_alter_set.
Qed.

(** [dump_zone] on the tree stored for a country. *)
Lemma dump_zone_stored_at (sample : bool) (continent country : string)
    (p : list nat) (what : Zone.t → string) (z : Zone.t)
    (cd : Py.dict (Py.dict Zone.t)) (d : driver) :
  continents_data d = stored_at continent country z cd →
  continents_data (dump_zone sample (continent, country, p) what d)
  = stored_at continent country (dump_effect sample p z) cd.
Proof.
  intros Hd. unfold dump_zone, dump_effect. rewrite Hd, deref_stored_at.
  destruct (Py.dict_get cd continent) as [cs|] eqn:Hcs; cbn [mbind option_bind].
  - destruct (zone_at p z) as [zone_obj|]; [|done].
    destruct (sample && bool_decide (5 < length (Zone.surf_spots zone_obj))).
    + rewrite assign_stored_at. by case_match.
    + by case_match.
  - rewrite Hd. unfold stored_at.
    assert (∀ f, Py.dict_alter f continent cd = cd) as Hno.
    { intros f. clear Hd. induction cd as [|[k v] cd IH];
        cbn [Py.dict_alter]; [done|].
      cbn [Py.dict_get] in Hcs. destruct (bool_decide (k = continent));
        [done|]. by rewrite IH. }
    by rewrite !Hno.
Qed.

Lemma dump_effect_full (p : list nat) (z : Zone.t) :
  dump_effect false p z = z.
Proof. unfold dump_effect. by destruct (zone_at p z). Qed.

Lemma dump_effect_root (z : Zone.t) : dump_effect true [] z = sample_spots z.
Proof. unfold dump_effect, sample_spots. cbn. by case_bool_decide. Qed.

Lemma dump_effect_first (z : Zone.t) :
  Zone.sub_zones z ≠ [] → dump_effect true [0] z = sampled z.
Proof.
  intros Hne. unfold dump_effect, sampled.
  rewrite bool_decide_eq_false_2 by done.
  destruct (Zone.sub_zones z) as [|z0 rest] eqn:Hsub; [done|].
  cbn [zone_at lookup list_lookup mbind option_bind zone_update].
  rewrite Hsub. cbn. unfold sample_spots.
  case_bool_decide; [done|]. by rewrite <- Hsub, set_sub_zones_same.
Qed.

(** The loop of [main] over the zones of a country, on the stored tree. *)
Lemma dump_zones_stored_at (sample : bool) (continent country : string)
    (what : Zone.t → string) (cd : Py.dict (Py.dict Zone.t))
    (indices : list nat) (z : Zone.t) (d : driver) :
  continents_data d = stored_at continent country z cd →
  continents_data
    (foldl (λ d i, dump_zone sample (continent, country, [i]) what d)
           d indices)
  = stored_at continent country
      (foldl (λ z i, dump_effect sample [i] z) z indices) cd.
Proof.
  revert z d. induction indices as [|i indices IH]; intros z d Hd; [done|].
  cbn [foldl]. apply IH. by apply dump_zone_stored_at.
Qed.

(** One country: when the parser returns a tree, that tree is stored for
    the country, sampled in a sampled run; when it raises, nothing is
    stored. *)
Lemma process_country_stored (env : Env) (fuel : nat) (sample : bool)
    (continent : string) (d d' : driver) (c : string * string) :
  process_country env fuel sample continent d c = Some d' →
  ∃ r,
    parse_country_or_zone_page env fuel c.2 true = Some r
    ∧ continents_data d'
      = match r.1 with
        | Ok zone =>
            stored_at continent c.1 (if sample then sampled zone else zone)
                      (continents_data d)
        | Raise _ => continents_data d
        end.
Proof.
  unfold process_country.
  destruct (parse_country_or_zone_page env fuel c.2 true) as [r|];
    cbn [mbind option_bind]; [|done].
  intros Hd'. exists r. split; [done|].
  destruct r.1 as [zone|e]; [|by injection Hd' as <-].
  case_bool_decide as Hsub; injection Hd' as <-.
  - erewrite dump_zones_stored_at; [|reflexivity]. f_equal.
    destruct sample.
    + destruct (Zone.sub_zones zone) as [|z0 rest] eqn:Hz; [done|].
      cbn [length seq take foldl]. apply dump_effect_first. by rewrite Hz.
    + apply (foldl_invariant (λ z, z = zone)); [done|].
      intros z i ->. apply dump_effect_full.
  - erewrite dump_zone_stored_at; [|reflexivity]. f_equal.
    destruct sample; [|apply dump_effect_full].
    rewrite dump_effect_root. unfold sampled.
    rewrite bool_decide_eq_true_2; [done|].
    by destruct (decide (Zone.sub_zones zone = [])).
Qed.

Lemma forest_as_parsed_stored_at (env : Env) (fuel : nat) (sample : bool)
    (continent country : string) (z : Zone.t)
    (cd : Py.dict (Py.dict Zone.t)) :
  forest_as_parsed env fuel sample cd → as_parsed env fuel sample z →
  forest_as_parsed env fuel sample (stored_at continent country z cd).
Proof.
  intros Hcd Hz k cs n stored. unfold stored_at.
  rewrite dict_get_alter. case_bool_decide as Hk; [|apply Hcd].
  destruct (Py.dict_get cd k) as [cs0|] eqn:Hcs0; [|done].
  intros [= <-]. destruct (decide (country = n)) as [->|Hn].
  - rewrite dict_get_set_eq. by intros [= <-].
  - rewrite dict_get_set_ne by done. by apply (Hcd k cs0).
Qed.

Lemma forest_as_parsed_new_continent (env : Env) (fuel : nat)
    (sample : bool) (continent : string) (cd : Py.dict (Py.dict Zone.t)) :
  forest_as_parsed env fuel sample cd →
  forest_as_parsed env fuel sample (Py.dict_set cd continent []).
Proof.
  intros Hcd k cs n stored.
  destruct (decide (continent = k)) as [->|Hk].
  - rewrite dict_get_set_eq. by intros [= <-].
  - rewrite dict_get_set_ne by done. apply Hcd.
Qed.

Lemma ofold_invariant {A S} (P : S → Prop) (f : S → A → option S)
    (l : list A) (s s' : S) :
  P s → (∀ s a s', P s → f s a = Some s' → P s') →
  ofold f l s = Some s' → P s'.
Proof.
  intros Hs Hstep. revert s Hs.
  induction l as [|a l IH]; intros s Hs; cbn [ofold].
  - by intros [= <-].
  - destruct (f s a) as [s1|] eqn:Hf; cbn [mbind option_bind]; [|done].
    apply IH. by eapply Hstep.
Qed.

(** The loops of [main] store parsed trees only. *)
Lemma scrape_as_parsed (env : Env) (fuel : nat) (sample : bool)
    (continents_map : Py.dict (list (string * string))) (d : driver) :
  scrape env fuel sample continents_map = Some d →
  forest_as_parsed env fuel sample (continents_data d).
Proof.
  unfold scrape.
  apply (ofold_invariant
           (λ d, forest_as_parsed env fuel sample (continents_data d))).
  { by intros k cs n stored. }
  intros d0 continent d1 Hd0.
  apply (ofold_invariant
           (λ d, forest_as_parsed env fuel sample (continents_data d))).
  { by apply forest_as_parsed_new_continent. }
  intros d2 c d3 Hd2 Hstep.
  apply process_country_stored in Hstep as (r & Hparse & ->).
  destruct r as [[zone|e] printed]; cbn [fst]; [|done].
  apply forest_as_parsed_stored_at; [done|].
  by exists c.2, zone, printed.
Qed.

(** C8, as the code has it: after [main], the tree stored for a country
    is the tree that [parse_country_or_zone_page] returned for one of the
    country URLs, unchanged in a full run; in a sampled run it is that
    tree with the list of spots of its first zone (of the country itself
    when it has no zone) cut to five when it held more.  Writing the CSV
    files and building the workbooks changes no zone. *)
Theorem zones_stay_as_parsed (env : Env) (fuel : nat) (sample : bool)
    (out : output) :
  main env fuel sample = Some (Ok out) →
  ∀ continent countries country stored,
    Py.dict_get (forest out) continent = Some countries →
    Py.dict_get countries country = Some stored →
    ∃ url zone printed,
      parse_country_or_zone_page env fuel url true = Some (Ok zone, printed)
      ∧ stored = (if sample then sampled zone else zone).
Proof.
  unfold main. destruct (parse_homepage env) as [continents_map|e]; [|done].
  destruct (scrape env fuel sample continents_map) as [d|] eqn:Hscrape;
    cbn [mbind option_bind]; [|done].
  destruct (build_excel_workbook (continents_data d) "excel_output")
    as [[wb|e]|]; cbn [mbind option_bind orbind]; [|done|done].
  intros [= <-]. cbn [forest].
  exact (scrape_as_parsed env fuel sample continents_map d Hscrape).
Qed.

Lemma zones_stay_as_parsed_witness :
  ∃ out stored,
    main (Web.env france_site) 3 true = Some (Ok out)
    ∧ deref (forest out) ("Europe", "France", []) = Some stored
    ∧ ∃ url zone printed,
        parse_country_or_zone_page (Web.env france_site) 3 url true
        = Some (Ok zone, printed)
        ∧ stored = sampled zone.
Proof.
  let r := eval vm_compute in (main (Web.env france_site) 3 true) in
  match r with
  | Some (Ok ?out) =>
    let c := eval vm_compute in (Py.dict_get (forest out) "Europe") in
    match c with
    | Some ?countries =>
      let s := eval vm_compute in (Py.dict_get countries "France") in
      match s with
      | Some ?stored =>
        exists out, stored;
        split; [vm_compute; reflexivity|];
        split; [vm_compute; reflexivity|];
        apply (zones_stay_as_parsed (Web.env france_site) 3 true out
                 ltac:(vm_compute; reflexivity)
                 "Europe" countries "France" stored);
        vm_compute; reflexivity
      end
    end
  end.
Defined.

(** C8 as stated fails: in a sampled run the zone "North", parsed with six
    spots, is left with five. *)
Lemma sampling_cuts_a_parsed_zone :
  ∃ out zone printed stored,
    main (Web.env france_site) 3 true = Some (Ok out)
    ∧ parse_country_or_zone_page (Web.env france_site) 3
        (base "/spot/Europe/France/") true
      = Some (Ok zone, printed)
    ∧ deref (forest out) ("Europe", "France", []) = Some stored
    ∧ map (λ z, length (Zone.surf_spots z)) (Zone.sub_zones zone) = [6; 0]
    ∧ map (λ z, length (Zone.surf_spots z)) (Zone.sub_zones stored) = [5; 0]
    ∧ stored ≠ zone.
Proof.
  eexists _, _, _, _. split; [vm_compute; reflexivity|].
  split; [vm_compute; reflexivity|]. split; [reflexivity|].
  split; [reflexivity|]. split; [reflexivity|].
  intros H. apply (f_equal (λ z, map (λ z, length (Zone.surf_spots z))
                                   (Zone.sub_zones z))) in H.
  vm_compute in H. discriminate H.
Qed.

(** * Further properties of the scraper *)

Lemma sub_runs_spaced (b : bool) (l : list ascii) :
  spaced true (Py.sub_runs Py.isspace " "%char b l) = true
  ∧ (b = true → starts_clean (Py.sub_runs Py.isspace " "%char b l) = true).
Proof.
  revert b. induction l as [|c l IH]; intros b; [done|].
  cbn [Py.sub_runs]. destruct (Py.isspace c) eqn:Hc.
  - destruct b; [apply IH|].
    destruct (IH true) as [IH1 IH2]. split; [|done].
    cbn [spaced]. change (Py.isspace " "%char) with true. cbv iota.
    rewrite IH1, andb_true_r. specialize (IH2 eq_refl).
    by destruct (Py.sub_runs Py.isspace " "%char true l).
  - destruct (IH false) as [IH1 _]. split.
    + cbn [spaced]. by rewrite Hc, IH1.
    + intros _. cbn [starts_clean]. by rewrite Hc.
Qed.

Lemma drop_while_suffix (P : ascii → bool) (l : list ascii) :
  ∃ t, l = t ++ Py.drop_while P l.
Proof.
  induction l as [|c l [t IH]]; [by exists []|].
  cbn [Py.drop_while]. destruct (P c); [|by exists []].
  exists (c :: t). by rewrite <- app_comm_cons, <- IH.
Qed.

Lemma drop_while_starts (l : list ascii) :
  starts_clean (Py.drop_while Py.isspace l) = true.
Proof.
  induction l as [|c l IH]; [done|].
  cbn [Py.drop_while]. destruct (Py.isspace c) eqn:Hc; [done|].
  cbn [starts_clean]. by rewrite Hc.
Qed.

Lemma spaced_suffix (e : bool) (t l : list ascii) :
  spaced e (t ++ l) = true → spaced e l = true.
Proof.
  induction t as [|c t IH]; [done|].
  rewrite <- app_comm_cons. cbn [spaced]. intros [_ H]%andb_prop. by apply IH.
Qed.

Lemma spaced_prefix (l t : list ascii) :
  spaced true (l ++ t) = true → spaced true l = true.
Proof.
  induction l as [|c l IH]; [done|].
  rewrite <- app_comm_cons. cbn [spaced].
  intros [H1 H2]%andb_prop. rewrite (IH H2), andb_true_r.
  destruct (Py.isspace c); [|done].
  apply andb_prop in H1 as [-> H1]. by destruct l.
Qed.

Lemma ends_clean_cons (c d : ascii) (l : list ascii) :
  ends_clean (c :: d :: l) = ends_clean (d :: l).
Proof.
  unfold ends_clean. rewrite (reverse_cons _ c).
  destruct (reverse (d :: l)) as [|x r] eqn:Hr; [|done].
  apply (f_equal length) in Hr. by rewrite length_reverse in Hr.
Qed.

Lemma spaced_end (l : list ascii) :
  spaced true l = true → ends_clean l = true → spaced false l = true.
Proof.
  induction l as [|c l IH]; [done|].
  cbn [spaced]. intros [H1 H2]%andb_prop Hend.
  destruct l as [|d l].
  - unfold ends_clean in Hend. cbn in Hend.
    apply negb_true_iff in Hend. by rewrite Hend.
  - rewrite ends_clean_cons in Hend. by rewrite H1, (IH H2 Hend).
Qed.

Lemma spaced_ends_clean (l : list ascii) :
  spaced false l = true → ends_clean l = true.
Proof.
  induction l as [|c l IH]; [done|].
  cbn [spaced]. intros [H1 H2]%andb_prop.
  destruct l as [|d l].
  - unfold ends_clean. cbn. destruct (Py.isspace c); [|done].
    by rewrite andb_false_r in H1.
  - rewrite ends_clean_cons. by apply IH.
Qed.

Lemma strip_chars (s : string) : Py.strip s = Py.str (stripped (Py.chars s)).
Proof.
  unfold Py.strip, Py.rstrip_by, Py.lstrip_by, stripped.
  by rewrite chars_str.
Qed.

Lemma stripped_clean (l : list ascii) :
  spaced true l = true →
  starts_clean (stripped l) = true ∧ spaced false (stripped l) = true.
Proof.
  intros Hl. unfold stripped.
  set (m := Py.drop_while Py.isspace l).
  assert (spaced true m = true) as Hm.
  { destruct (drop_while_suffix Py.isspace l) as [t Ht].
    apply (spaced_suffix true t). unfold m. by rewrite <- Ht. }
  pose proof (drop_while_starts l) as Hs. fold m in Hs.
  destruct (drop_while_suffix Py.isspace (reverse m)) as [t Ht].
  set (r := Py.drop_while Py.isspace (reverse m)) in *.
  assert (m = reverse r ++ reverse t) as Hmr.
  { by rewrite <- reverse_app, <- Ht, reverse_involutive. }
  split.
  - destruct (reverse r) as [|c r'] eqn:Hr; [done|].
    rewrite Hmr in Hs. by rewrite <- app_comm_cons in Hs.
  - apply spaced_end.
    + apply (spaced_prefix _ (reverse t)). by rewrite <- Hmr.
    + unfold ends_clean. rewrite reverse_involutive. apply drop_while_starts.
Qed.

Lemma clean_text_normal (text : string) :
  is_clean (clean_text text) = true.
Proof.
  unfold clean_text. case_bool_decide; [done|].
  rewrite strip_chars. unfold is_clean, Py.re_sub_runs.
  rewrite !chars_str.
  destruct (stripped_clean
              (Py.sub_runs Py.isspace " "%char false
                 (Py.chars (Py.replace "160"%char " " text)))) as [H1 H2].
  - apply sub_runs_spaced.
  - by rewrite H1, H2.
Qed.

Lemma replace_spaced (e : bool) (s : string) :
  spaced e (Py.chars s) = true → Py.replace "160"%char " " s = s.
Proof.
  induction s as [|c s IH]; [done|].
  change (Py.chars (String c s)) with (c :: Py.chars s).
  cbn [spaced Py.replace]. intros [H1 H2]%andb_prop.
  destruct (decide (c = "160"%char)) as [->|Hc].
  - change (Py.isspace "160"%char) with true in H1. cbv iota in H1.
    apply andb_prop in H1 as [H1 _]. by apply bool_decide_eq_true in H1.
  - by rewrite bool_decide_false, (IH H2).
Qed.

Lemma sub_runs_id (b : bool) (l : list ascii) :
  spaced false l = true → (b = true → starts_clean l = true) →
  Py.sub_runs Py.isspace " "%char b l = l.
Proof.
  revert b. induction l as [|c l IH]; intros b Hl Hb; [done|].
  cbn [spaced] in Hl. apply andb_prop in Hl as [H1 H2].
  cbn [Py.sub_runs]. destruct (Py.isspace c) eqn:Hc.
  - destruct b.
    { specialize (Hb eq_refl). cbn [starts_clean] in Hb. by rewrite Hc in Hb. }
    apply andb_prop in H1 as [Heq H1]. apply bool_decide_eq_true in Heq as ->.
    f_equal. apply IH; [done|]. intros _. by destruct l.
  - f_equal. by apply IH.
Qed.

Lemma drop_while_id (l : list ascii) :
  starts_clean l = true → Py.drop_while Py.isspace l = l.
Proof.
  destruct l as [|c l]; [done|]. cbn [starts_clean Py.drop_while].
  by intros ->%negb_true_iff.
Qed.

Lemma clean_text_fixed (s : string) : is_clean s = true → clean_text s = s.
Proof.
  unfold is_clean. intros [Hs Hl]%andb_prop.
  unfold clean_text. case_bool_decide; [done|].
  rewrite (replace_spaced false s Hl), strip_chars. unfold Py.re_sub_runs.
  rewrite chars_str, sub_runs_id by done.
  unfold stripped. rewrite (drop_while_id _ Hs).
  rewrite drop_while_id by (by apply spaced_ends_clean).
  by rewrite reverse_involutive, str_chars.
Qed.

(** X1: [clean_text] returns a text without white space at either end
    in which white space occurs only as single spaces between other
    characters (no tab, newline or non-breaking space is left). *)
Theorem clean_text_is_clean (text : string) :
  is_clean (clean_text text) = true.
Proof. apply clean_text_normal. Qed.

(** X2: [clean_text] is idempotent: cleaning a cleaned text changes
    nothing. *)
Theorem clean_text_idempotent (text : string) :
  clean_text (clean_text text) = clean_text text.
Proof. apply clean_text_fixed, clean_text_normal. Qed.

(** ** Sanitised names *)

(** X3: the sanitised name used for file and sheet names holds letters,
    digits and underscores only, and at most [n] characters. *)
Theorem sanitize_safe (n : nat) (name : string) :
  Forall (λ c, not_word c = false) (Py.chars (sanitize n name))
  ∧ length (Py.chars (sanitize n name)) ≤ n.
Proof. apply sanitize_word. Qed.

Lemma append_assoc (a b c : string) : (a +:+ b) +:+ c = a +:+ b +:+ c.
Proof.
  induction a as [|x a IH]; [done|].
  change (String x ((a +:+ b) +:+ c) = String x (a +:+ b +:+ c)).
  by rewrite IH.
Qed.

Lemma path_join_relative (a b : string) :
  Py.startswith b "/" = false →
  path_join a b
  = (if bool_decide (a = "") || Py.endswith a "/" then a else a +:+ "/")
    +:+ b.
Proof.
  intros Hb. unfold path_join. rewrite Hb.
  destruct (_ || _); [done|]. by rewrite append_assoc.
Qed.

Lemma word_file_name_relative (name ext : string) :
  Forall (λ c, not_word c = false) (Py.chars name) →
  Py.startswith ("." +:+ ext) "/" = false →
  Py.startswith (name +:+ "." +:+ ext) "/" = false.
Proof.
  intros Hname Hext. destruct name as [|c name]; [done|].
  apply Forall_cons in Hname as [Hc _]. unfold Py.startswith.
  change (String c name +:+ "." +:+ ext)
    with (String c (name +:+ "." +:+ ext)).
  cbn [String.prefix].
  destruct (Ascii.ascii_dec "/" c) as [<-|]; [by vm_compute in Hc | done].
Qed.

(** X4: [to_csv] writes to the file [<safe name>.csv] in [directory] as
    [os.path.join] puts it: after [directory], with a slash between the
    two unless [directory] is empty or ends with one; the safe name has
    at most 50 characters, all of them letters, digits or underscores.
    The file holds the header row and then one row per spot of the zone,
    in order, and every row has 23 cells.  A zone without spots gives
    the header row alone. *)
Theorem to_csv_rectangular (z : Zone.t) (directory : string) :
  (∃ safe_name,
     (to_csv z directory).1 = path_join directory (safe_name +:+ ".csv")
     ∧ (to_csv z directory).1
       = (if bool_decide (directory = "") || Py.endswith directory "/"
          then directory else directory +:+ "/")
         +:+ safe_name +:+ ".csv"
     ∧ Forall (λ c, not_word c = false) (Py.chars safe_name)
     ∧ length (Py.chars safe_name) ≤ 50)
  ∧ length (to_csv z directory).2 = S (length (Zone.surf_spots z))
  ∧ Forall (λ row, length row = 23) (to_csv z directory).2
  ∧ (to_csv z directory).2 !! 0 = Some csv_header
  ∧ ∀ i, (to_csv z directory).2 !! S i
         = Spot.to_row <$> Zone.surf_spots z !! i.
Proof.
  unfold to_csv. cbn [fst snd]. split; [|split; [|split; [|split]]].
  - exists (sanitize 50 (Zone.name z)). split; [done|].
    destruct (sanitize_word 50 (Zone.name z)) as [Hword Hlen].
    split; [|by split].
    apply path_join_relative. by apply (word_file_name_relative _ "csv").
  - cbn [length]. by rewrite length_map.
  - constructor; [done|]. apply Forall_forall. intros row Hrow.
    apply list_elem_of_In, in_map_iff in Hrow as (sp & <- & _). done.
  - done.
  - intros i. by rewrite <- list_lookup_fmap.
Qed.

(** ** The final pass *)

Lemma spot_ext (s s' : Spot.t) :
  Spot.name s = Spot.name s' →
  (∀ f, Spot.getattr s f = Spot.getattr s' f) → s = s'.
Proof.
  intros Hn Hf. destruct s, s'. cbn in Hn. subst.
  pose proof (Hf Field.distance). pose proof (Hf Field.walk).
  pose proof (Hf Field.easy_to_find). pose proof (Hf Field.public_access).
  pose proof (Hf Field.special_access). pose proof (Hf Field.wave_quality).
  pose proof (Hf Field.experience). pose proof (Hf Field.frequency).
  pose proof (Hf Field.type). pose proof (Hf Field.direction).
  pose proof (Hf Field.bottom). pose proof (Hf Field.power).
  pose proof (Hf Field.normal_length). pose proof (Hf Field.good_day_length).
  pose proof (Hf Field.good_swell_direction).
  pose proof (Hf Field.good_wind_direction). pose proof (Hf Field.swell_size).
  pose proof (Hf Field.best_tide_position).
  pose proof (Hf Field.best_tide_movement).
  pose proof (Hf Field.additional_information).
  pose proof (Hf Field.latitude). pose proof (Hf Field.longitude).
  cbn in *. by subst.
Qed.

(** X5: the final pass of [parse_spot_page] is idempotent: a second
    pass over its result changes nothing. *)
Theorem fill_missing_idempotent (spot : Spot.t) :
  fill_missing (fill_missing spot) = fill_missing spot.
Proof.
  apply spot_ext.
  - apply fill_missing_name.
  - intros f. by rewrite !fill_missing_getattr, or_sentinel_idemp.
Qed.

(** ** The sections of a spot page *)

Lemma assign_by_other (table : list (string * Field.t)) (s : Spot.t)
    (label value : string) (f : Field.t) :
  f ∉ table.*2 →
  Spot.getattr (assign_by table s label value) f = Spot.getattr s f.
Proof.
  induction table as [|[l g] table IH]; [done|].
  cbn [assign_by fmap list_fmap snd]. intros Hf.
  apply not_elem_of_cons in Hf as [Hne Hf].
  case_bool_decide; [|by apply IH].
  by apply getattr_setattr_ne.
Qed.

Lemma labelled_paragraph_other (table : list (string * Field.t))
    (p : Bs4.path) (st : Bs4.node * Spot.t) (f : Field.t) :
  f ∉ table.*2 →
  Spot.getattr (labelled_paragraph table p st).2 f = Spot.getattr st.2 f.
Proof.
  intros Hf. unfold labelled_paragraph.
  repeat case_match; simpl; try done. by apply assign_by_other.
Qed.

Lemma access_section_other (st : Bs4.node * Spot.t) (f : Field.t) :
  f ∉ access_labels.*2 →
  Spot.getattr (access_section st).2 f = Spot.getattr st.2 f.
Proof.
  intros Hf. unfold access_section. repeat case_match; try done.
  apply (foldl_invariant
           (λ st', Spot.getattr st'.2 f = Spot.getattr st.2 f)); [done|].
  intros b a Hb. by rewrite labelled_paragraph_other.
Qed.

Lemma characteristics_column_other (col : option (Bs4.path * Bs4.node))
    (st : Bs4.node * Spot.t) (f : Field.t) :
  f ∉ characteristics_labels.*2 →
  Spot.getattr (characteristics_column col st).2 f = Spot.getattr st.2 f.
Proof.
  intros Hf. unfold characteristics_column. repeat case_match; try done.
  apply (foldl_invariant
           (λ st', Spot.getattr st'.2 f = Spot.getattr st.2 f)); [done|].
  intros b a Hb. repeat case_match; try done.
  by rewrite labelled_paragraph_other.
Qed.

(** X6: each extraction step of [parse_spot_page] assigns its own
    attributes only: the access section leaves every attribute that is
    not one of its five unchanged, the characteristics section every
    attribute that is not one of its fourteen, and the additional
    information and the two coordinates every attribute but their own. *)
Theorem sections_keep_other_fields (env : Env) (st : Bs4.node * Spot.t)
    (f : Field.t) :
  (f ∉ access_labels.*2 →
   Spot.getattr (access_section st).2 f = Spot.getattr st.2 f)
  ∧ (f ∉ characteristics_labels.*2 →
     Spot.getattr (characteristics_section st).2 f = Spot.getattr st.2 f)
  ∧ (f ≠ Field.additional_information →
     Spot.getattr (additional_section st).2 f = Spot.getattr st.2 f)
  ∧ (f ≠ Field.latitude →
     Spot.getattr (coordinate env "Latitude" Field.latitude st).2 f
     = Spot.getattr st.2 f)
  ∧ (f ≠ Field.longitude →
     Spot.getattr (coordinate env "Longitude" Field.longitude st).2 f
     = Spot.getattr st.2 f).
Proof.
  split; [apply access_section_other|].
  split.
  { intros Hf. unfold characteristics_section. case_match; [|done].
    by rewrite !characteristics_column_other. }
  split.
  { intros Hf. unfold additional_section. repeat case_match; try done; cbn [snd].
    all: by apply getattr_setattr_ne. }
  split.
  - intros Hf. unfold coordinate. repeat case_match; try done; cbn [snd].
    all: by apply getattr_setattr_ne.
  - intros Hf. unfold coordinate. repeat case_match; try done; cbn [snd].
    all: by apply getattr_setattr_ne.
Qed.

Lemma sections_keep_other_fields_witness :
  Spot.getattr
    (access_section (Bs4.BeautifulSoup pipeline_page, Spot.new "Pipeline")).2
    Field.wave_quality
  = ""
  ∧ Spot.getattr
      (characteristics_section
         (Bs4.BeautifulSoup pipeline_page, Spot.new "Pipeline")).2
      Field.distance
    = "".
Proof.
  destruct (sections_keep_other_fields (Web.env spot_site)
              (Bs4.BeautifulSoup pipeline_page, Spot.new "Pipeline")
              Field.wave_quality) as (Ha & _).
  destruct (sections_keep_other_fields (Web.env spot_site)
              (Bs4.BeautifulSoup pipeline_page, Spot.new "Pipeline")
              Field.distance) as (_ & Hc & _).
  split.
  - rewrite Ha; [done|]. vm_compute. intros H.
    repeat (apply elem_of_cons in H as [H|H]; [discriminate H|]).
    by apply elem_of_nil in H.
  - rewrite Hc; [done|]. vm_compute. intros H.
    repeat (apply elem_of_cons in H as [H|H]; [discriminate H|]).
    by apply elem_of_nil in H.
Defined.

(** ** Errors of [parse_spot_page] *)

Lemma split_char_go_length (c : ascii) (cur l : list ascii) :
  length (Py.split_char_go c cur l) = S (length (filter (λ x, x = c) l)).
Proof.
  revert cur. induction l as [|x l IH]; intros cur; [done|].
  cbn [Py.split_char_go]. rewrite filter_cons.
  case_bool_decide.
  - rewrite decide_True by done. cbn [length]. by rewrite IH.
  - rewrite decide_False by done. apply IH.
Qed.

Lemma split_char_single (c : ascii) (s : string) :
  length (Py.split_char c s) < 2 ↔ c ∉ Py.chars s.
Proof.
  unfold Py.split_char. rewrite split_char_go_length.
  split.
  - intros Hlen Hin.
    assert (c ∈ filter (λ x, x = c) (Py.chars s)) as Hc
      by by apply list_elem_of_filter.
    destruct (filter _ _); [by apply elem_of_nil in Hc|]. cbn in Hlen. lia.
  - intros Hnot. destruct (filter _ _) as [|x l] eqn:Hf; [cbn; lia|].
    assert (x ∈ filter (λ x, x = c) (Py.chars s)) as Hx
      by (rewrite Hf; apply list_elem_of_here).
    apply list_elem_of_filter in Hx as [-> Hx]. done.
Qed.

Lemma index_m2_raise (l : list string) (e : exn) :
  Py.index_m2 l = Raise e
  ↔ length l < 2 ∧ e = IndexError "list index out of range".
Proof.
  unfold Py.index_m2. rewrite <- (length_reverse l).
  destruct (reverse l) as [|a [|b r]]; cbn [length].
  - split; [by intros [= <-]; split; [lia|] | by intros [_ ->]].
  - split; [by intros [= <-]; split; [lia|] | by intros [_ ->]].
  - split; [done | intros [? _]; lia].
Qed.

Lemma spot_name_raise (soup : Bs4.node) (url : string) (e : exn) :
  spot_name soup url = Raise e
  ↔ page_title soup = "" ∧ ("/"%char ∉ Py.chars url)
    ∧ e = IndexError "list index out of range".
Proof.
  unfold spot_name. fold (page_title soup).
  case_bool_decide as Ht.
  - split; [done | by intros [? _]].
  - rewrite index_m2_raise, split_char_single.
    tauto.
Qed.

(** X7: [parse_spot_page] has no handler of its own: it raises what
    [fetch] raises; and on a fetched page without title text, for a URL
    that holds no slash, it raises [IndexError]. *)
Theorem parse_spot_page_raises (env : Env) (url : string) (e : exn) :
  fetch env url = Raise e
  ∨ (∃ html,
       fetch env url = Ok html
       ∧ page_title (Bs4.BeautifulSoup (html_parser env html)) = ""
       ∧ ("/"%char ∉ Py.chars url)
       ∧ e = IndexError "list index out of range") →
  parse_spot_page env url = Raise e.
Proof.
  unfold parse_spot_page, rbind.
  intros [->|(html & -> & Htitle & Hurl & ->)]; [done|].
  cbv beta iota.
  assert (spot_name (Bs4.BeautifulSoup (html_parser env html)) url
          = Raise (IndexError "list index out of range")) as ->
    by by apply spot_name_raise.
  done.
Qed.

Lemma parse_spot_page_raises_witness :
  parse_spot_page (Web.env france_site) (base "/spot/Europe/France/Ghost/")
  = Raise (RequestException
             ("404 Client Error: Not Found for url: "
              +:+ base "/spot/Europe/France/Ghost/")).
Proof.
  apply parse_spot_page_raises. left. vm_compute. reflexivity.
Defined.

(** ** The keys of a decoded seasons table *)

Lemma rfold_invariant {A S} (P : S → Prop) (f : S → A → result S)
    (l : list A) (s s' : S) :
  P s → (∀ s a s', P s → f s a = Ok s' → P s') →
  rfold f l s = Ok s' → P s'.
Proof.
  intros Hs Hstep. revert s Hs.
  induction l as [|a l IH]; intros s Hs; cbn [rfold].
  - by intros [= <-].
  - unfold rbind. destruct (f s a) as [s1|] eqn:Hf; [|done].
    apply IH. by eapply Hstep.
Qed.

Lemma imap_snd {A B} (g : nat → A) (l : list B) :
  (imap (λ i x, (g i, x)) l).*2 = l.
Proof.
  revert g. induction l as [|x l IH]; intros g; [done|].
  cbn [imap fmap list_fmap snd]. f_equal. apply (IH (g ∘ S)).
Qed.

Lemma row_values_loop_keys (cells : list Bs4.node)
    (l : list (nat * string)) (d values : Py.dict string) :
  rfold (λ values im,
           let cell_index := im.1 + 1 in
           match cells !! cell_index with
           | None => Ok (Py.dict_set values im.2 "")
           | Some cell =>
               v ←r cell_value cell;
               Ok (Py.dict_set values im.2 v)
           end) l d = Ok values →
  ∀ m, is_Some (Py.dict_get values m) ↔ is_Some (Py.dict_get d m) ∨ m ∈ l.*2.
Proof.
  revert d. induction l as [|[i k] l IH]; intros d.
  - cbn [rfold]. intros [= <-] m. rewrite elem_of_nil. tauto.
  - cbn [rfold fst snd fmap list_fmap]. unfold rbind at 1.
    assert (∀ v, (∀ m, is_Some (Py.dict_get (Py.dict_set d k v) m)
                       ↔ is_Some (Py.dict_get d m) ∨ m = k)) as Hset.
    { intros v m. destruct (decide (k = m)) as [->|Hne].
      - rewrite dict_get_set_eq. split; [by right | by eexists].
      - rewrite dict_get_set_ne by done. split; [by left|].
        by intros [? | ->]. }
    destruct (cells !! (i + 1)) as [cell|].
    + unfold rbind at 1. destruct (cell_value cell) as [v|]; [|done].
      intros H m. rewrite (IH _ H m), Hset, elem_of_cons. tauto.
    + intros H m. rewrite (IH _ H m), Hset, elem_of_cons. tauto.
Qed.

Lemma row_values_keys (month_headers : list string) (cells : list Bs4.node)
    (values : Py.dict string) :
  row_values month_headers cells = Ok values →
  ∀ m, is_Some (Py.dict_get values m) ↔ m ∈ month_headers.
Proof.
  unfold row_values. intros H m.
  rewrite (row_values_loop_keys _ _ _ _ H m).
  change (imap pair month_headers)
    with (imap (λ i (x : string), (id i, x)) month_headers).
  rewrite imap_snd. cbn [Py.dict_get].
  split; [intros [[x Hx]|?]; [discriminate Hx | done] | by right].
Qed.

(** X9: in the mapping that [parse_seasons_table] returns, the inner
    mapping of every metric has a value for each column key of the header
    and for nothing else (a row with too few cells gets the empty text
    for the missing months). *)
Theorem seasons_rows_have_every_month (table : Bs4.node)
    (months_format : string) (result : Py.dict (Py.dict string)) :
  parse_seasons_table table months_format = Ok result →
  ∀ metric values, (metric, values) ∈ result →
    ∀ month,
      is_Some (Py.dict_get values month)
      ↔ month ∈ month_headers_of months_format (thead_rows_of table).
Proof.
  unfold parse_seasons_table, find_then, thead_rows_of.
  destruct (Bs4.find (Bs4.named "thead") table) as [thead|]; [|done].
  cbn [rbind].
  destruct (Bs4.find (Bs4.named "tbody") table) as [tbody|]; [|done].
  cbn [rbind].
  set (hs := month_headers_of months_format (tags "tr" thead.2)).
  intros H.
  refine (rfold_invariant
            (λ result, ∀ metric values, (metric, values) ∈ result →
               ∀ month, is_Some (Py.dict_get values month) ↔ month ∈ hs)
            _ _ _ _ _ _ H).
  - intros metric values Hin. by apply elem_of_nil in Hin.
  - intros d row d' Hd. cbv beta zeta.
    destruct (row_cells row) as [|cell0 cells] eqn:Hc.
    { by intros [= <-]. }
    unfold rbind. destruct (row_values hs (cell0 :: cells)) as [vs|] eqn:Hv;
      [|done].
    intros [= <-] metric values [[= -> ->]|Hin]%dict_set_elem.
    + by apply row_values_keys with (cells := cell0 :: cells).
    + by apply (Hd metric).
Qed.

Lemma seasons_rows_have_every_month_witness :
  is_Some (Py.dict_get [("jan_feb", "3-star.png"); ("mar_apr", "0")]
                       "mar_apr")
  ↔ "mar_apr" ∈ month_headers_of "bi" (thead_rows_of paired_table_example).
Proof.
  apply (seasons_rows_have_every_month paired_table_example "bi"
           [("best_season", [("jan_feb", "3-star.png"); ("mar_apr", "0")])]
           ltac:(vm_compute; reflexivity) "best_season").
  apply list_elem_of_here.
Defined.

(** ** A seasons table without header *)

(** X12: a seasons table without [thead] makes the whole page fail:
    [parse_country_or_zone_page] raises [AttributeError] for a page that
    was fetched and named, when the table found under the additional-info
    tab has no [thead]. *)
Theorem seasons_table_without_thead_fails (env : Env) (fuel : nat)
    (url html name : string) (is_country : bool)
    (additional_div seasons_table : Bs4.path * Bs4.node) :
  fetch env url = Ok html →
  zone_name (Bs4.BeautifulSoup (html_parser env html)) url = Ok name →
  Bs4.find (Bs4.has_id "wanna-country-tab-additional-info")
           (Bs4.BeautifulSoup (html_parser env html)) = Some additional_div →
  Bs4.find (Bs4.has_id "wanna-season-table") additional_div.2
  = Some seasons_table →
  Bs4.find (Bs4.named "thead") seasons_table.2 = None →
  parse_country_or_zone_page env (S fuel) url is_country
  = Some (Raise (AttributeError
                   "'NoneType' object has no attribute 'find_all'"), []).
Proof.
  intros Hf Hn Hdiv Htable Hthead.
  cbn [parse_country_or_zone_page]. unfold zone_page. rewrite Hf.
  cbn [rbind]. rewrite Hn. cbn [rbind].
  unfold parse_seasons. rewrite Hdiv, Htable.
  unfold parse_seasons_table, find_then. rewrite Hthead. done.
Qed.

Lemma seasons_table_without_thead_fails_witness :
  parse_country_or_zone_page (Web.env headless_site) 1
    (BASE_URL +:+ "/spot/Europe/France/Landes/") true
  = Some (Raise (AttributeError
                   "'NoneType' object has no attribute 'find_all'"), []).
Proof.
  eapply (seasons_table_without_thead_fails (Web.env headless_site) 0).
  - reflexivity.
  - reflexivity.
  - reflexivity.
  - reflexivity.
  - reflexivity.
Defined.

(** ** The spot sheet of a leaf zone *)

Lemma elem_of_concat_imap {A B} (f : nat → A → list B) (l : list A) (x : B) :
  x ∈ concat (imap f l) ↔ ∃ i y, l !! i = Some y ∧ x ∈ f i y.
Proof.
  rewrite list_elem_of_In, in_concat. split.
  - intros (ys & Hys & Hx). apply list_elem_of_In in Hys, Hx.
    apply elem_of_lookup_imap in Hys as (i & y & -> & Hy). by exists i, y.
  - intros (i & y & Hy & Hx). exists (f i y).
    split; apply list_elem_of_In; [|done].
    by apply elem_of_lookup_imap_2.
Qed.

Lemma write_row_elem (row col : nat) (vals : list cell) (w : nat * nat * cell) :
  w ∈ write_row row col vals
  ↔ ∃ i v, vals !! i = Some v ∧ w = (row, col + i, v).
Proof.
  unfold write_row. rewrite elem_of_lookup_imap. split.
  - intros (i & v & -> & Hv). by exists i, v.
  - intros (i & v & Hv & ->). by exists i, v.
Qed.

(** X15: in a surf-spot sheet, column 18 holds the swell size of each
    spot under the header "Good swell direction", which also heads column
    16; no header of the sheet reads "Swell size". *)
Theorem spot_sheet_swell_size_header (zone_name : string) (leaf_zone : Zone.t)
    (i : nat) (sp : Spot.t) :
  Zone.surf_spots leaf_zone !! i = Some sp →
  (0, 18, CellStr "Good swell direction") ∈ spot_cells zone_name leaf_zone
  ∧ (1 + i, 18, CellStr (Spot.swell_size sp)) ∈ spot_cells zone_name leaf_zone
  ∧ (0, 16, CellStr "Good swell direction") ∈ spot_cells zone_name leaf_zone
  ∧ ∀ col, (0, col, CellStr "Swell size") ∉ spot_cells zone_name leaf_zone.
Proof.
  intros Hsp. unfold spot_cells. rewrite !elem_of_app.
  split; [|split; [|split]].
  - left. apply write_row_elem. by exists 18, (CellStr "Good swell direction").
  - right. unfold spot_rows. apply elem_of_concat_imap. exists i, sp.
    split; [done|]. apply write_row_elem.
    by exists 18, (CellStr (Spot.swell_size sp)).
  - left. apply write_row_elem. by exists 16, (CellStr "Good swell direction").
  - intros col Hin. apply elem_of_app in Hin as [Hin|Hin].
    + apply write_row_elem in Hin as (j & v & Hv & [= _ <-]).
      do 24 (destruct j as [|j]; [by injection Hv|]). done.
    + unfold spot_rows in Hin.
      apply elem_of_concat_imap in Hin as (j & s & _ & Hin).
      by apply write_row_elem in Hin as (? & ? & _ & [=]).
Qed.

(** ** The whole tree of a parsed zone *)

Lemma zones_below_eq (z : Zone.t) :
  zones_below z = flat_map (λ c, c :: zones_below c) (Zone.sub_zones z).
Proof. by destruct z. Qed.

Lemma parse_spot_page_complete (env : Env) (url : string) (spot : Spot.t) :
  parse_spot_page env url = Ok spot → spot_complete spot.
Proof.
  intros (html & name & _ & _ & ->)%parse_spot_page_ok f.
  rewrite fill_missing_getattr. apply or_sentinel_nonempty.
Qed.

Lemma parse_about_texts (soup : Bs4.node) (z : Zone.t) :
  no_placeholder z → no_placeholder (parse_about soup z)
  ∧ Zone.at_a_glance (parse_about soup z) = Zone.at_a_glance z.
Proof.
  intros [Ha Hg]. unfold parse_about.
  destruct (Bs4.find (Bs4.has_id "wanna-country-tab-about") soup)
    as [about_div|]; [|done].
  match goal with |- context [if ?b then _ else _] => destruct b eqn:Hb end;
    [|done].
  apply andb_prop in Hb as [_ Hb]. apply negb_true_iff in Hb.
  by split; [split|].
Qed.

Lemma parse_at_a_glance_texts (is_country : bool) (soup : Bs4.node)
    (z : Zone.t) :
  no_placeholder z →
  no_placeholder (parse_at_a_glance is_country soup z)
  ∧ (is_country = false →
     Zone.at_a_glance (parse_at_a_glance is_country soup z)
     = Zone.at_a_glance z).
Proof.
  intros [Ha Hg]. unfold parse_at_a_glance.
  destruct is_country; [|done].
  destruct (Bs4.find (Bs4.has_id "wanna-country-tab-infos") soup)
    as [infos_div|]; [|done].
  match goal with |- context [if ?b then _ else _] => destruct b eqn:Hb end;
    [|done].
  apply andb_prop in Hb as [_ Hb]. apply negb_true_iff in Hb.
  by split; [split|].
Qed.

Lemma parse_seasons_texts (soup : Bs4.node) (z z' : Zone.t) :
  parse_seasons soup z = Ok z' →
  Zone.about z' = Zone.about z ∧ Zone.at_a_glance z' = Zone.at_a_glance z.
Proof.
  unfold parse_seasons, rbind. repeat case_match; try done.
  all: by intros [= <-].
Qed.

Lemma parse_additional_map_texts (env : Env) (soup : Bs4.node)
    (z z' : Zone.t) :
  parse_additional_map env soup z = Ok z' →
  Zone.about z' = Zone.about z ∧ Zone.at_a_glance z' = Zone.at_a_glance z.
Proof.
  unfold parse_additional_map, rbind. repeat case_match; try done.
  all: by intros [= <-].
Qed.

(** The texts of the zone that [zone_page] returns. *)
Lemma zone_page_texts (env : Env) (url : string) (is_country : bool)
    (zone : Zone.t) (zones_list spots_list : list (string * string)) :
  zone_page env url is_country = Ok (zone, zones_list, spots_list) →
  no_placeholder zone ∧ (is_country = false → Zone.at_a_glance zone = "").
Proof.
  unfold zone_page, rbind.
  destruct (fetch env url) as [html|?]; [|done].
  destruct (zone_name _ url) as [name|?]; [|done].
  destruct (parse_seasons _ _) as [z1|?] eqn:H1; [|done].
  destruct (parse_additional_map env _ z1) as [z2|?] eqn:H2; [|done].
  destruct (discover_links env "Zones" _) as [zl|?]; [|done].
  destruct (discover_links env "Surf Spots" _) as [sl|?]; [|done].
  intros [= <- _ _].
  apply parse_additional_map_texts in H2 as [Ha2 Hg2].
  apply parse_seasons_texts in H1 as [Ha1 Hg1].
  set (soup := Bs4.BeautifulSoup (html_parser env html)) in *.
  assert (no_placeholder (Zone.new name url)) as H0 by done.
  destruct (parse_about_texts soup _ H0) as [Hp Hg].
  destruct (parse_at_a_glance_texts is_country soup _ Hp) as [Hp' Hg'].
  unfold no_placeholder. rewrite Ha2, Ha1, Hg2, Hg1.
  split; [done|]. intros Hc. by rewrite (Hg' Hc), Hg.
Qed.

(** The tree below a parsed zone: what holds of the zone when it is
    parsed as a zone holds of every zone below it. *)
Lemma parsed_tree (env : Env) (P : bool → Zone.t → Prop) :
  (∀ fuel url is_country zone zones_list spots_list acc,
     zone_page env url is_country = Ok (zone, zones_list, spots_list) →
     same_page zone acc →
     Zone.surf_spots acc
     = omap (λ s, ok_of (parse_spot_page env s.2)) spots_list →
     Forall (λ c, ∃ u out,
                 parse_country_or_zone_page env fuel u false
                 = Some (Ok c, out)) (Zone.sub_zones acc) →
     P is_country acc) →
  ∀ fuel url is_country zone printed,
    parse_country_or_zone_page env fuel url is_country
    = Some (Ok zone, printed) →
    P is_country zone ∧ Forall (P false) (zones_below zone).
Proof.
  intros HP. induction fuel as [|fuel IH]; [done|].
  intros url is_country zone printed. cbn [parse_country_or_zone_page].
  destruct (zone_page env url is_country) as [[[zone0 zl] sl]|e] eqn:Hpage;
    [|done].
  destruct (zone_page_fresh _ _ _ _ _ _ Hpage) as [Hs0 Hz0].
  destruct (spot_loop env sl (zone0, [])) as (Hp1 & Hz1 & Hs1 & _ & _).
  cbn [fst snd] in *.
  set (acc0 := foldl (spot_step env) (zone0, []) sl) in *.
  destruct (ofold _ zl acc0) as [acc|] eqn:Hfold; cbn [mbind option_bind];
    [|done].
  intros [= <- _].
  assert (same_page acc0.1 acc.1
          ∧ Zone.surf_spots acc.1 = Zone.surf_spots acc0.1
          ∧ Forall (λ c, ∃ u out,
                      parse_country_or_zone_page env fuel u false
                      = Some (Ok c, out)) (Zone.sub_zones acc.1))
    as (Hp2 & Hs2 & Hsub).
  { revert Hfold.
    apply (ofold_invariant
             (λ acc, same_page acc0.1 acc.1
                     ∧ Zone.surf_spots acc.1 = Zone.surf_spots acc0.1
                     ∧ Forall (λ c, ∃ u out,
                                 parse_country_or_zone_page env fuel u false
                                 = Some (Ok c, out)) (Zone.sub_zones acc.1))).
    - split; [apply same_page_refl|]. split; [done|].
      rewrite Hz1, Hz0. constructor.
    - intros a z a' (Hpa & Hsa & Hza).
      destruct (parse_country_or_zone_page env fuel z.2 false) as [r|] eqn:Hr;
        cbn [mbind option_bind]; [|done].
      intros [= <-].
      destruct (zone_step_spec a z r) as (Hpz & Hsz & Hzz & _).
      split; [by eapply same_page_trans|]. split; [by rewrite Hsz|].
      rewrite Hzz. apply Forall_app. split; [done|].
      destruct r as [[c|e] out]; cbn [fst ok_of option_list]; [|constructor].
      constructor; [|constructor]. by exists z.2, out. }
  split.
  - eapply HP; [exact Hpage | by eapply same_page_trans | | exact Hsub].
    by rewrite Hs2, Hs1, Hs0.
  - rewrite zones_below_eq. apply Forall_forall. intros c Hc.
    apply list_elem_of_In, in_flat_map in Hc as (c0 & Hc0 & Hc).
    apply list_elem_of_In in Hc0, Hc.
    apply (proj1 (Forall_forall _ _) Hsub) in Hc0 as (u & out & Hrec).
    destruct (IH _ _ _ _ Hrec) as [Hroot Hbelow].
    apply elem_of_cons in Hc as [->|Hc]; [done|].
    by apply (proj1 (Forall_forall _ _) Hbelow).
Qed.

(** X13: in the tree that [parse_country_or_zone_page] returns, every
    spot of the zone and of every zone below it, at any depth, has no
    empty attribute. *)
Theorem parsed_tree_spots_complete (env : Env) (fuel : nat) (url : string)
    (is_country : bool) (zone : Zone.t) (printed : list string) :
  parse_country_or_zone_page env fuel url is_country
  = Some (Ok zone, printed) →
  Forall (λ z, Forall spot_complete (Zone.surf_spots z))
         (zone :: zones_below zone).
Proof.
  intros H.
  apply Forall_cons.
  apply (parsed_tree env (λ _ z, Forall spot_complete (Zone.surf_spots z)))
    with (2 := H).
  intros _ _ _ _ _ spots_list acc _ _ -> _.
  apply Forall_forall. intros sp Hsp.
  apply list_elem_of_omap in Hsp as (s & _ & Hs).
  destruct (parse_spot_page env s.2) as [sp'|] eqn:Hparse; [|done].
  injection Hs as ->. by eapply parse_spot_page_complete.
Qed.

(** X14: no zone of a parsed tree stores a placeholder: no [about]
    starts with "wanna add some info" and no [at_a_glance] contains
    "automatic build" (compared in lower case); [at_a_glance] is empty
    for a page parsed as a zone and for every zone below the returned
    one. *)
Theorem parsed_tree_texts (env : Env) (fuel : nat) (url : string)
    (is_country : bool) (zone : Zone.t) (printed : list string) :
  parse_country_or_zone_page env fuel url is_country
  = Some (Ok zone, printed) →
  no_placeholder zone
  ∧ (is_country = false → Zone.at_a_glance zone = "")
  ∧ Forall (λ z, no_placeholder z ∧ Zone.at_a_glance z = "")
           (zones_below zone).
Proof.
  intros H.
  assert (∀ z, no_placeholder z ∧ (false = false → Zone.at_a_glance z = "")
               → no_placeholder z ∧ Zone.at_a_glance z = "") as Himp.
  { intros z [Hp Hg]. split; [done|]. by apply Hg. }
  enough ((no_placeholder zone
           ∧ (is_country = false → Zone.at_a_glance zone = ""))
          ∧ Forall (λ z, no_placeholder z
                         ∧ (false = false → Zone.at_a_glance z = ""))
                   (zones_below zone)) as [[H1 H2] H3].
  { split; [done|]. split; [done|]. eapply Forall_impl; [exact H3|].
    exact Himp. }
  apply (parsed_tree env
           (λ c z, no_placeholder z ∧ (c = false → Zone.at_a_glance z = "")))
    with (2 := H).
  intros _ u c z zl sl acc Hpage (_ & _ & Ha & Hg & _) _ _.
  destruct (zone_page_texts _ _ _ _ _ _ Hpage) as [[Hp1 Hp2] Hc].
  unfold no_placeholder. rewrite Ha, Hg. by repeat split.
Qed.

Lemma parsed_tree_spots_complete_witness :
  ∃ zone printed,
    parse_country_or_zone_page (Web.env france_site) 3
      (base "/spot/Europe/France/") true = Some (Ok zone, printed)
    ∧ Forall (λ z, Forall spot_complete (Zone.surf_spots z))
             (zone :: zones_below zone).
Proof.
  let r := eval vm_compute in
    (parse_country_or_zone_page (Web.env france_site) 3
       (base "/spot/Europe/France/") true) in
  match r with
  | Some (Ok ?zone, ?printed) =>
    exists zone, printed; split; [vm_compute; reflexivity|];
    apply (parsed_tree_spots_complete (Web.env france_site) 3
             (base "/spot/Europe/France/") true zone printed);
    vm_compute; reflexivity
  end.
Defined.

Lemma parsed_tree_texts_witness :
  ∃ zone printed,
    parse_country_or_zone_page (Web.env france_site) 3
      (base "/spot/Europe/France/") true = Some (Ok zone, printed)
    ∧ no_placeholder zone
    ∧ (true = false → Zone.at_a_glance zone = "")
    ∧ Forall (λ z, no_placeholder z ∧ Zone.at_a_glance z = "")
             (zones_below zone).
Proof.
  let r := eval vm_compute in
    (parse_country_or_zone_page (Web.env france_site) 3
       (base "/spot/Europe/France/") true) in
  match r with
  | Some (Ok ?zone, ?printed) =>
    exists zone, printed; split; [vm_compute; reflexivity|];
    apply (parsed_tree_texts (Web.env france_site) 3
             (base "/spot/Europe/France/") true zone printed);
    vm_compute; reflexivity
  end.
Defined.

Lemma spot_sheet_swell_size_header_witness :
  (0, 18, CellStr "Good swell direction")
    ∈ spot_cells "Pipeline" (Zone.mk "Pipeline" "" "" "" [] None
                               [pipeline_spot] [])
  ∧ (1, 18, CellStr "big")
      ∈ spot_cells "Pipeline" (Zone.mk "Pipeline" "" "" "" [] None
                                 [pipeline_spot] [])
  ∧ (0, 16, CellStr "Good swell direction")
      ∈ spot_cells "Pipeline" (Zone.mk "Pipeline" "" "" "" [] None
                                 [pipeline_spot] [])
  ∧ ∀ col, (0, col, CellStr "Swell size")
             ∉ spot_cells "Pipeline" (Zone.mk "Pipeline" "" "" "" [] None
                                        [pipeline_spot] []).
Proof.
  apply (spot_sheet_swell_size_header "Pipeline"
           (Zone.mk "Pipeline" "" "" "" [] None [pipeline_spot] [])
           0 pipeline_spot).
  reflexivity.
Defined.

(** ** The keys of the forest *)

Lemma keys_alter {V} (f : V → V) (k : string) (d : Py.dict V) :
  (Py.dict_alter f k d).*1 = d.*1.
Proof.
  induction d as [|[k0 v0] d IH]; [done|]. cbn [Py.dict_alter].
  case_bool_decide; cbn [fmap list_fmap fst]; [done|]. by rewrite <- IH.
Qed.

Lemma keys_set {V} (d : Py.dict V) (k : string) (v : V) :
  (Py.dict_set d k v).*1 = if bool_decide (k ∈ d.*1) then d.*1 else d.*1 ++ [k].
Proof.
  induction d as [|[k0 v0] d IH]; [done|]. cbn [Py.dict_set].
  destruct (decide (k0 = k)) as [->|Hne].
  - rewrite !bool_decide_eq_true_2; [done| |done]. apply list_elem_of_here.
  - rewrite (bool_decide_eq_false_2 (k0 = k)) by done.
    cbn [fmap list_fmap fst]. rewrite IH.
    destruct (decide (k ∈ d.*1)) as [Hin|Hnin].
    + rewrite !bool_decide_eq_true_2; [done|by apply list_elem_of_further|done].
    + rewrite !bool_decide_eq_false_2; [done| |done].
      intros [?|?]%elem_of_cons; [by subst|done].
Qed.

Lemma keys_set_NoDup {V} (d : Py.dict V) (k : string) (v : V) :
  NoDup d.*1 → NoDup (Py.dict_set d k v).*1.
Proof.
  intros Hd. rewrite keys_set. case_bool_decide as Hk; [done|].
  apply NoDup_app. split; [done|]. split; [|apply NoDup_singleton].
  by intros x Hx ->%list_elem_of_singleton.
Qed.

(** The continents of the homepage are pairwise different. *)
Lemma parse_homepage_NoDup (env : Env)
    (continents_map : Py.dict (list (string * string))) :
  parse_homepage env = Ok continents_map → NoDup continents_map.*1.
Proof.
  unfold parse_homepage. unfold rbind at 1.
  destruct (fetch env (BASE_URL +:+ "/")) as [html|]; [|done].
  apply (rfold_invariant (λ d : Py.dict (list (string * string)), NoDup d.*1)).
  - constructor.
  - intros d h2 d' Hd. unfold rbind at 1.
    match goal with |- context [match ?x with Ok _ => _ | Raise _ => _ end] =>
      destruct x as [cs|]; [|done] end.
    intros [= <-]. by apply keys_set_NoDup.
Qed.

Lemma stored_at_keys (continent country : string) (z : Zone.t)
    (cd : Py.dict (Py.dict Zone.t)) :
  (stored_at continent country z cd).*1 = cd.*1.
Proof. apply keys_alter. Qed.

Lemma process_country_keys (env : Env) (fuel : nat) (sample : bool)
    (continent : string) (d d' : driver) (c : string * string) :
  process_country env fuel sample continent d c = Some d' →
  (continents_data d').*1 = (continents_data d).*1.
Proof.
  intros (r & _ & ->)%process_country_stored.
  destruct r.1; [apply stored_at_keys | done].
Qed.

Lemma scrape_loop_keys (env : Env) (fuel : nat) (sample : bool)
    (l : Py.dict (list (string * string))) (d d' : driver) :
  NoDup l.*1 → (∀ k, k ∈ l.*1 → k ∉ (continents_data d).*1) →
  ofold (λ d continent,
           let d :=
             Driver (Py.dict_set (continents_data d) continent.1 [])
                    (csv_files d) (printed d) in
           let country_iter :=
             if sample then take 1 continent.2 else continent.2 in
           ofold (process_country env fuel sample continent.1) country_iter d)
        l d = Some d' →
  (continents_data d').*1 = (continents_data d).*1 ++ l.*1.
Proof.
  revert d. induction l as [|[k cs] l IH]; intros d Hnd Hnew.
  - cbn [ofold]. intros [= <-]. by rewrite app_nil_r.
  - cbn [ofold fst snd]. cbn [fmap list_fmap fst] in Hnd, Hnew |- *.
    apply NoDup_cons in Hnd as [Hk Hnd].
    match goal with |- context [ofold ?f ?l' ?d0] =>
      destruct (ofold f l' d0) as [d1|] eqn:Hin end;
      cbn [mbind option_bind]; [|done].
    assert ((continents_data d1).*1 = (continents_data d).*1 ++ [k]) as Hd1.
    { revert Hin.
      apply (ofold_invariant
               (λ d1, (continents_data d1).*1 = (continents_data d).*1 ++ [k])).
      - cbn [continents_data]. rewrite keys_set, bool_decide_eq_false_2; [done|].
        apply Hnew, list_elem_of_here.
      - intros s c s' Hs Hstep.
        by rewrite (process_country_keys _ _ _ _ _ _ _ Hstep). }
    intros Hrest.
    assert (∀ k', k' ∈ l.*1 → k' ∉ (continents_data d1).*1) as Hnew1.
    { intros k' Hk'. rewrite Hd1.
      intros [Hold|Heq%list_elem_of_singleton]%elem_of_app; [|by subst].
      apply (Hnew k'); [|done]. by apply list_elem_of_further. }
    rewrite (IH d1 Hnd Hnew1 Hrest). by rewrite Hd1, <- app_assoc.
Qed.

Lemma build_excel_workbook_paths (cd : Py.dict (Py.dict Zone.t))
    (output_dir : string) (wbs : list workbook) (printed : list string) :
  build_excel_workbook cd output_dir = Some (Ok (wbs, printed)) →
  map workbook_path wbs = map (workbook_path_of output_dir) cd.*1.
Proof.
  intros Hb.
  destruct (build_excel_workbook_spec cd output_dir) as (r & Hb' & Hall).
  rewrite Hb in Hb'. injection Hb' as <-. cbn [fst] in Hall. clear Hb.
  induction Hall as [|c wb cd wbs Hwb Hall IH]; [done|].
  cbn [map fmap list_fmap]. f_equal; [|exact IH].
  destruct (build_continent_spec output_dir c.1 c.2) as (r & Hspec & Hr).
  rewrite Hspec in Hwb. injection Hwb as ->.
  by destruct Hr as (new & asked & -> & _).
Qed.

(** X18: after [main], the forest has one entry per continent of the
    homepage, in the order of the homepage (also for a continent none of
    whose countries could be parsed), and there is one workbook per
    continent, at [excel_output/<sanitised continent>.xlsx]. *)
Theorem forest_lists_every_continent (env : Env) (fuel : nat) (sample : bool)
    (out : output) :
  main env fuel sample = Some (Ok out) →
  ∃ continents_map,
    parse_homepage env = Ok continents_map
    ∧ (forest out).*1 = continents_map.*1
    ∧ map workbook_path (workbooks out)
      = map (workbook_path_of "excel_output") continents_map.*1.
Proof.
  unfold main.
  destruct (parse_homepage env) as [continents_map|e] eqn:Hhome; [|done].
  destruct (scrape env fuel sample continents_map) as [d|] eqn:Hscrape;
    cbn [mbind option_bind]; [|done].
  destruct (build_excel_workbook (continents_data d) "excel_output")
    as [[[wbs printed]|e]|] eqn:Hwb; cbn [mbind option_bind orbind];
    [|done|done].
  intros [= <-]. cbn [forest workbooks fst].
  exists continents_map. split; [done|].
  assert ((continents_data d).*1 = continents_map.*1) as Hkeys.
  { apply parse_homepage_NoDup in Hhome.
    apply (scrape_loop_keys env fuel sample continents_map (Driver [] [] []) d
             Hhome); [|exact Hscrape].
    intros k _ Hk. by apply elem_of_nil in Hk. }
  split; [done|].
  by rewrite (build_excel_workbook_paths _ _ _ _ Hwb), Hkeys.
Qed.

Lemma forest_lists_every_continent_witness :
  ∃ out continents_map,
    main (Web.env france_site) 3 false = Some (Ok out)
    ∧ parse_homepage (Web.env france_site) = Ok continents_map
    ∧ (forest out).*1 = continents_map.*1
    ∧ map workbook_path (workbooks out)
      = map (workbook_path_of "excel_output") continents_map.*1.
Proof.
  let r := eval vm_compute in (main (Web.env france_site) 3 false) in
  match r with
  | Some (Ok ?out) =>
    exists out;
    destruct (forest_lists_every_continent (Web.env france_site) 3 false out)
      as (continents_map & H); [vm_compute; reflexivity|];
    exists continents_map; split; [vm_compute; reflexivity | exact H]
  end.
Defined.

(** ** A sampled run *)

Lemma zone_at_update (p : list nat) (f : Zone.t → Zone.t) (z : Zone.t) :
  zone_at p (zone_update p f z) = f <$> zone_at p z.
Proof.
  revert z. induction p as [|i p IH]; intros z; [done|].
  cbn [zone_at zone_update]. destruct z as [n u a g s m sp subs].
  cbn [Zone.set_sub_zones Zone.sub_zones].
  rewrite list_lookup_alter_eq.
  destruct (subs !! i) as [c|]; cbn; [apply IH | done].
Qed.

Lemma deref_assign (r : zone_ref) (v : list Spot.t)
    (cd : Py.dict (Py.dict Zone.t)) :
  deref (assign_surf_spots r v cd) r
  = (λ z, Zone.set_surf_spots z v) <$> deref cd r.
Proof.
  unfold deref, assign_surf_spots.
  rewrite dict_get_alter, bool_decide_eq_true_2 by done.
  destruct (Py.dict_get cd r.1.1) as [cs|]; cbn [fmap option_fmap option_map
    mbind option_bind]; [|done].
  rewrite dict_get_alter, bool_decide_eq_true_2 by done.
  destruct (Py.dict_get cs r.1.2) as [z|]; cbn [fmap option_fmap option_map
    mbind option_bind]; [|done].
  apply zone_at_update.
Qed.

(** The file that [dump_zone] writes in a sampled run has at most five
    rows below its header. *)
Lemma dump_zone_csv (r : zone_ref) (what : Zone.t → string) (d : driver)
    (path : string) (rows : list (list string)) :
  (path, rows) ∈ csv_files (dump_zone true r what d) →
  (path, rows) ∈ csv_files d ∨ length rows ≤ 6.
Proof.
  unfold dump_zone.
  destruct (deref (continents_data d) r) as [zone_obj|] eqn:Hz; [|by left].
  cbn [andb].
  case_bool_decide as Hlen.
  - rewrite deref_assign, Hz. cbn [fmap option_fmap option_map csv_files].
    intros [[= _ ->]|?]%dict_set_elem; [|by left]. right.
    unfold to_csv. cbn [snd length Zone.set_surf_spots Zone.surf_spots].
    rewrite length_map, length_take. lia.
  - rewrite Hz. cbn [csv_files].
    intros [[= _ ->]|?]%dict_set_elem; [|by left]. right.
    unfold to_csv. cbn [snd length]. rewrite length_map. lia.
Qed.

Lemma process_country_sampled (env : Env) (fuel : nat) (continent : string)
    (d d' : driver) (c : string * string) :
  process_country env fuel true continent d c = Some d' →
  (∀ path rows, (path, rows) ∈ csv_files d → length rows ≤ 6) →
  (∀ path rows, (path, rows) ∈ csv_files d' → length rows ≤ 6)
  ∧ ∀ k, match Py.dict_get (continents_data d') k,
               Py.dict_get (continents_data d) k with
         | Some cs', Some cs =>
             if bool_decide (k = continent) then length cs' ≤ S (length cs)
             else length cs' = length cs
         | None, None => True
         | _, _ => False
         end.
Proof.
  intros Hstep Hcsv. split.
  - revert Hstep. unfold process_country.
    destruct (parse_country_or_zone_page env fuel c.2 true) as [r|];
      cbn [mbind option_bind]; [|done].
    destruct r.1 as [zone|e]; [|by intros [= <-]].
    case_bool_decide; intros [= <-].
    + apply (foldl_invariant
               (λ d, ∀ path rows, (path, rows) ∈ csv_files d → length rows ≤ 6));
        [done|].
      intros d1 i Hd1 path rows [?|?]%dump_zone_csv; [by eapply Hd1 | done].
    + intros path rows [?|?]%dump_zone_csv; [by eapply Hcsv | done].
  - apply process_country_stored in Hstep as (r & _ & ->). intros k.
    destruct r.1 as [zone|e].
    + unfold stored_at. rewrite dict_get_alter.
      destruct (Py.dict_get (continents_data d) k) as [cs|];
        case_bool_decide as Hk; subst; cbn [fmap option_fmap option_map];
        rewrite ?bool_decide_eq_true_2, ?bool_decide_eq_false_2 by done;
        try done.
      rewrite <- !(length_fmap fst), keys_set.
      case_bool_decide; [lia|]. rewrite length_app. cbn. lia.
    + destruct (Py.dict_get (continents_data d) k); [|done].
      case_bool_decide; lia.
Qed.

Lemma scrape_sampled (env : Env) (fuel : nat)
    (continents_map : Py.dict (list (string * string))) (d : driver) :
  scrape env fuel true continents_map = Some d → sample_bounded d.
Proof.
  unfold scrape. apply (ofold_invariant sample_bounded).
  { split; [done|]. intros path rows H. by apply elem_of_nil in H. }
  intros d0 [k cs] d1 [Hcd Hcsv]. cbn [fst snd].
  set (d0' := Driver (Py.dict_set (continents_data d0) k []) (csv_files d0)
                     (printed d0)).
  assert (∀ k', match Py.dict_get (continents_data d0') k' with
                | Some cs' =>
                    if bool_decide (k' = k) then length cs' = 0
                    else length cs' ≤ 1
                | None => True
                end) as Hcd0.
  { intros k'. cbn [d0' continents_data].
    destruct (decide (k = k')) as [<-|Hne].
    - by rewrite dict_get_set_eq, bool_decide_eq_true_2.
    - rewrite dict_get_set_ne, bool_decide_eq_false_2 by done.
      destruct (Py.dict_get (continents_data d0) k') as [cs'|] eqn:Hk'; [|done].
      by eapply Hcd. }
  destruct cs as [|c cs]; cbn [take ofold].
  - intros [= <-]. split; [|done].
    intros k' cs' Hk'. specialize (Hcd0 k'). rewrite Hk' in Hcd0.
    case_bool_decide; lia.
  - destruct (process_country env fuel true k d0' c) as [d2|] eqn:Hstep;
      cbn [mbind option_bind]; [|done].
    intros [= <-].
    destruct (process_country_sampled _ _ _ _ _ _ Hstep Hcsv) as [Hcsv2 Hcd2].
    split; [|done].
    intros k' cs' Hk'. specialize (Hcd0 k'). specialize (Hcd2 k').
    rewrite Hk' in Hcd2.
    destruct (Py.dict_get (continents_data d0') k') as [cs0|]; [|done].
    case_bool_decide; lia.
Qed.

(** X19: a sampled run of [main] stores at most one country per
    continent, and every CSV file it writes has at most five rows below
    the header. *)
Theorem sampled_run_is_bounded (env : Env) (fuel : nat) (out : output) :
  main env fuel true = Some (Ok out) →
  (∀ continent countries,
     Py.dict_get (forest out) continent = Some countries →
     length countries ≤ 1)
  ∧ ∀ path rows, (path, rows) ∈ csv_written out → length rows ≤ 6.
Proof.
  unfold main. destruct (parse_homepage env) as [continents_map|e]; [|done].
  destruct (scrape env fuel true continents_map) as [d|] eqn:Hscrape;
    cbn [mbind option_bind]; [|done].
  destruct (build_excel_workbook (continents_data d) "excel_output")
    as [[wb|e]|]; cbn [mbind option_bind orbind]; [|done|done].
  intros [= <-]. cbn [forest csv_written].
  exact (scrape_sampled env fuel continents_map d Hscrape).
Qed.

Lemma sampled_run_is_bounded_witness :
  ∃ out,
    main (Web.env france_site) 3 true = Some (Ok out)
    ∧ (∀ continent countries,
         Py.dict_get (forest out) continent = Some countries →
         length countries ≤ 1)
    ∧ ∀ path rows, (path, rows) ∈ csv_written out → length rows ≤ 6.
Proof.
  let r := eval vm_compute in (main (Web.env france_site) 3 true) in
  match r with
  | Some (Ok ?out) =>
    exists out; split; [vm_compute; reflexivity|];
    apply (sampled_run_is_bounded (Web.env france_site) 3 out);
    vm_compute; reflexivity
  end.
Defined.

(** ** The length of sheet names *)



(** With 101 zones of one name the counter reaches 100, and the name
    made of 28 characters, an underscore and the counter has 32
    characters: xlsxwriter refuses it. *)
Example hundredth_suffix_is_too_long :
  build_continent "excel_output" "South America" [("Brasil", crowded_country)]
  = Some (Raise (InvalidWorksheetName
                   "Excel worksheet name 'Praia_do_Norte_de_Santa_Cata_100' must be <= 31 chars.")).
Proof. vm_compute. reflexivity. Qed.

(** ** The attributes of a parsed spot are cleaned texts *)

Lemma setattr_clean (s : Spot.t) (g : Field.t) (v : string) :
  all_clean s → is_clean v = true → all_clean (Spot.setattr s g v).
Proof.
  intros Hs Hv f. destruct (decide (g = f)) as [->|Hne].
  - by rewrite getattr_setattr_eq.
  - by rewrite getattr_setattr_ne.
Qed.

Lemma assign_by_clean (table : list (string * Field.t)) (s : Spot.t)
    (label value : string) :
  all_clean s → is_clean value = true →
  all_clean (assign_by table s label value).
Proof.
  intros Hs Hv. induction table as [|[l g] table IH]; [done|].
  cbn [assign_by]. case_bool_decide; [by apply setattr_clean | done].
Qed.

Lemma labelled_paragraph_clean (table : list (string * Field.t))
    (p : Bs4.path) (st : Bs4.node * Spot.t) :
  all_clean st.2 → all_clean (labelled_paragraph table p st).2.
Proof.
  intros Hs. unfold labelled_paragraph.
  repeat case_match; try done. cbn [snd].
  apply assign_by_clean; [done | apply clean_text_normal].
Qed.

Lemma access_section_clean (st : Bs4.node * Spot.t) :
  all_clean st.2 → all_clean (access_section st).2.
Proof.
  intros Hs. unfold access_section. repeat case_match; try done.
  apply (foldl_invariant (λ st', all_clean st'.2)); [done|].
  intros b a Hb. by apply labelled_paragraph_clean.
Qed.

Lemma characteristics_column_clean (col : option (Bs4.path * Bs4.node))
    (st : Bs4.node * Spot.t) :
  all_clean st.2 → all_clean (characteristics_column col st).2.
Proof.
  intros Hs. unfold characteristics_column. repeat case_match; try done.
  apply (foldl_invariant (λ st', all_clean st'.2)); [done|].
  intros b a Hb. repeat case_match; try done.
  by apply labelled_paragraph_clean.
Qed.

Lemma characteristics_section_clean (st : Bs4.node * Spot.t) :
  all_clean st.2 → all_clean (characteristics_section st).2.
Proof.
  intros Hs. unfold characteristics_section. case_match; [|done].
  by do 2 apply characteristics_column_clean.
Qed.

Lemma additional_section_clean (st : Bs4.node * Spot.t) :
  all_clean st.2 → all_clean (additional_section st).2.
Proof.
  intros Hs. unfold additional_section. repeat case_match; try done.
  cbn [snd]. apply setattr_clean; [done | apply clean_text_normal].
Qed.

Lemma coordinate_clean (env : Env) (label : string) (field : Field.t)
    (st : Bs4.node * Spot.t) :
  all_clean st.2 → all_clean (coordinate env label field st).2.
Proof.
  intros Hs. unfold coordinate. repeat case_match; try done.
  cbn [snd]. apply setattr_clean; [done | apply clean_text_normal].
Qed.

Lemma extract_spot_clean (env : Env) (soup : Bs4.node) (name : string) :
  all_clean (extract_spot env soup name).
Proof.
  unfold extract_spot.
  do 2 apply coordinate_clean. apply additional_section_clean,
    characteristics_section_clean, access_section_clean.
  intros f. by destruct f.
Qed.

(** X8: every attribute of a spot that [parse_spot_page] returns is a
    cleaned text: trimmed, with single spaces only. *)
Theorem parsed_spot_fields_clean (env : Env) (url : string) (spot : Spot.t) :
  parse_spot_page env url = Ok spot →
  ∀ f, is_clean (Spot.getattr spot f) = true.
Proof.
  intros (html & name & _ & _ & ->)%parse_spot_page_ok f.
  rewrite fill_missing_getattr. unfold or_sentinel.
  case_bool_decide; [done | apply extract_spot_clean].
Qed.

Lemma parsed_spot_fields_clean_witness :
  is_clean (Spot.getattr pipeline_spot Field.distance) = true
  ∧ is_clean (Spot.getattr pipeline_spot Field.latitude) = true.
Proof.
  split.
  - apply (parsed_spot_fields_clean (Web.env spot_site)
             "https://www.wannasurf.com/spot/Pipeline/").
    vm_compute. reflexivity.
  - apply (parsed_spot_fields_clean (Web.env spot_site)
             "https://www.wannasurf.com/spot/Pipeline/").
    vm_compute. reflexivity.
Defined.

(** ** Ratings *)

Lemma break_at_fst (P : ascii → bool) (l : list ascii) :
  Forall (λ c, P c = false) (Url.break_at P l).1.
Proof.
  induction l as [|c l IH]; [constructor|].
  cbn [Url.break_at]. destruct (P c) eqn:Hc; [constructor|].
  cbn [fst]. by constructor.
Qed.

Lemma basename_no_slash (p : string) :
  "/"%char ∉ Py.chars (Url.basename p).
Proof.
  unfold Url.basename. rewrite chars_str, elem_of_reverse.
  intros Hin.
  pose proof (break_at_fst (Url.is_char "/") (reverse (Py.chars p))) as Hall.
  apply (proj1 (Forall_forall _ _) Hall) in Hin.
  unfold Url.is_char in Hin. by rewrite bool_decide_eq_true_2 in Hin.
Qed.

(** X11: the value decoded from a cell that holds an image is taken from
    the path of the image URL, as [urlparse] gives it: ["0"] when the file
    name starts with [wanna-empty], case ignored, and otherwise the file
    name, which is what follows the last slash of the path; so the value
    holds no slash. *)
Theorem rating_is_bare_file_name (cell : Bs4.node)
    (img : Bs4.path * Bs4.node) (v : string) :
  Bs4.find (Bs4.named "img") cell = Some img →
  cell_value cell = Ok v →
  ∃ path,
    Url.urlparse_path (default "" (Bs4.get img.2 "src")) = Ok path
    ∧ v = (if Py.startswith (Py.lower (Url.basename path)) "wanna-empty"
           then "0" else Url.basename path)
    ∧ ("/"%char ∉ Py.chars v).
Proof.
  intros Himg. unfold cell_value. rewrite Himg. unfold rbind.
  destruct (Url.urlparse_path _) as [path|]; [|done].
  intros Hv. exists path. split; [done|].
  destruct (Py.startswith _ _); injection Hv as <-; (split; [done|]).
  - by intros [=]%list_elem_of_singleton.
  - apply basename_no_slash.
Qed.

Lemma rating_is_bare_file_name_witness :
  ∃ path,
    Url.urlparse_path "https://www.wannasurf.com/images/3-star.png?v=2"
    = Ok path
    ∧ "3-star.png"
      = (if Py.startswith (Py.lower (Url.basename path)) "wanna-empty"
         then "0" else Url.basename path)
    ∧ ("/"%char ∉ Py.chars "3-star.png").
Proof.
  apply (rating_is_bare_file_name
           (td_img "https://www.wannasurf.com/images/3-star.png?v=2")
           ([0], Bs4.Tag "img"
                   [("src",
                     "https://www.wannasurf.com/images/3-star.png?v=2")] [])).
  - reflexivity.
  - vm_compute. reflexivity.
Defined.

(** ** The keys of a decoded table *)

Lemma replace_removes (old : ascii) (new s : string) :
  old ∉ Py.chars new → old ∉ Py.chars (Py.replace old new s).
Proof.
  intros Hnew. induction s as [|c s IH]; [by intros ?%elem_of_nil|].
  cbn [Py.replace]. case_bool_decide as Hc.
  - rewrite chars_app. by intros [?|?]%elem_of_app.
  - change (Py.chars (String c ?t)) with (c :: Py.chars t).
    by intros [->|?]%elem_of_cons.
Qed.

Lemma replace_absent (c old : ascii) (new s : string) :
  c ∉ Py.chars new → c ∉ Py.chars s → c ∉ Py.chars (Py.replace old new s).
Proof.
  intros Hnew. induction s as [|x s IH]; [done|].
  change (Py.chars (String x s)) with (x :: Py.chars s).
  intros [Hx Hs]%not_elem_of_cons.
  cbn [Py.replace]. case_bool_decide as Hc.
  - rewrite chars_app. intros [?|?]%elem_of_app; [done | by apply IH].
  - change (Py.chars (String x ?t)) with (x :: Py.chars t).
    intros [->|?]%elem_of_cons; [done | by apply IH].
Qed.

Lemma metric_name_of_plain (cell : Bs4.node) :
  (" "%char ∉ Py.chars (metric_name_of cell))
  ∧ ("."%char ∉ Py.chars (metric_name_of cell)).
Proof.
  unfold metric_name_of. split.
  - apply replace_absent; [by intros ?%elem_of_nil|].
    apply replace_removes. by intros [=]%list_elem_of_singleton.
  - apply replace_removes. by intros ?%elem_of_nil.
Qed.

Lemma bi_month_headers_plain (thead_rows : list Bs4.node) (k : string) :
  k ∈ bi_month_headers thead_rows →
  ("/"%char ∉ Py.chars k) ∧ (" "%char ∉ Py.chars k).
Proof.
  unfold bi_month_headers. destruct (thead_rows !! 1) as [row|];
    [|by intros ?%elem_of_nil].
  intros (cell & <- & _)%list_elem_of_In%in_map_iff.
  split.
  - apply replace_absent; [by intros [=]%list_elem_of_singleton|].
    apply replace_removes. by intros [=]%list_elem_of_singleton.
  - apply replace_removes. by intros [=]%list_elem_of_singleton.
Qed.

Lemma dict_elem_get {V} (d : Py.dict V) (k : string) (v : V) :
  (k, v) ∈ d → is_Some (Py.dict_get d k).
Proof.
  induction d as [|[k' v'] d IH]; [by intros ?%elem_of_nil|].
  cbn [Py.dict_get]. case_bool_decide; [by eexists|].
  intros [[= -> ->]|?]%elem_of_cons; [done | by apply IH].
Qed.

(** X10: the keys of a table decoded in the paired layout are plain:
    no space and no dot in a metric key, no slash and no space in a month
    key. *)
Theorem season_keys_are_plain (table : Bs4.node)
    (result : Py.dict (Py.dict string)) :
  parse_seasons_table table "bi" = Ok result →
  ∀ metric values, (metric, values) ∈ result →
    (" "%char ∉ Py.chars metric) ∧ ("."%char ∉ Py.chars metric)
    ∧ ∀ month v, (month, v) ∈ values →
        ("/"%char ∉ Py.chars month) ∧ (" "%char ∉ Py.chars month).
Proof.
  unfold parse_seasons_table, find_then.
  destruct (Bs4.find (Bs4.named "thead") table) as [thead|]; [|done].
  cbn [rbind].
  destruct (Bs4.find (Bs4.named "tbody") table) as [tbody|]; [|done].
  cbn [rbind].
  change (month_headers_of "bi" (tags "tr" thead.2))
    with (bi_month_headers (tags "tr" thead.2)).
  set (hs := bi_month_headers (tags "tr" thead.2)).
  intros H.
  refine (rfold_invariant
            (λ result, ∀ metric values, (metric, values) ∈ result →
               (" "%char ∉ Py.chars metric) ∧ ("."%char ∉ Py.chars metric)
               ∧ ∀ month v, (month, v) ∈ values →
                   ("/"%char ∉ Py.chars month) ∧ (" "%char ∉ Py.chars month))
            _ _ _ _ _ _ H).
  - intros metric values Hin. by apply elem_of_nil in Hin.
  - intros d row d' Hd. cbv beta zeta.
    destruct (row_cells row) as [|cell0 cells] eqn:Hc.
    { by intros [= <-]. }
    unfold rbind. destruct (row_values hs (cell0 :: cells)) as [vs|] eqn:Hv;
      [|done].
    intros [= <-] metric values [[= -> ->]|Hin]%dict_set_elem;
      [|by apply (Hd metric)].
    destruct (metric_name_of_plain cell0) as [H1 H2].
    split; [done|]. split; [done|].
    intros month v Hin%dict_elem_get.
    apply (row_values_keys _ _ _ Hv) in Hin.
    by apply (bi_month_headers_plain (tags "tr" thead.2)).
Qed.

Lemma season_keys_are_plain_witness :
  (" "%char ∉ Py.chars "best_season") ∧ ("."%char ∉ Py.chars "best_season")
  ∧ ∀ month v,
      (month, v) ∈ [("jan_feb", "3-star.png"); ("mar_apr", "0")] →
      ("/"%char ∉ Py.chars month) ∧ (" "%char ∉ Py.chars month).
Proof.
  apply (season_keys_are_plain paired_table_example
           [("best_season", [("jan_feb", "3-star.png"); ("mar_apr", "0")])]
           ltac:(vm_compute; reflexivity) "best_season").
  apply list_elem_of_here.
Defined.

(** ** Spot sheets *)

(** [leaf_zones] holds zones without sub-zones only, each under its own
    name. *)
Lemma leaf_zones_are_leaves (country_zone : Zone.t) :
  Forall (λ lz, Zone.is_leaf lz.2 = true ∧ lz.1 = Zone.name lz.2)
         (leaf_zones country_zone).
Proof.
  unfold leaf_zones, Zone.is_leaf. case_bool_decide as Hc.
  - constructor; [|constructor]. cbn [fst snd].
    by rewrite bool_decide_eq_true_2.
  - apply Forall_forall. intros lz Hlz.
    apply list_elem_of_In, in_flat_map in Hlz as (z & _ & Hlz).
    apply list_elem_of_In in Hlz. case_bool_decide as Hz.
    + apply list_elem_of_singleton in Hlz as ->. cbn [fst snd].
      by rewrite bool_decide_eq_true_2.
    + apply list_elem_of_In, in_flat_map in Hlz as (sz & _ & Hlz).
      apply list_elem_of_In in Hlz. case_bool_decide as Hsz;
        [|by apply elem_of_nil in Hlz].
      apply list_elem_of_singleton in Hlz as ->. cbn [fst snd].
      by rewrite bool_decide_eq_true_2.
Qed.

(** X16: in the workbook of a continent, the sheets after "Country" and
    "Zones" are one sheet per nested zone, with the rows of its
    sub-zones, and then one surf-spot sheet per entry of [leaf_zones],
    in order; each surf-spot sheet is that of a zone without sub-zones
    ([is_leaf]), listed under its own name.  So the spots that a zone
    with sub-zones lists itself are on no sheet of their own. *)
Theorem spot_sheets_are_for_leaves (output_dir continent : string)
    (countries : Py.dict Zone.t) (wb : workbook) :
  build_continent output_dir continent countries = Some (Ok wb) →
  ∃ sub_sheets spot_sheets,
    sheets wb = [country_sheet continent countries; zones_sheet countries]
                ++ sub_sheets ++ spot_sheets
    ∧ Forall2 (λ z sh, cells sh = sub_zones_cells z.2)
              (nested_zones countries) sub_sheets
    ∧ Forall2 (λ lz sh,
                 cells sh = spot_cells lz.1 lz.2
                 ∧ Zone.is_leaf lz.2 = true
                 ∧ lz.1 = Zone.name lz.2)
              (flat_map (λ c, leaf_zones c.2) countries) spot_sheets.
Proof.
  intros Hwb.
  destruct (build_continent_spec output_dir continent countries)
    as (r & Hspec & Hr).
  rewrite Hspec in Hwb. injection Hwb as ->.
  destruct Hr as (new & asked & -> & Hcells & _). cbn [sheets].
  set (n := length (nested_zones countries)).
  exists (take n new), (drop n new). rewrite take_drop. split; [done|].
  unfold zone_sheet_items in Hcells. rewrite map_app, !map_map in Hcells.
  cbn [snd] in Hcells.
  assert (map cells (take n new)
          = map (λ z, sub_zones_cells z.2) (nested_zones countries)) as Htake.
  { change (map cells (take n new)) with (cells <$> take n new).
    rewrite fmap_take. change (cells <$> new) with (map cells new).
    rewrite Hcells, take_app_length'; [done|]. by rewrite length_map. }
  assert (map cells (drop n new)
          = map (λ lz, spot_cells lz.1 lz.2)
                (flat_map (λ c, leaf_zones c.2) countries)) as Hdrop.
  { change (map cells (drop n new)) with (cells <$> drop n new).
    rewrite fmap_drop. change (cells <$> new) with (map cells new).
    rewrite Hcells, drop_app_length'; [done|]. by rewrite length_map. }
  split; [by apply Forall2_of_map_eq|].
  assert (Forall (λ lz, Zone.is_leaf lz.2 = true ∧ lz.1 = Zone.name lz.2)
                 (flat_map (λ c, leaf_zones c.2) countries)) as Hleaf.
  { apply Forall_forall. intros lz Hlz.
    apply list_elem_of_In, in_flat_map in Hlz as (c & _ & Hlz).
    apply list_elem_of_In in Hlz. revert lz Hlz. apply Forall_forall.
    apply leaf_zones_are_leaves. }
  apply (Forall2_of_map_eq (λ lz, spot_cells lz.1 lz.2) cells) in Hdrop.
  revert Hleaf. generalize (drop n new) Hdrop. clear.
  generalize (flat_map (λ c : string * Zone.t, leaf_zones c.2) countries).
  intros lzs shs Hall.
  induction Hall as [|lz sh lzs shs Hsh _ IH]; intros Hleaf; [constructor|].
  apply Forall_cons in Hleaf as [Hlz Hleaf].
  constructor; [by split | by apply IH].
Qed.

Lemma spot_sheets_are_for_leaves_witness :
  ∃ wb sub_sheets spot_sheets,
    build_continent "excel_output" "Europe" iberia = Some (Ok wb)
    ∧ sheets wb = [country_sheet "Europe" iberia; zones_sheet iberia]
                  ++ sub_sheets ++ spot_sheets
    ∧ Forall2 (λ z sh, cells sh = sub_zones_cells z.2)
              (nested_zones iberia) sub_sheets
    ∧ Forall2 (λ lz sh,
                 cells sh = spot_cells lz.1 lz.2
                 ∧ Zone.is_leaf lz.2 = true
                 ∧ lz.1 = Zone.name lz.2)
              (flat_map (λ c, leaf_zones c.2) iberia) spot_sheets.
Proof.
  let r := eval vm_compute in
             (build_continent "excel_output" "Europe" iberia) in
  match r with
  | Some (Ok ?wb) =>
    exists wb;
    destruct (spot_sheets_are_for_leaves "excel_output" "Europe" iberia wb)
      as (sub_sheets & spot_sheets & H); [vm_compute; reflexivity|];
    exists sub_sheets, spot_sheets; split; [vm_compute; reflexivity | exact H]
  end.
Defined.

(** In the workbook of [iberia], "Algarve" has the sheet of its
    sub-zones, and the leaf zones have their surf-spot sheets; the spot
    "Arrifana", which "Algarve" lists itself, is written on no sheet. *)
Example nested_zone_spots_are_on_no_sheet :
  ∃ wb,
    build_continent "excel_output" "Europe" iberia = Some (Ok wb)
    ∧ map sheet_name (sheets wb)
      = ["Country"; "Zones"; "Algarve"; "Sagres"; "Lagos"; "Peniche";
         "Gibraltar"]
    ∧ Forall (λ sh, Forall (λ w, w.2 ≠ CellStr "Arrifana") (cells sh))
             (sheets wb).
Proof.
  eexists. split; [vm_compute; reflexivity|]. split; [reflexivity|].
  cbn [sheets]. repeat (apply Forall_cons; split); try apply Forall_nil;
    done.
Qed.
